(** * YouTube-Downloader: option resolution, output templates, progress hooks

    A shallow embedding of [src/downloader.py] and [src/app.py].

    Python values are modelled as follows.
    - [str] is a list of Unicode code points ([pystr]); source literals are
      written [lit "..."].
    - a [dict] with string keys is a [gmap string _].
    - code that prints, reads the terminal, calls [yt_dlp] or raises runs in
      the monad [M]: explicit state passing over the terminal and the trace
      of library calls, with a result that is a value or a raised exception.
    - [yt_dlp] and [re] are libraries outside the repository; they are taken
      as the fields of a record [Library], and every theorem holds for every
      such record. What [yt_dlp] does during a download is a [ydl_run]: it
      shows text, reports events to the registered progress hooks, which
      run as this program's code, and returns or raises.
    - a [float] is an IEEE 754 binary64 number with the arithmetic of
      [SpecFloat]; [pathlib] is the POSIX flavour. *)

From Stdlib Require Import ZArith NArith SpecFloat List Ascii String Lia.
From Stdlib Require Import DecimalString DecimalPos DecimalZ.
From stdpp Require Import base gmap strings list.

Local Open Scope Z_scope.

(** ** Python strings *)

Module PyStr.

Abbreviation codepoint := N (only parsing).
Abbreviation pystr := (list N) (only parsing).

(** A source literal (ASCII) as a Python string. *)
Definition lit (s : string) : pystr :=
  N_of_ascii <$> list_ascii_of_string s.

(** [str.isspace] on one character: the code points CPython's
    [_PyUnicode_IsWhitespace] accepts. *)
Definition isspace (c : codepoint) : bool :=
  ((9 <=? c) && (c <=? 13) || (28 <=? c) && (c <=? 32)
   || (c =? 133) || (c =? 160) || (c =? 5760)
   || (8192 <=? c) && (c <=? 8202)
   || (c =? 8232) || (c =? 8233) || (c =? 8239) || (c =? 8287)
   || (c =? 12288))%N.

Fixpoint lstrip (s : pystr) : pystr :=
  match s with
  | c :: s' => if isspace c then lstrip s' else s
  | [] => []
  end.

Definition rstrip (s : pystr) : pystr := rev (lstrip (rev s)).

(** [s.strip()] *)
Definition strip (s : pystr) : pystr := rstrip (lstrip s).

(** [s.lower()] and [s.upper()] on the ASCII letters. The source only
    compares lowered text with ASCII literals and only uppercases the
    ASCII values of [VideoFormat]; no character outside ASCII lowercases
    to one of the letters compared with. *)
Definition lower_char (c : codepoint) : codepoint :=
  (if (65 <=? c) && (c <=? 90) then c + 32 else c)%N.
Definition upper_char (c : codepoint) : codepoint :=
  (if (97 <=? c) && (c <=? 122) then c - 32 else c)%N.
Definition lower (s : pystr) : pystr := lower_char <$> s.
Definition upper (s : pystr) : pystr := upper_char <$> s.

(** Python truthiness of a string. *)
Definition nonempty (s : pystr) : bool :=
  match s with [] => false | _ => true end.

(** [sep.join(parts)] *)
Fixpoint join (sep : pystr) (parts : list pystr) : pystr :=
  match parts with
  | [] => []
  | [p] => p
  | p :: ps => p ++ sep ++ join sep ps
  end.

(** [s.split(sep)] for a one-character separator: the fields between the
    separators, empty fields included. *)
Fixpoint split (sep : codepoint) (s : pystr) : list pystr :=
  match s with
  | [] => [[]]
  | c :: s' =>
      if (c =? sep)%N then [] :: split sep s'
      else match split sep s' with
           | f :: fs => (c :: f) :: fs
           | [] => [[c]]
           end
  end.

(** [s.rfind(c)]: the index of the last occurrence of [c], if any. *)
Fixpoint rfind (c : codepoint) (s : pystr) : option nat :=
  match s with
  | [] => None
  | x :: s' =>
      match rfind c s' with
      | Some i => Some (S i)
      | None => if (x =? c)%N then Some O else None
      end
  end.

(** [s.startswith(p)] *)
Fixpoint startswith (p s : pystr) : bool :=
  match p, s with
  | [], _ => true
  | a :: p', b :: s' => (a =? b)%N && startswith p' s'
  | _ :: _, [] => false
  end.

End PyStr.
Import PyStr.

(** ** [pathlib] on POSIX

    [Path(s)] keeps the root and the non-empty components other than [.];
    [str], [name] and [stem] follow CPython's [PurePosixPath] (3.8 to
    3.13). *)

Module PyPath.

Record Path := { root : pystr; tail : list pystr }.

(** [posixpath.splitroot]: exactly two leading slashes are kept as a root
    of their own, any other number collapses to one. *)
Definition splitroot (p : pystr) : pystr * pystr :=
  match p with
  | 47%N :: 47%N :: 47%N :: _ => (lit "/", drop 1 p)
  | 47%N :: 47%N :: rel => (lit "//", rel)
  | 47%N :: rel => (lit "/", rel)
  | _ => ([], p)
  end.

Definition is_component (x : pystr) : bool :=
  nonempty x && negb (bool_decide (x = lit ".")).

(** [Path(s)] *)
Definition of_str (s : pystr) : Path :=
  let '(r, rel) := splitroot s in
  {| root := r; tail := List.filter is_component (split 47 rel) |}.

(** [str(p)] *)
Definition to_str (p : Path) : pystr :=
  match root p ++ join (lit "/") (tail p) with
  | [] => lit "."
  | s => s
  end.

(** [p.name] *)
Definition name (p : Path) : pystr := List.last (tail p) [].

(** [p.stem]: the name up to its last dot, when that dot is neither the
    first nor the last character of the name. *)
Definition stem (p : Path) : pystr :=
  let n := name p in
  match rfind 46 n with
  | Some i =>
      if (0 <? i)%nat && (i <? length n - 1)%nat then take i n else n
  | None => n
  end.

End PyPath.

(** ** Python values, exceptions and effects *)

Module Py.

(** A [float] is an IEEE 754 binary64 number: a signed zero, an infinity,
    a NaN, or [(-1)^s * m * 2^e]. Its arithmetic is the library's
    [SpecFloat] at precision 53, rounding to nearest, ties to even. *)
Definition float : Type := spec_float.
Definition prec : Z := 53.
Definition emax : Z := 1024.

(** The values that occur in the dictionaries [yt_dlp] hands to this
    program. *)
Inductive pyval :=
| PNone
| PInt (z : Z)
| PFloat (x : float)
| PStr (s : pystr).

Definition is_zero (x : float) : bool :=
  match x with S754_zero _ => true | _ => false end.

(** [bool(v)] *)
Definition truthy (v : pyval) : bool :=
  match v with
  | PNone => false
  | PInt z => negb (z =? 0)
  | PFloat x => negb (is_zero x)
  | PStr s => nonempty s
  end.

(** Exceptions, split the way [except Exception] splits them:
    [KeyboardInterrupt], [SystemExit] and [GeneratorExit] derive from
    [BaseException] only. *)
Inductive exn :=
| Exception (cls : string)
| BaseException (cls : string).

Definition isinstance_Exception (e : exn) : bool :=
  match e with Exception _ => true | BaseException _ => false end.

Inductive result (A : Type) :=
| Ok (a : A)
| Raise (e : exn).
Arguments Ok {A} a.
Arguments Raise {A} e.

(** A computation over a mutable state [S]: it ends with a value or a
    raised exception, and the state changes made before a raise stay. *)
Definition M (S A : Type) : Type := S -> result A * S.

Definition ret {S A} (a : A) : M S A := fun s => (Ok a, s).

Definition bind {S A B} (m : M S A) (k : A -> M S B) : M S B :=
  fun s =>
    match m s with
    | (Ok a, s') => k a s'
    | (Raise e, s') => (Raise e, s')
    end.

Definition raise {S A} (e : exn) : M S A := fun s => (Raise e, s).

(** [try: body / except Exception as e: handler(e)] *)
Definition try_except {S A} (body : M S A) (handler : exn -> M S A) : M S A :=
  fun s =>
    match body s with
    | (Raise e, s') =>
        if isinstance_Exception e then handler e s' else (Raise e, s')
    | r => r
    end.

Definition lift_result {S A} (r : result A) : M S A := fun s => (r, s).

Definition when {S} (b : bool) (m : M S unit) : M S unit :=
  if b then m else ret tt.

(** [d[k]] and [d.get(k, default)] on a dictionary of values. *)
Definition getitem {S} (d : gmap string pyval) (k : string) : M S pyval :=
  match d !! k with
  | Some v => ret v
  | None => raise (Exception "KeyError")
  end.

Definition dict_get (d : gmap string pyval) (k : string) (dflt : pyval) : pyval :=
  default dflt (d !! k).

(** [k in d] *)
Definition contains (d : gmap string pyval) (k : string) : bool :=
  bool_decide (is_Some (d !! k)).

(** [bool(d)] for a dictionary. *)
Definition dict_truthy {V} (d : gmap string V) : bool :=
  negb (Nat.eqb (size d) 0).

(** The float nearest to an integer; an infinity beyond the range. *)
Definition float_of_Z (z : Z) : float := binary_normalize prec emax z 0 false.

(** An [int] operand of float arithmetic is converted first:
    [OverflowError] when it is too large for a float. *)
Definition float_of_int (z : Z) : result float :=
  match float_of_Z z with
  | S754_infinity _ => Raise (Exception "OverflowError")
  | x => Ok x
  end.

(** [x * y] and [x / y] on floats; the division raises on a zero
    divisor, and neither raises on overflow. *)
Definition float_mul (x y : float) : float := SFmul prec emax x y.

Definition float_div (x y : float) : result float :=
  if is_zero y then Raise (Exception "ZeroDivisionError")
  else Ok (SFdiv prec emax x y).

(** An integer as an unrounded binary number. *)
Definition unrounded (z : Z) : float :=
  match z with
  | Z0 => S754_zero false
  | Zpos m => S754_finite false m 0
  | Zneg m => S754_finite true m 0
  end.

(** [a / b]: true division of numbers. Two [int]s give the float nearest
    to the exact quotient, or [OverflowError]; otherwise an [int] operand
    is converted and the floats are divided. *)
Definition truediv (a b : pyval) : result float :=
  match a, b with
  | PInt x, PInt y =>
      if y =? 0 then Raise (Exception "ZeroDivisionError")
      else match SFdiv prec emax (unrounded x) (unrounded y) with
           | S754_infinity _ => Raise (Exception "OverflowError")
           | q => Ok q
           end
  | PInt x, PFloat y =>
      match float_of_int x with
      | Ok x => float_div x y
      | Raise e => Raise e
      end
  | PFloat x, PInt y =>
      match float_of_int y with
      | Ok y => float_div x y
      | Raise e => Raise e
      end
  | PFloat x, PFloat y => float_div x y
  | _, _ => Raise (Exception "TypeError")
  end.

(** [int(x)] for a float: truncation towards zero; an infinity and a NaN
    are refused. *)
Definition int_of_float (x : float) : result Z :=
  match x with
  | S754_zero _ => Ok 0
  | S754_infinity _ => Raise (Exception "OverflowError")
  | S754_nan => Raise (Exception "ValueError")
  | S754_finite s m e =>
      let n := Z.shiftl (Z.pos m) e in
      Ok (if s then - n else n)
  end.

(** [c * n] for a one-character string: empty when [n <= 0]. *)
Definition str_mul (c : codepoint) (n : Z) : pystr := replicate (Z.to_nat n) c.

End Py.
Import Py.

Declare Scope py_scope.
Delimit Scope py_scope with py.
Notation "x <- m ;; k" := (bind m (fun x => k))
  (at level 100, m at next level, right associativity) : py_scope.

(** ** The terminal, the widgets and the libraries *)

Module World.

(** A reference to a progress callback: the [DefaultProgressHook] the
    downloader creates for itself, the [StreamlitProgressHook] the GUI
    installs, or a callable from elsewhere. *)
Inductive callable :=
| DefaultProgressHook_object
| StreamlitProgressHook_object
| Callback (id : N).

(** The values of the option dictionaries passed to [yt_dlp.YoutubeDL]. *)
Inductive optval :=
| OBool (b : bool)
| OStr (s : pystr)
| OHooks (hooks : list callable)
| OPostprocessors (pps : list (gmap string pystr)).

(** The pieces of a formatted line. Literal text is kept without its
    emoji; [Fixed1 x] is [{x:.1f}] and [Int02 z] is [{z:02d}]. *)
Inductive fragment :=
| Txt (s : string)
| Str (s : pystr)
| Val (v : pyval)
| Exc (e : exn)
| Fixed1 (x : float)
| Int02 (z : Z).

(** What the user gets to see: [print], the prompt of [input], and the two
    Streamlit widgets of the GUI hook. *)
Inductive out_event :=
| Printed (line : list fragment)
| Prompt (text : string)
| BarProgress (value : Z)
| StatusText (line : list fragment).

(** The calls made into [yt_dlp]. One entry stands for a whole
    [with yt_dlp.YoutubeDL(opts) as ydl: ydl.f(...)] block. *)
Inductive lib_call :=
| ExtractInfo (opts : gmap string optval) (url : pystr) (download : bool)
| Download (opts : gmap string optval) (urls : list pystr).

Record io := {
  stdin : list pystr;          (* the lines the user will type *)
  out : list out_event;        (* what has been shown, oldest first *)
  calls : list lib_call;       (* the library calls made, oldest first *)
}.

(** What [yt_dlp] does while it downloads. It shows something on the
    terminal (so does foreign code it calls); it reports an event to the
    registered progress hooks and goes on according to how they ended,
    with a value or with the exception one of them raised; in the end it
    returns its code or raises. *)
Inductive ydl_run :=
| Finish (r : result Z)
| Shows (e : out_event) (rest : ydl_run)
| Reports (d : gmap string pyval) (rest : result unit -> ydl_run).

(** The libraries the program delegates to. [re_match p s] is
    [re.match(p, s, re.IGNORECASE) is not None]; [ydl_extract_info] gives
    the outcome of a [with yt_dlp.YoutubeDL(opts)] block that calls
    [extract_info(url, download=...)], and [ydl_download] what such a
    block does when it calls [download(urls)]. *)
Record Library := {
  re_match : string -> pystr -> bool;
  ydl_extract_info :
    gmap string optval -> pystr -> bool -> result (option (gmap string pyval));
  ydl_download : gmap string optval -> list pystr -> ydl_run;
}.

Definition show (e : out_event) : M io unit :=
  fun s => (Ok tt, {| stdin := stdin s; out := out s ++ [e]; calls := calls s |}).

(** [print(f"...")] *)
Definition print (line : list fragment) : M io unit := show (Printed line).

(** [input(prompt)]: shows the prompt and takes the next line; at the end
    of the input it raises [EOFError]. *)
Definition input (prompt : string) : M io pystr :=
  (_ <- show (Prompt prompt) ;;
   fun s =>
     match stdin s with
     | l :: ls => (Ok l, {| stdin := ls; out := out s; calls := calls s |})
     | [] => (Raise (Exception "EOFError"), s)
     end)%py.

Definition record_call (c : lib_call) : M io unit :=
  fun s => (Ok tt, {| stdin := stdin s; out := out s; calls := calls s ++ [c] |}).

(** [with yt_dlp.YoutubeDL(opts) as ydl: ydl.extract_info(url, download=dl)] *)
Definition extract_info (lib : Library) (opts : gmap string optval)
    (url : pystr) (dl : bool) : M io (option (gmap string pyval)) :=
  (_ <- record_call (ExtractInfo opts url dl) ;;
   lift_result (ydl_extract_info lib opts url dl))%py.

(** A method of an object with fields [T] runs over the object and the
    world; [on_io] runs a step that only touches the world. *)
Definition on_io {T A} (m : M io A) : M (T * io) A :=
  fun '(self, s) => let '(r, s') := m s in (r, (self, s')).

Definition get_self {T} : M (T * io) T := fun '(self, s) => (Ok self, (self, s)).
Definition set_self {T} (self : T) : M (T * io) unit :=
  fun '(_, s) => (Ok tt, (self, s)).

(** *** The acquisition

    [T] holds the fields of the hook objects, and [call c d] is the call
    [c(d)] of the object behind the reference [c]. *)

Section Acquisition.
Context {T : Type}.
Variable call : callable -> gmap string pyval -> M (T * io) unit.

(** [for ph in hooks: ph(d)] *)
Fixpoint call_all (hooks : list callable) (d : gmap string pyval)
    : M (T * io) unit :=
  match hooks with
  | [] => ret tt
  | h :: hooks => (_ <- call h d ;; call_all hooks d)%py
  end.

(** The hooks registered under [progress_hooks]. *)
Definition registered_hooks (opts : gmap string optval) : list callable :=
  match opts !! "progress_hooks"%string with
  | Some (OHooks hooks) => hooks
  | _ => []
  end.

Fixpoint ydl_perform (hooks : list callable) (run : ydl_run) : M (T * io) Z :=
  match run with
  | Finish r => lift_result r
  | Shows e rest => (_ <- on_io (show e) ;; ydl_perform hooks rest)%py
  | Reports d rest =>
      fun st =>
        let '(r, st') := call_all hooks d st in
        ydl_perform hooks (rest r) st'
  end.

(** [with yt_dlp.YoutubeDL(opts) as ydl: ydl.download(urls)] *)
Definition ydl_download_urls (lib : Library) (opts : gmap string optval)
    (urls : list pystr) : M (T * io) Z :=
  (_ <- on_io (record_call (Download opts urls)) ;;
   ydl_perform (registered_hooks opts) (ydl_download lib opts urls))%py.

End Acquisition.

(** [v == 'literal'] *)
Definition eq_str (v : pyval) (s : pystr) : bool :=
  match v with
  | PStr x => bool_decide (x = s)
  | _ => false
  end.

(** [Path(v)]: [TypeError] unless [v] is a string. *)
Definition Path_of {S} (v : pyval) : M S PyPath.Path :=
  match v with
  | PStr s => ret (PyPath.of_str s)
  | _ => raise (Exception "TypeError")
  end.

End World.
Import World.

(** ** [downloader.py] *)

Local Open Scope py_scope.

(** [class Quality(Enum)] and its values. *)
Inductive Quality := BEST | HD_4K | HD_1080 | HD_720 | AUDIO_ONLY.

Definition Quality_value (q : Quality) : pystr :=
  match q with
  | BEST => lit "best[ext=mp4]/best"
  | HD_4K => lit "best[height<=2160][ext=mp4]/bestvideo[height<=2160]+bestaudio[ext=m4a]/best[height<=2160]"
  | HD_1080 => lit "best[height<=1080][ext=mp4]/bestvideo[height<=1080]+bestaudio[ext=m4a]/best[height<=1080]"
  | HD_720 => lit "best[height<=720][ext=mp4]/bestvideo[height<=720]+bestaudio[ext=m4a]/best[height<=720]"
  | AUDIO_ONLY => lit "bestaudio"
  end.

(** [class VideoFormat(Enum)] and its values. *)
Inductive VideoFormat := MP4 | WEBM | MKV | AVI.

Definition VideoFormat_value (f : VideoFormat) : pystr :=
  match f with
  | MP4 => lit "mp4"
  | WEBM => lit "webm"
  | MKV => lit "mkv"
  | AVI => lit "avi"
  end.

#[global] Instance Quality_eq_dec : EqDecision Quality.
Proof. solve_decision. Defined.
#[global] Instance VideoFormat_eq_dec : EqDecision VideoFormat.
Proof. solve_decision. Defined.

(** *** [class DefaultProgressHook] *)

Module DefaultProgressHook.

Record t := {
  last_printed_percent : Z;
  current_stage : pystr;
}.

Definition __init__ : t :=
  {| last_printed_percent := -1; current_stage := lit "Downloading" |}.

(** [(d['downloaded_bytes'] / d[total]) * 100] *)
Definition percent_of (d : gmap string pyval) (total : string)
    : M (t * io) float :=
  a <- getitem d "downloaded_bytes" ;;
  b <- getitem d total ;;
  x <- lift_result (truediv a b) ;;
  ret (float_mul x (float_of_Z 100)).

Definition __call__ (d : gmap string pyval) : M (t * io) unit :=
  status <- getitem d "status" ;;
  if eq_str status (lit "downloading") then
    percent <- (if contains d "total_bytes" then
                  p <- percent_of d "total_bytes" ;; ret (Some p)
                else if contains d "total_bytes_estimate" then
                  p <- percent_of d "total_bytes_estimate" ;; ret (Some p)
                else ret None) ;;
    match percent with
    | None => ret tt
    | Some percent =>
        current_percent <- lift_result (int_of_float percent) ;;
        self <- get_self ;;
        if negb (current_percent =? last_printed_percent self)
           && (current_percent mod 2 =? 0) then
          _ <- set_self {| last_printed_percent := current_percent;
                           current_stage := current_stage self |} ;;
          let bar_length := 30 in
          x <- lift_result
                 (truediv (PFloat (float_mul (float_of_Z bar_length) percent))
                    (PInt 100)) ;;
          filled_length <- lift_result (int_of_float x) ;;
          let bar := str_mul 9608 filled_length
                     ++ str_mul 9617 (bar_length - filled_length) in
          self <- get_self ;;
          on_io (print [Txt "\r"; Str (current_stage self); Txt ": [";
                        Str bar; Txt "] "; Fixed1 percent; Txt "%"])
        else ret tt
    end
  else if eq_str status (lit "finished") then
    filename <- getitem d "filename" ;;
    p <- Path_of filename ;;
    on_io (print [Txt "\nDownloaded: "; Str (PyPath.name p)])
  else if eq_str status (lit "error") then
    on_io (print [Txt "\nError during download: ";
                  Val (dict_get d "error" (PStr (lit "Unknown error")))])
  else ret tt.

End DefaultProgressHook.

(** *** [class URLValidator] *)

Module URLValidator.

Definition YOUTUBE_PATTERNS : list string := [
  "(?:https?://)?(?:www\.)?youtube\.com/watch\?v=[\w-]+";
  "(?:https?://)?(?:www\.)?youtube\.com/playlist\?list=[\w-]+";
  "(?:https?://)?youtu\.be/[\w-]+";
  "(?:https?://)?(?:www\.)?youtube\.com/c/[\w-]+";
  "(?:https?://)?(?:www\.)?youtube\.com/channel/[\w-]+";
  "(?:https?://)?(?:www\.)?youtube\.com/@[\w-]+";
  "(?:https?://)?(?:music\.)?youtube\.com/[\w/?=&-]+";
  "(?:https?://)?(?:m\.)?youtube\.com/[\w/?=&-]+";
  "(?:https?://)?(?:www\.)?youtube\.com/embed/[\w-]+";
  "(?:https?://)?(?:www\.)?youtube\.com/shorts/[\w-]+"
]%string.

Section WithLibrary.
Variable lib : Library.

Definition _matches_youtube_pattern (url : pystr) : bool :=
  existsb (fun pattern => re_match lib pattern url) YOUTUBE_PATTERNS.

Definition probe_opts : gmap string optval :=
  list_to_map [("quiet", OBool true); ("no_warnings", OBool true);
               ("extract_flat", OBool true)]%string.

Definition _test_url_with_ydlp (url : pystr) : M io bool :=
  try_except
    (info <- extract_info lib probe_opts url false ;;
     ret (bool_decide (is_Some info)))
    (fun _ => ret false).

(** The [while True] loop of [validate_url]: one round per line the user
    types, until the answer is y, yes, n or no. *)
Fixpoint confirm (url : pystr) (lines : list pystr) (shown : list out_event)
    : result (bool * pystr) * list pystr * list out_event :=
  let shown := shown ++ [Prompt "Try to download anyway? (y/n): "] in
  match lines with
  | [] => (Raise (Exception "EOFError"), [], shown)
  | line :: rest =>
      let choice := lower (strip line) in
      if bool_decide (choice ∈ [lit "y"; lit "yes"]) then
        (Ok (true, url), rest,
         shown ++ [Printed [Txt "Attempting download with unverified URL..."]])
      else if bool_decide (choice ∈ [lit "n"; lit "no"]) then
        (Ok (false, url), rest, shown)
      else
        confirm url rest (shown ++ [Printed [Txt "Please enter 'y' or 'n'"]])
  end.

Definition confirm_loop (url : pystr) : M io (bool * pystr) :=
  fun s =>
    let '(r, rest, shown) := confirm url (stdin s) (out s) in
    (r, {| stdin := rest; out := shown; calls := calls s |}).

Definition validate_url (url : pystr) (interactive : bool) : M io (bool * pystr) :=
  let url := strip url in
  if _matches_youtube_pattern url then ret (true, url)
  else
    probed <- _test_url_with_ydlp url ;;
    if probed then ret (true, url)
    else if interactive then
      _ <- print [Txt "URL format not recognized: "; Str url] ;;
      _ <- print [Txt "This might still be a valid YouTube link or supported video platform."] ;;
      confirm_loop url
    else ret (false, url).

Definition info_opts (extract_flat : bool) : gmap string optval :=
  list_to_map [("quiet", OBool true); ("no_warnings", OBool true);
               ("extract_flat", OBool extract_flat)]%string.

Definition get_video_info (url : pystr) (extract_flat : bool)
    : M io (option (gmap string pyval)) :=
  try_except
    (info <- extract_info lib (info_opts extract_flat) url false ;;
     ret info)
    (fun e =>
       _ <- when (negb extract_flat)
              (print [Txt "Failed to get video info: "; Exc e]) ;;
       ret None).

Definition get_video_info_fast (url : pystr) : M io (option (gmap string pyval)) :=
  get_video_info url false.

End WithLibrary.
End URLValidator.

(** *** [class YouTubeDownloader] *)

Module YouTubeDownloader.

Record t := {
  output_dir : PyPath.Path;
  custom_filename : option pystr;
  preferred_format : option VideoFormat;
  progress_hook : callable;
}.

(** [__init__]: [x or y] keeps [x] unless it is [None] (an enum member and
    a callback are always truthy). *)
Definition __init__ (output_dir : pystr) (custom_filename : option pystr)
    (preferred_format : option VideoFormat)
    (progress_callback : option callable) : t :=
  {| output_dir := PyPath.of_str output_dir;
     custom_filename := custom_filename;
     preferred_format := Some (default MP4 preferred_format);
     progress_hook := default DefaultProgressHook_object progress_callback |}.

(** [bool(self.custom_filename)]: set and not the empty string. *)
Definition custom_filename_truthy (self : t) : bool :=
  match custom_filename self with
  | Some f => nonempty f
  | None => false
  end.

Definition _get_output_template (self : t) (is_playlist : bool)
    (video_info : option (gmap string pyval)) : pystr :=
  let base_dir := PyPath.to_str (output_dir self) in
  if custom_filename_truthy self && negb is_playlist then
    let name_without_ext :=
      PyPath.stem (PyPath.of_str (default [] (custom_filename self))) in
    base_dir ++ lit "/" ++ name_without_ext ++ lit ".%(ext)s"
  else if is_playlist then
    base_dir ++ lit "/%(playlist)s/%(playlist_index)s - %(title)s.%(ext)s"
  else
    base_dir ++ lit "/%(title)s.%(ext)s".

(** The two dictionaries of [_build_format_string], as partial maps on
    [Quality]. *)
Definition base_formats (q : Quality) : option pystr :=
  match q with
  | BEST => Some (lit "best")
  | HD_4K => Some (lit "bestvideo[height<=2160]+bestaudio/best[height<=2160]")
  | HD_1080 => Some (lit "bestvideo[height<=1080]+bestaudio/best[height<=1080]")
  | HD_720 => Some (lit "bestvideo[height<=720]+bestaudio/best[height<=720]")
  | AUDIO_ONLY => None
  end.

Definition format_preferences (q : Quality) : option pystr :=
  match q with
  | BEST =>
      Some (lit "best[ext=mp4]/" ++ lit "bestvideo[ext=mp4]+bestaudio[ext=m4a]/"
            ++ lit "best")
  | HD_4K =>
      Some (lit "best[height<=2160][ext=mp4]/"
            ++ lit "bestvideo[height<=2160][ext=mp4]+bestaudio[ext=m4a]/"
            ++ lit "best[height<=2160]")
  | HD_1080 =>
      Some (lit "best[height<=1080][ext=mp4]/"
            ++ lit "bestvideo[height<=1080][ext=mp4]+bestaudio[ext=m4a]/"
            ++ lit "best[height<=1080]")
  | HD_720 =>
      Some (lit "best[height<=720][ext=mp4]/"
            ++ lit "bestvideo[height<=720][ext=mp4]+bestaudio[ext=m4a]/"
            ++ lit "best[height<=720]")
  | AUDIO_ONLY => None
  end.

Definition _build_format_string (self : t) (quality : Quality)
    (force_convert : bool) : pystr :=
  if force_convert then default (lit "best") (base_formats quality)
  else default (lit "best[ext=mp4]/best") (format_preferences quality).

(** [opts.update(other)] *)
Definition dict_update {V} (other opts : gmap string V) : gmap string V :=
  other ∪ opts.

Definition _get_ydl_opts (self : t) (quality : Quality) (is_playlist : bool)
    (video_info : option (gmap string pyval)) (force_convert : bool)
    : gmap string optval :=
  let opts : gmap string optval :=
    list_to_map [
      ("outtmpl", OStr (_get_output_template self is_playlist video_info));
      ("progress_hooks", OHooks [progress_hook self]);
      ("no_warnings", OBool true);
      ("ignoreerrors", OBool false);
      ("extract_flat", OBool false);
      ("merge_output_format", OStr (lit "mp4"))
    ]%string in
  if bool_decide (quality = AUDIO_ONLY) then
    dict_update
      (list_to_map [
         ("format", OStr (lit "bestaudio/best"));
         ("postprocessors", OPostprocessors [
            list_to_map [("key", lit "FFmpegExtractAudio");
                         ("preferredcodec", lit "mp3");
                         ("preferredquality", lit "192")]%string ])
       ]%string)
      opts
  else
    let format_string := _build_format_string self quality force_convert in
    let opts := <["format"%string := OStr format_string]> opts in
    let postprocessors : list (gmap string pystr) := [] in
    let postprocessors :=
      match force_convert, preferred_format self with
      | true, Some fmt =>
          postprocessors ++ [
            list_to_map [("key", lit "FFmpegVideoConvertor");
                         ("preferedformat", VideoFormat_value fmt)]%string ]
      | _, _ => postprocessors
      end in
    let postprocessors :=
      postprocessors ++ [ list_to_map [("key", lit "FFmpegMetadata")]%string ] in
    match postprocessors with
    | [] => opts
    | _ => <["postprocessors"%string := OPostprocessors postprocessors]> opts
    end.

(** The lines [download] prints before the acquisition when it is not
    silent. [f"{mins:02d}"] accepts an [int] only: a [float] duration
    raises [ValueError], and [divmod] of a string raises [TypeError]. *)
Definition announce (self : t) (is_playlist : bool)
    (video_info : option (gmap string pyval)) (force_convert : bool)
    : M io unit :=
  _ <- print ([Txt "\nStarting download"]
              ++ (if is_playlist then [Txt "s"] else []) ++ [Txt "..."]) ;;
  _ <- match force_convert, preferred_format self with
       | true, Some fmt =>
           print [Txt "Will convert to "; Str (upper (VideoFormat_value fmt));
                  Txt " format"]
       | _, pf =>
           when (bool_decide (pf = Some MP4))
             (print [Txt "Preferring MP4 format for better compatibility"])
       end ;;
  match video_info with
  | Some info =>
      when (dict_truthy info && negb is_playlist)
        (let title := dict_get info "title" (PStr (lit "Unknown")) in
         let duration := dict_get info "duration" (PInt 0) in
         let uploader := dict_get info "uploader" (PStr (lit "Unknown")) in
         _ <- print [Txt "Title: "; Val title] ;;
         _ <- print [Txt "Uploader: "; Val uploader] ;;
         when (truthy duration)
           match duration with
           | PInt z =>
               let '(mins, secs) := (z / 60, z mod 60) in
               print [Txt "Duration: "; Int02 mins; Txt ":"; Int02 secs]
           | PFloat _ => raise (Exception "ValueError")
           | _ => raise (Exception "TypeError")
           end)
  | None => ret tt
  end.

(** The lines [download] prints after a failure when it is not silent. *)
Definition tips (e : exn) : M io unit :=
  _ <- print [Txt "Download failed: "; Exc e] ;;
  _ <- print [Txt "Tips:"] ;;
  _ <- print [Txt "   - Try a different quality setting"] ;;
  _ <- print [Txt "   - Use --force-convert to ensure specific output format"] ;;
  print [Txt "   - Check if the video is available in your region"].

(** [download] runs over the fields [T] of the hook objects, which the
    acquisition calls through [call], and over the world. *)
Definition download {T} (call : callable -> gmap string pyval -> M (T * io) unit)
    (lib : Library) (self : t) (url : pystr) (quality : Quality)
    (is_playlist : bool) (video_info : option (gmap string pyval))
    (force_convert silent : bool) : M (T * io) bool :=
  try_except
    (let opts := _get_ydl_opts self quality is_playlist video_info force_convert in
     _ <- when (negb silent)
            (on_io (announce self is_playlist video_info force_convert)) ;;
     _ <- ydl_download_urls call lib opts [url] ;;
     ret true)
    (fun e =>
       _ <- when (negb silent) (on_io (tips e)) ;;
       ret false).

Definition set_progress_hook (self : t) (hook : callable) : t :=
  {| output_dir := output_dir self;
     custom_filename := custom_filename self;
     preferred_format := preferred_format self;
     progress_hook := hook |}.

End YouTubeDownloader.

(** ** [app.py] *)

(** The characters the pattern of [clean_filename] deletes: less-than,
    greater-than, colon, double quote, slash, backslash, bar, question mark
    and star. *)
Definition invalid_filename_chars : list codepoint :=
  [60; 62; 58; 34; 47; 92; 124; 63; 42]%N.

Definition is_invalid_filename_char (c : codepoint) : bool :=
  bool_decide (c ∈ invalid_filename_chars).

(** [clean_filename]: [re.sub] deletes the invalid characters, then
    [.strip()[:100]]. *)
Definition clean_filename (filename : pystr) : pystr :=
  let clean_name :=
    List.filter (fun c => negb (is_invalid_filename_char c)) filename in
  let clean_name := take 100 (strip clean_name) in
  clean_name.

(** *** [class StreamlitProgressHook]

    [progress_bar.progress(n)] and [status_text.text(s)] are recorded as
    [BarProgress n] and [StatusText s]. *)

Module StreamlitProgressHook.

Record t := { last_percent : Z }.

Definition __init__ : t := {| last_percent := 0 |}.

Definition megabyte : pyval := PInt (1024 * 1024).

(** [self.progress_bar.progress(n)]: Streamlit takes an [int] from 0 to
    100 and raises its [StreamlitAPIException] for any other. *)
Definition progress_bar_progress (n : Z) : M (t * io) unit :=
  if (0 <=? n) && (n <=? 100) then on_io (show (BarProgress n))
  else raise (Exception "StreamlitAPIException").

(** [self.status_text.text(line)] *)
Definition status_text_text (line : list fragment) : M (t * io) unit :=
  on_io (show (StatusText line)).

(** The three numbers of a [downloading] event whose total is under the
    key [total]. *)
Definition measures (d : gmap string pyval) (total : string)
    : M (t * io) (float * float * float) :=
  a <- getitem d "downloaded_bytes" ;;
  b <- getitem d total ;;
  x <- lift_result (truediv a b) ;;
  let percent := float_mul x (float_of_Z 100) in
  a <- getitem d "downloaded_bytes" ;;
  downloaded_mb <- lift_result (truediv a megabyte) ;;
  b <- getitem d total ;;
  total_mb <- lift_result (truediv b megabyte) ;;
  ret (percent, downloaded_mb, total_mb).

Definition __call__ (d : gmap string pyval) : M (t * io) unit :=
  status <- getitem d "status" ;;
  if eq_str status (lit "downloading") then
    m <- (if contains d "total_bytes" then
            m <- measures d "total_bytes" ;; ret (Some m)
          else if contains d "total_bytes_estimate" then
            m <- measures d "total_bytes_estimate" ;; ret (Some m)
          else ret None) ;;
    match m with
    | None => ret tt
    | Some (percent, downloaded_mb, total_mb) =>
        n <- lift_result (int_of_float percent) ;;
        _ <- progress_bar_progress n ;;
        status_text_text [Txt "Downloading... "; Fixed1 percent;
                          Txt "% ("; Fixed1 downloaded_mb; Txt "MB / ";
                          Fixed1 total_mb; Txt "MB)"]
    end
  else if eq_str status (lit "finished") then
    p <- (v <- getitem d "filename" ;; Path_of v) ;;
    let filename := PyPath.name p in
    _ <- progress_bar_progress 100 ;;
    status_text_text [Txt "Download completed: "; Str filename]
  else if eq_str status (lit "error") then
    status_text_text [Txt "Error: ";
                      Val (dict_get d "error" (PStr (lit "Unknown error")))]
  else ret tt.

End StreamlitProgressHook.

(** ** The hook objects of a run

    The fields of the [DefaultProgressHook] a downloader creates for
    itself and of the [StreamlitProgressHook] the GUI installs. A callable
    from elsewhere is foreign code, as [yt_dlp] is: what it shows and
    whether it raises is part of the library's run. *)

Record hook_objects := {
  console_hook : DefaultProgressHook.t;
  gui_hook : StreamlitProgressHook.t;
}.

(** [c(d)] for the object behind the reference [c]. *)
Definition call_hook (c : callable) (d : gmap string pyval)
    : M (hook_objects * io) unit :=
  fun '(objects, s) =>
    match c with
    | DefaultProgressHook_object =>
        let '(r, (self, s')) :=
          DefaultProgressHook.__call__ d (console_hook objects, s) in
        (r, ({| console_hook := self; gui_hook := gui_hook objects |}, s'))
    | StreamlitProgressHook_object =>
        let '(r, (self, s')) :=
          StreamlitProgressHook.__call__ d (gui_hook objects, s) in
        (r, ({| console_hook := console_hook objects; gui_hook := self |}, s'))
    | Callback _ => (Ok tt, (objects, s))
    end.

(** The objects as their constructors leave them. *)
Definition new_hooks : hook_objects :=
  {| console_hook := DefaultProgressHook.__init__;
     gui_hook := StreamlitProgressHook.__init__ |}.

(** ** Running a hook on an event *)

Definition world0 : io := {| stdin := []; out := []; calls := [] |}.

(** What a hook shows for an event when it starts from an empty screen. *)
Definition rendered {T} (hook : M (T * io) unit) (self : T) : list out_event :=
  out (snd (snd (hook (self, world0)))).

(** ** The format expressions in the specification's words

    The expressions of each quality tier, built from the tier's height
    limit, to be compared with the strings the source spells out. *)

(** [p in s] for strings. *)
Fixpoint is_infix (p s : pystr) : bool :=
  startswith p s
  || match s with
     | [] => false
     | _ :: s' => is_infix p s'
     end.

Definition height_filter (q : Quality) : pystr :=
  match q with
  | HD_4K => lit "[height<=2160]"
  | HD_1080 => lit "[height<=1080]"
  | HD_720 => lit "[height<=720]"
  | BEST | AUDIO_ONLY => []
  end.

(** Any container: [best], or best video up to the limit plus best audio,
    else the best single file up to the limit. *)
Definition relaxed_expression (q : Quality) : pystr :=
  match q with
  | BEST => lit "best"
  | _ => lit "bestvideo" ++ height_filter q ++ lit "+bestaudio/best"
         ++ height_filter q
  end.

(** MP4 first: a single MP4 file, else MP4 video plus M4A audio, else
    whatever is best, each within the tier's height limit. *)
Definition mp4_preferring_chain (q : Quality) : pystr :=
  lit "best" ++ height_filter q ++ lit "[ext=mp4]/"
  ++ lit "bestvideo" ++ height_filter q ++ lit "[ext=mp4]+bestaudio[ext=m4a]/"
  ++ lit "best" ++ height_filter q.

(** A post-processing step is exactly the given entries. *)
Definition step_is (step : gmap string pystr) (entries : list (string * pystr)) : Prop :=
  size step = length entries
  /\ Forall (fun kv => step !! kv.1 = Some kv.2) entries.

(** ** Whitespace at the ends of a string *)

Definition no_leading_whitespace (s : pystr) : Prop :=
  forall c, head s = Some c -> isspace c = false.

Definition no_trailing_whitespace (s : pystr) : Prop :=
  forall c, last s = Some c -> isspace c = false.

(** A file name of 101 characters: 99 letters, a space and one more
    letter. *)
Definition long_filename : pystr := replicate 99 97%N ++ lit " b".

(** ** Progress events *)

(** The world after some more lines were shown. *)
Definition shows (s : io) (events : list out_event) : io :=
  {| stdin := stdin s; out := out s ++ events; calls := calls s |}.

(** The percentage of a [downloading] event, when it has one: the
    downloaded bytes over [total_bytes], or over [total_bytes_estimate]
    when there is no [total_bytes] key, times 100, in floating point.
    There is none when the key is absent, when a value is not a number,
    when the total is 0, or when an [int] is beyond the floats. *)
Definition event_percent (d : gmap string pyval) : option float :=
  let total :=
    if contains d "total_bytes" then d !! "total_bytes"%string
    else d !! "total_bytes_estimate"%string in
  match d !! "downloaded_bytes"%string, total with
  | Some a, Some b =>
      match truediv a b with
      | Ok x => Some (float_mul x (float_of_Z 100))
      | Raise _ => None
      end
  | _, _ => None
  end.

(** The key the hooks read the total from. *)
Definition total_key (d : gmap string pyval) : string :=
  if contains d "total_bytes" then "total_bytes" else "total_bytes_estimate".

(** The two sizes of a [downloading] event in megabytes, when both are
    numbers within the floats. *)
Definition event_megabytes (d : gmap string pyval) : option (float * float) :=
  match d !! "downloaded_bytes"%string, d !! total_key d with
  | Some a, Some b =>
      match truediv a StreamlitProgressHook.megabyte,
            truediv b StreamlitProgressHook.megabyte with
      | Ok y, Ok z => Some (y, z)
      | _, _ => None
      end
  | _, _ => None
  end.

(** The integer percentage of such an event: [int(percent)], when the
    percentage is finite. *)
Definition event_int_percent (d : gmap string pyval) : option Z :=
  match event_percent d with
  | Some p => match int_of_float p with Ok n => Some n | Raise _ => None end
  | None => None
  end.


(** The event carries a total under one of the two keys. *)
Definition carries_total (d : gmap string pyval) : bool :=
  contains d "total_bytes" || contains d "total_bytes_estimate".

(** A status other than the three the hooks know. *)
Definition unknown_status (v : pyval) : Prop :=
  v <> PStr (lit "downloading") /\ v <> PStr (lit "finished")
  /\ v <> PStr (lit "error").

(** The filled cells of the bar: [int(30 * percent / 100)]. *)
Definition bar_fill (percent : float) : result Z :=
  match truediv (PFloat (float_mul (float_of_Z 30) percent)) (PInt 100) with
  | Ok x => int_of_float x
  | Raise e => Raise e
  end.

(** The progress line of the console hook. *)
Definition progress_line (stage : pystr) (percent : float) (filled : Z)
    : out_event :=
  Printed [Txt "\r"; Str stage; Txt ": [";
           Str (str_mul 9608 filled ++ str_mul 9617 (30 - filled));
           Txt "] "; Fixed1 percent; Txt "%"].

(** Sample events. *)
Definition event (entries : list (string * pyval)) : gmap string pyval :=
  list_to_map entries.

Definition started_event : gmap string pyval :=
  event [("status", PStr (lit "started"))]%string.

Definition zero_total_event : gmap string pyval :=
  event [("status", PStr (lit "downloading"));
         ("downloaded_bytes", PInt 0); ("total_bytes", PInt 0)]%string.

Definition unknown_total_event : gmap string pyval :=
  event [("status", PStr (lit "downloading"));
         ("downloaded_bytes", PInt 1024); ("total_bytes", PNone)]%string.

Definition half_way_event : gmap string pyval :=
  event [("status", PStr (lit "downloading"));
         ("downloaded_bytes", PInt 512); ("total_bytes", PInt 1024)]%string.

(** [n] bytes of a file of 100. *)
Definition bytes_of_100 (n : Z) : gmap string pyval :=
  event [("status", PStr (lit "downloading"));
         ("downloaded_bytes", PInt n); ("total_bytes", PInt 100)]%string.

(** A [downloading] event of a download whose size is not known. *)
Definition sizeless_event : gmap string pyval :=
  event [("status", PStr (lit "downloading"));
         ("downloaded_bytes", PInt 4096)]%string.

Definition finished_event : gmap string pyval :=
  event [("status", PStr (lit "finished"));
         ("filename", PStr (lit "out/talk.mp4"))]%string.

Definition error_event : gmap string pyval :=
  event [("status", PStr (lit "error"))]%string.

(** ** Sample libraries and answers *)

(** The user's line is one of the four answers [validate_url] waits for. *)
Definition is_answer (line : pystr) : bool :=
  bool_decide (lower (strip line) ∈ [lit "y"; lit "yes"; lit "n"; lit "no"]).

(** No pattern matches and [yt_dlp] fails with its [DownloadError]. *)
Definition offline_library : Library :=
  {| re_match := fun _ _ => false;
     ydl_extract_info := fun _ _ _ => Raise (Exception "DownloadError");
     ydl_download := fun _ _ => Finish (Raise (Exception "DownloadError")) |}.

(** The user presses Ctrl-C while [yt_dlp] is at work. *)
Definition interrupted_library : Library :=
  {| re_match := fun _ _ => false;
     ydl_extract_info := fun _ _ _ => Raise (BaseException "KeyboardInterrupt");
     ydl_download := fun _ _ => Finish (Raise (BaseException "KeyboardInterrupt")) |}.

(** [yt_dlp] finds a video and downloads it. *)
Definition working_library : Library :=
  {| re_match := fun _ _ => false;
     ydl_extract_info := fun _ _ _ =>
       Ok (Some (event [("title", PStr (lit "talk")); ("duration", PInt 754)]%string));
     ydl_download := fun _ _ => Finish (Ok 0) |}.

Definition sample_url : pystr := lit "  https://example.org/v/1 ".

Definition sample_downloader : YouTubeDownloader.t :=
  YouTubeDownloader.__init__ (lit "out") None None None.

(** Metadata with a duration that is not a whole number of seconds:
    12.5. *)
Definition twelve_and_a_half : float :=
  Eval vm_compute in SFdiv prec emax (float_of_Z 25) (float_of_Z 2).

Definition float_duration_info : gmap string pyval :=
  event [("title", PStr (lit "talk"));
         ("duration", PFloat twelve_and_a_half)]%string.

(** The announcement of [download] goes through: the duration, when it is
    printed, is an [int]. *)
Definition duration_formattable (v : pyval) : bool :=
  negb (truthy v) || match v with PInt _ => true | _ => false end.

Definition announce_goes_through (is_playlist : bool)
    (video_info : option (gmap string pyval)) : bool :=
  match video_info with
  | Some info =>
      if dict_truthy info && negb is_playlist
      then duration_formattable (dict_get info "duration" (PInt 0))
      else true
  | None => true
  end.

(** What [download] makes of the outcome of the acquisition. *)
Definition verdict (code : result Z) : result bool :=
  match code with
  | Ok _ => Ok true
  | Raise (Exception _) => Ok false
  | Raise (BaseException cls) => Raise (BaseException cls)
  end.



(** ** [class UserInterface] of [downloader.py] *)

Module UserInterface.

(** [QUALITY_CHOICES] and [FORMAT_CHOICES] *)
Definition QUALITY_CHOICES : gmap (list N) Quality :=
  list_to_map [(lit "1", BEST); (lit "2", HD_4K); (lit "3", HD_1080);
               (lit "4", HD_720); (lit "5", AUDIO_ONLY)].

Definition FORMAT_CHOICES : gmap (list N) VideoFormat :=
  list_to_map [(lit "1", MP4); (lit "2", WEBM); (lit "3", MKV); (lit "4", AVI)].

(** The menus of this class share one loop:
    [while True: choice = input(prompt)...; <return or break on an accepted
    line>; print(complaint)]. [accept line] is the value an accepted line
    leaves the loop with. At the end of the input [input] raises
    [EOFError]. *)
Fixpoint ask {A} (prompt : string) (accept : pystr -> option A)
    (complaint : string) (lines : list pystr) (shown : list out_event)
    : result A * list pystr * list out_event :=
  let shown := shown ++ [Prompt prompt] in
  match lines with
  | [] => (Raise (Exception "EOFError"), [], shown)
  | line :: rest =>
      match accept line with
      | Some a => (Ok a, rest, shown)
      | None => ask prompt accept complaint rest (shown ++ [Printed [Txt complaint]])
      end
  end.

Definition ask_loop {A} (prompt : string) (accept : pystr -> option A)
    (complaint : string) : M io A :=
  fun s =>
    let '(r, rest, shown) := ask prompt accept complaint (stdin s) (out s) in
    (r, {| stdin := rest; out := shown; calls := calls s |}).

(** [choice in ['y', 'yes']] and [choice in ['n', 'no']] for
    [choice = line.strip().lower()] *)
Definition says_yes (line : pystr) : bool :=
  bool_decide (lower (strip line) ∈ [lit "y"; lit "yes"]).
Definition says_no (line : pystr) : bool :=
  bool_decide (lower (strip line) ∈ [lit "n"; lit "no"]).

(** The line [get_quality_choice] leaves its loop with: an empty line is
    the default, a key of [QUALITY_CHOICES] its value. *)
Definition quality_of_line (line : pystr) : option Quality :=
  let choice := strip line in
  if negb (nonempty choice) then Some BEST
  else QUALITY_CHOICES !! choice.

Definition get_quality_choice : M io Quality :=
  _ <- print [Txt "\nSelect download quality:"] ;;
  _ <- print [Txt "1. Best available quality (MP4 preferred)"] ;;
  _ <- print [Txt "2. 4K (2160p)"] ;;
  _ <- print [Txt "3. 1080p"] ;;
  _ <- print [Txt "4. 720p"] ;;
  _ <- print [Txt "5. Audio only (MP3)"] ;;
  ask_loop "\nEnter choice (1-5) [default: 1]: " quality_of_line
    "Invalid choice. Please enter 1-5.".

Definition format_of_line (line : pystr) : option VideoFormat :=
  let choice := strip line in
  if negb (nonempty choice) then Some MP4
  else FORMAT_CHOICES !! choice.

(** The answer to the conversion question: empty, n and no are [False],
    y and yes are [True]. *)
Definition force_of_line (line : pystr) : option bool :=
  let choice := lower (strip line) in
  if negb (nonempty choice) || says_no line then Some false
  else if says_yes line then Some true
  else None.

(** [get_format_preference]. The note about re-encoding is printed where
    the source prints it, right before it leaves the loop with [True]. *)
Definition get_format_preference : M io (VideoFormat * bool) :=
  _ <- print [Txt "\nVideo format preference:"] ;;
  _ <- print [Txt "1. MP4 (recommended - best compatibility)"] ;;
  _ <- print [Txt "2. WebM (smaller file size)"] ;;
  _ <- print [Txt "3. MKV (high quality)"] ;;
  _ <- print [Txt "4. AVI (legacy compatibility)"] ;;
  format_choice <- ask_loop "\nEnter choice (1-4) [default: 1]: " format_of_line
                     "Invalid choice. Please enter 1-4." ;;
  if bool_decide (format_choice = MP4) then
    _ <- print [Txt "\nFormat conversion options:"] ;;
    _ <- print [Txt "YouTube often provides high-quality videos in WebM format."] ;;
    force_convert <-
      ask_loop "Force conversion to MP4 even if it means re-encoding? (y/n) [default: n]: "
        force_of_line "Please enter 'y' or 'n'" ;;
    _ <- when force_convert
           (print [Txt "Note: This may take longer and slightly reduce quality"]) ;;
    ret (format_choice, force_convert)
  else
    ret (format_choice, true).

(** [os.path.basename] on POSIX: what follows the last slash. *)
Definition basename (p : pystr) : pystr :=
  match rfind 47 p with
  | Some i => drop (S i) p
  | None => p
  end.

(** [input(f"...")]: a prompt with interpolated text is recorded as the
    line it shows. *)
Definition input_f (prompt : list fragment) : M io pystr :=
  _ <- print prompt ;;
  fun s =>
    match stdin s with
    | l :: ls => (Ok l, {| stdin := ls; out := out s; calls := calls s |})
    | [] => (Raise (Exception "EOFError"), s)
    end.

(** [re.sub(pattern, '', title)]: [TypeError] unless the title is a
    string. *)
Definition clean_title (title : pyval) : M io pystr :=
  match title with
  | PStr t =>
      let clean_title :=
        List.filter (fun c => negb (bool_decide (c ∈ [60; 62; 58; 34; 47; 92; 124; 63; 42]%N))) t in
      ret (take 50 (strip clean_title))
  | _ => raise (Exception "TypeError")
  end.

(** [get_output_settings]; [cwd] is [os.getcwd()]. *)
Definition get_output_settings (cwd : pystr)
    (video_info : option (gmap string pyval)) : M io (pystr * option pystr) :=
  let current_dir := cwd in
  output_dir <- input_f [Txt "\nOutput directory [current: ";
                         Str (basename current_dir); Txt "]: "] ;;
  let output_dir := strip output_dir in
  let output_dir := if nonempty output_dir then output_dir else current_dir in
  suggested_filename <-
    match video_info with
    | Some info =>
        if dict_truthy info && truthy (dict_get info "title" PNone) then
          title <- getitem info "title" ;;
          clean_title <- clean_title title ;;
          ret [Txt " [suggested: "; Str clean_title; Txt "]"]
        else ret []
    | None => ret []
    end ;;
  custom_filename <- input_f ([Txt "Custom filename (optional)"]
                              ++ suggested_filename ++ [Txt ": "]) ;;
  let custom_filename := strip custom_filename in
  ret (output_dir, if nonempty custom_filename then Some custom_filename else None).

(** [is_playlist_download] *)
Definition is_playlist_download (url : pystr)
    (video_info : option (gmap string pyval)) : M io bool :=
  if is_infix (lit "playlist") (lower url) || is_infix (lit "list=") url then
    _ <- print [Txt "Playlist detected!"] ;;
    choice <- input "Download entire playlist? (y/n) [default: n]: " ;;
    if says_yes choice then ret true else ret false
  else if match video_info with
          | Some info =>
              dict_truthy info
              && eq_str (dict_get info "_type" PNone) (lit "playlist")
          | None => false
          end then
    _ <- print [Txt "This URL contains a playlist!"] ;;
    choice <- input "Download entire playlist? (y/n) [default: n]: " ;;
    if says_yes choice then ret true else ret false
  else
    choice <- input "\nDownload as playlist? (y/n) [default: n]: " ;;
    if says_yes choice then ret true else ret false.

Section WithLibrary.
Variable lib : Library.

(** The answer to [Proceed with this video?]: y, yes and the empty line
    go on, n and no go back to the first question. *)
Definition proceed_of_line (line : pystr) : option bool :=
  if says_yes line || negb (nonempty (lower (strip line))) then Some true
  else if says_no line then Some false
  else None.

(** The answer to [Try to download anyway?]: y and yes go on, n and no go
    back. *)
Definition anyway_of_line (line : pystr) : option bool :=
  if says_yes line then Some true
  else if says_no line then Some false
  else None.

(** One round of the [while True] of [get_url]. [again] is the next
    round: where [continue] leads, and where the body ends after a
    [break] out of an inner loop. *)
Definition get_url_round (again : M io pystr) : M io pystr :=
  line <- input "\nEnter video URL (YouTube or other supported platforms): " ;;
  let url := strip line in
  if negb (nonempty url) then
    _ <- print [Txt "URL cannot be empty. Please try again."] ;;
    again
  else
    validated <- URLValidator.validate_url lib url true ;;
    let '(is_valid, processed_url) := validated in
    if negb is_valid then
      _ <- print [Txt "Skipping this URL. Please try another one."] ;;
      again
    else
      _ <- print [Txt "Getting video information..."] ;;
      info <- URLValidator.get_video_info lib processed_url false ;;
      if match info with Some i => dict_truthy i | None => false end then
        let i := default ∅ info in
        let title := dict_get i "title" (PStr (lit "Unknown title")) in
        let uploader := dict_get i "uploader" (PStr (lit "Unknown uploader")) in
        _ <- print [Txt "Found: "; Val title] ;;
        _ <- print [Txt "   By: "; Val uploader] ;;
        proceed <- ask_loop "Proceed with this video? (y/n): " proceed_of_line
                     "Please enter 'y' or 'n'" ;;
        if proceed then ret processed_url else again
      else
        _ <- print [Txt "Could not retrieve video information, but URL might still work."] ;;
        proceed <- ask_loop "Try to download anyway? (y/n): " anyway_of_line
                     "Please enter 'y' or 'n'" ;;
        if proceed then ret processed_url else again.

(** The loop, unrolled [fuel] times. Every round reads at least one line,
    so one round more than there are lines is never entered. *)
Fixpoint get_url_loop (fuel : nat) : M io pystr :=
  match fuel with
  | O => raise (Exception "EOFError")
  | S fuel => get_url_round (get_url_loop fuel)
  end.

Definition get_url : M io pystr :=
  fun s => get_url_loop (S (length (stdin s))) s.

End WithLibrary.

End UserInterface.

(** ** More of [app.py] *)

Module App.

(** [str(z)]: the decimal digits, with a minus sign below zero. *)
Definition str_of_int (z : Z) : pystr :=
  lit (NilZero.string_of_int (Z.to_int z)).

(** [f"{z:02d}"]: zero-padded to two characters, the sign included. *)
Definition format_02d (z : Z) : pystr :=
  let digits := str_of_int z in
  replicate (2 - length digits) 48%N ++ digits.

(** [format_duration]. The GUI passes [video_info.get('duration', 0)],
    which need not be an [int]: [divmod] refuses a string and [{:02d}] a
    float. *)
Definition format_duration (seconds : pyval) : result pystr :=
  if negb (truthy seconds) then Ok (lit "Unknown")
  else match seconds with
       | PInt z =>
           let '(mins, secs) := (z / 60, z mod 60) in
           Ok (format_02d mins ++ lit ":" ++ format_02d secs)
       | PFloat _ => Raise (Exception "ValueError")
       | _ => Raise (Exception "TypeError")
       end.

Section UploadDate.

(** [str.isdigit] follows the Unicode tables; it is left open. *)
Variable isdigit : pystr -> bool.

(** [format_upload_date]; on a string nothing in its [try] raises. *)
Definition format_upload_date (date_str : pystr) : pystr :=
  if negb (nonempty date_str) || bool_decide (date_str = lit "Unknown")
  then lit "Unknown"
  else if (length date_str =? 8)%nat && isdigit date_str then
    let year := take 4 date_str in
    let month := take 2 (drop 4 date_str) in
    let day := take 2 (drop 6 date_str) in
    year ++ lit "-" ++ month ++ lit "-" ++ day
  else date_str.

End UploadDate.

(** [st.session_state]: a dictionary of values of any type. *)
Inductive stval :=
| SNone
| SBool (b : bool)
| SInt (z : Z)
| SStr (s : pystr)
| SInfo (info : gmap string pyval).

(** [if key not in st.session_state: st.session_state.key = value] *)
Definition setdefault (key : pystr) (value : stval)
    (st : gmap (list N) stval) : gmap (list N) stval :=
  if bool_decide (is_Some (st !! key)) then st else <[key := value]> st.

Definition initialize_session_state (st : gmap (list N) stval)
    : gmap (list N) stval :=
  let st := setdefault (lit "video_info") SNone st in
  let st := setdefault (lit "download_status") SNone st in
  let st := setdefault (lit "is_downloading") (SBool false) st in
  let st := setdefault (lit "progress") (SInt 0) st in
  let st := setdefault (lit "current_stage") (SStr []) st in
  st.

(** [f"video_info_{hash(url)}"]; [hash] is Python's, fixed within one
    process. *)
Definition cache_key (hash : pystr -> Z) (url : pystr) : pystr :=
  lit "video_info_" ++ str_of_int (hash url).

(** [get_video_info] of [app.py], over the session state and the world.
    The spinner only decorates the page. *)
Definition get_video_info (lib : Library) (hash : pystr -> Z) (url : pystr)
    : M (gmap (list N) stval * io) stval :=
  if negb (nonempty url) then ret SNone
  else
    let cache_key := cache_key hash url in
    st <- get_self ;;
    match st !! cache_key with
    | Some cached => ret cached
    | None =>
        info <- on_io (URLValidator.get_video_info lib url false) ;;
        match info with
        | Some i =>
            _ <- when (dict_truthy i)
                   (st <- get_self ;; set_self (<[cache_key := SInfo i]> st)) ;;
            ret (SInfo i)
        | None => ret SNone
        end
    end.

End App.

(** ** Words for the properties of the remaining code *)

(** The downloader with another preferred format. *)
Definition with_preferred_format (self : YouTubeDownloader.t)
    (pf : option VideoFormat) : YouTubeDownloader.t :=
  {| YouTubeDownloader.output_dir := YouTubeDownloader.output_dir self;
     YouTubeDownloader.custom_filename := YouTubeDownloader.custom_filename self;
     YouTubeDownloader.preferred_format := pf;
     YouTubeDownloader.progress_hook := YouTubeDownloader.progress_hook self |}.

(** The eight keys of an option dictionary. *)
Definition option_keys : gset string :=
  list_to_set ["outtmpl"; "progress_hooks"; "no_warnings"; "ignoreerrors";
               "extract_flat"; "merge_output_format"; "format";
               "postprocessors"]%string.

(** The tiers with a height limit. *)
Definition limited_tiers : list Quality := [HD_4K; HD_1080; HD_720].

(** The hook called on one event after the other, until a call raises. *)
Fixpoint feed {T} (hook : gmap string pyval -> M (T * io) unit)
    (events : list (gmap string pyval)) : M (T * io) unit :=
  match events with
  | [] => ret tt
  | d :: rest => _ <- hook d ;; feed hook rest
  end.

(** The integer percentages of a run of events, for those that have one. *)
Fixpoint int_percents (events : list (gmap string pyval)) : list Z :=
  match events with
  | [] => []
  | d :: events =>
      match event_int_percent d with
      | Some n => n :: int_percents events
      | None => int_percents events
      end
  end.

(** The numbers start at [a] or above, never go down and end at [b] or
    below. *)
Fixpoint climbs (a b : Z) (l : list Z) : Prop :=
  match l with
  | [] => a <= b
  | x :: l' => a <= x /\ climbs x b l'
  end.

(** The event reports a download in progress. *)
Definition is_downloading (d : gmap string pyval) : Prop :=
  d !! "status"%string = Some (PStr (lit "downloading")).

(** A library whose patterns know the short YouTube links. *)
Definition short_link_library : Library :=
  {| re_match := fun _ url => startswith (lit "https://youtu.be/") url;
     ydl_extract_info := fun _ _ _ => Raise (Exception "DownloadError");
     ydl_download := fun _ _ => Finish (Raise (Exception "DownloadError")) |}.

(** The text of a string of ASCII characters, for reading numbers back. *)
Definition unlit (s : pystr) : string :=
  string_of_list_ascii (ascii_of_N <$> s).

(** Reading [MM:SS] back: the digits before and after the first colon. *)
Definition read_int (s : pystr) : option Z :=
  Z.of_int <$> NilZero.int_of_string (unlit s).

Fixpoint split_at_colon (s : pystr) : option (pystr * pystr) :=
  match s with
  | [] => None
  | c :: s' =>
      if (c =? 58)%N then Some ([], s')
      else '(a, b) ← split_at_colon s'; Some (c :: a, b)
  end.

Definition read_duration (s : pystr) : option Z :=
  '(m, sec) ← split_at_colon s;
  mins ← read_int m;
  secs ← read_int sec;
  Some (mins * 60 + secs).

(** A stand-in for [hash]: the length of the string. *)
Definition length_hash (s : pystr) : Z := Z.of_nat (length s).

Definition sample_info : gmap string pyval :=
  event [("title", PStr (lit "talk")); ("duration", PInt 754)]%string.

(** A library call that only asks for metadata. *)
Definition is_query (c : lib_call) : Prop :=
  match c with
  | ExtractInfo _ _ false => True
  | _ => False
  end.

(** From [s] to [s'] only metadata queries were made. *)
Definition only_queries (s s' : io) : Prop :=
  exists new, calls s' = calls s ++ new /\ Forall is_query new.

(** What a step of the dialogue may do to the world: take lines from the
    front of the input and ask the library for metadata. *)
Definition dialogue_step (s s' : io) : Prop :=
  stdin s' `suffix_of` stdin s /\ only_queries s s'.

(** The exceptions that end the dialogue: the end of the input, and what
    the library raises outside [Exception]. *)
Definition ends_dialogue (e : exn) : Prop :=
  e = Exception "EOFError" \/ exists cls, e = BaseException cls.

(** A library that knows the short links and finds every video. *)
Definition helpful_library : Library :=
  {| re_match := fun _ url => startswith (lit "https://youtu.be/") url;
     ydl_extract_info := fun _ _ _ => Ok (Some sample_info);
     ydl_download := fun _ _ => Finish (Ok 0) |}.
(** * Properties

    ** The string and path models on sample inputs *)

Example strip_example : strip (lit "  ab c ") = lit "ab c".
Proof. reflexivity. Qed.

Example split_example :
  split 47 (lit "a//b/") = [lit "a"; []; lit "b"; []].
Proof. reflexivity. Qed.

Example rfind_example : rfind 46 (lit "a.tar.gz") = Some 5%nat.
Proof. reflexivity. Qed.

Example path_str_example :
  PyPath.to_str (PyPath.of_str (lit "./out//clips/")) = lit "out/clips".
Proof. reflexivity. Qed.

Example path_stem_example :
  PyPath.stem (PyPath.of_str (lit "clips/talk.final.mp4")) = lit "talk.final".
Proof. reflexivity. Qed.

Example path_stem_dotfile :
  PyPath.stem (PyPath.of_str (lit ".hidden")) = lit ".hidden".
Proof. reflexivity. Qed.

Example path_name_of_directory :
  PyPath.name (PyPath.of_str (lit "clips/")) = lit "clips".
Proof. reflexivity. Qed.

(** ** The format expressions, tier by tier *)

Example relaxed_expression_4k :
  relaxed_expression HD_4K
  = lit "bestvideo[height<=2160]+bestaudio/best[height<=2160]".
Proof. reflexivity. Qed.

Example relaxed_expression_1080 :
  relaxed_expression HD_1080
  = lit "bestvideo[height<=1080]+bestaudio/best[height<=1080]".
Proof. reflexivity. Qed.

Example relaxed_expression_720 :
  relaxed_expression HD_720
  = lit "bestvideo[height<=720]+bestaudio/best[height<=720]".
Proof. reflexivity. Qed.

Example mp4_chain_best :
  mp4_preferring_chain BEST
  = lit "best[ext=mp4]/bestvideo[ext=mp4]+bestaudio[ext=m4a]/best".
Proof. reflexivity. Qed.

Example mp4_chain_720 :
  mp4_preferring_chain HD_720
  = lit "best[height<=720][ext=mp4]/bestvideo[height<=720][ext=mp4]+bestaudio[ext=m4a]/best[height<=720]".
Proof. reflexivity. Qed.

(** The chain [_build_format_string] prefers for [BEST] is longer than the
    value of the enum member, which [_get_ydl_opts] never reads. *)
Example quality_value_not_used :
  YouTubeDownloader._build_format_string sample_downloader BEST false
  <> Quality_value BEST.
Proof. discriminate. Qed.

(** Percentages are computed in binary floating point: 58 bytes of 100
    are 57.99999999999999 percent and 29 bytes of 100 are
    28.999999999999996 percent, so [int] gives 57 and 28; 512 bytes of
    1024 are 50 percent exactly. *)
Example percent_58_of_100 :
  event_percent (bytes_of_100 58) = Some (S754_finite false 8162774324609023 (-47))
  /\ event_int_percent (bytes_of_100 58) = Some 57.
Proof. split; vm_compute; reflexivity. Qed.

Example percent_29_of_100 :
  event_percent (bytes_of_100 29) = Some (S754_finite false 8162774324609023 (-48))
  /\ event_int_percent (bytes_of_100 29) = Some 28.
Proof. split; vm_compute; reflexivity. Qed.

Example percent_half_way :
  event_percent half_way_event = Some (float_of_Z 50)
  /\ event_int_percent half_way_event = Some 50.
Proof. split; vm_compute; reflexivity. Qed.

(** [int / int] is the float nearest to the quotient, also beyond the
    range where both operands are floats; [int(x)] refuses what is not
    finite. *)
Example truediv_large_ints :
  truediv (PInt (10 ^ 400)) (PInt (10 ^ 399)) = Ok (float_of_Z 10)
  /\ truediv (PInt (10 ^ 400)) (PInt 3) = Raise (Exception "OverflowError")
  /\ truediv (PFloat (float_of_Z 1)) (PInt (10 ^ 400))
     = Raise (Exception "OverflowError")
  /\ truediv (PInt 1) (PFloat (S754_zero true))
     = Raise (Exception "ZeroDivisionError")
  /\ int_of_float (S754_infinity false) = Raise (Exception "OverflowError")
  /\ int_of_float S754_nan = Raise (Exception "ValueError").
Proof. repeat split; vm_compute; reflexivity. Qed.

(** ** The option dictionaries of [_get_ydl_opts] *)

Section Options.
Import YouTubeDownloader.

Variable self : YouTubeDownloader.t.
Variables (is_playlist : bool) (video_info : option (gmap string pyval)).

(** The quality and the conversion only decide the entries [format] and
    [postprocessors]; every other key is read from the base dictionary. *)
Lemma base_entries_kept (quality : Quality) (force_convert : bool) (k : string) :
  k <> "format"%string -> k <> "postprocessors"%string ->
  _get_ydl_opts self quality is_playlist video_info force_convert !! k
  = (list_to_map [
       ("outtmpl", OStr (_get_output_template self is_playlist video_info));
       ("progress_hooks", OHooks [progress_hook self]);
       ("no_warnings", OBool true);
       ("ignoreerrors", OBool false);
       ("extract_flat", OBool false);
       ("merge_output_format", OStr (lit "mp4"))]%string : gmap string optval) !! k.
Proof.
  intros Hf Hp. unfold _get_ydl_opts.
  case_bool_decide.
  - unfold dict_update. rewrite lookup_union_r; [reflexivity|].
    cbn [list_to_map foldr uncurry fst snd].
    rewrite !lookup_insert_ne by congruence. apply lookup_empty.
  - destruct force_convert, (preferred_format self); cbn [app];
      rewrite !lookup_insert_ne by congruence; reflexivity.
Qed.

(** C1. For every downloader, playlist flag, metadata and conversion flag,
    the options for [AUDIO_ONLY] select [bestaudio/best] and carry exactly
    one post-processing step: [FFmpegExtractAudio] to mp3 at quality 192. *)
Theorem audio_only_options (force_convert : bool) :
  let opts := _get_ydl_opts self AUDIO_ONLY is_playlist video_info force_convert in
  opts !! "format"%string = Some (OStr (lit "bestaudio/best"))
  /\ exists step,
       opts !! "postprocessors"%string = Some (OPostprocessors [step])
       /\ step_is step [("key", lit "FFmpegExtractAudio");
                        ("preferredcodec", lit "mp3");
                        ("preferredquality", lit "192")]%string.
Proof.
  cbv zeta. unfold _get_ydl_opts.
  rewrite bool_decide_eq_true_2 by reflexivity.
  unfold dict_update. split.
  - apply lookup_union_Some_l. reflexivity.
  - eexists. split.
    + apply lookup_union_Some_l. reflexivity.
    + split; [reflexivity|]. repeat constructor.
Qed.

(** The strings [_build_format_string] spells out are the expressions of
    the tier's height limit. *)
Lemma build_format_string_relaxed (quality : Quality) :
  quality <> AUDIO_ONLY ->
  _build_format_string self quality true = relaxed_expression quality.
Proof. destruct quality; intros H; [reflexivity .. | congruence]. Qed.

Lemma build_format_string_mp4 (quality : Quality) :
  quality <> AUDIO_ONLY ->
  _build_format_string self quality false = mp4_preferring_chain quality.
Proof. destruct quality; intros H; [reflexivity .. | congruence]. Qed.

Lemma relaxed_has_no_mp4_filter (quality : Quality) :
  is_infix (lit "ext=mp4") (relaxed_expression quality) = false.
Proof. destruct quality; reflexivity. Qed.

Lemma mp4_chain_has_mp4_filter (quality : Quality) :
  is_infix (lit "ext=mp4") (mp4_preferring_chain quality) = true.
Proof. destruct quality; reflexivity. Qed.

(** C2. For a video tier: with [force_convert] and a preferred format, the
    format is the relaxed expression of the tier (no [ext=mp4] filter) and
    the steps are [FFmpegVideoConvertor] to that format, then
    [FFmpegMetadata]; without [force_convert], the format is the tier's
    MP4-preferring chain and [FFmpegMetadata] is the only step. *)
Theorem video_options (quality : Quality) :
  quality <> AUDIO_ONLY ->
  (forall fmt, preferred_format self = Some fmt ->
     let opts := _get_ydl_opts self quality is_playlist video_info true in
     opts !! "format"%string = Some (OStr (relaxed_expression quality))
     /\ is_infix (lit "ext=mp4") (relaxed_expression quality) = false
     /\ exists convert metadata,
          opts !! "postprocessors"%string
          = Some (OPostprocessors [convert; metadata])
          /\ step_is convert [("key", lit "FFmpegVideoConvertor");
                              ("preferedformat", VideoFormat_value fmt)]%string
          /\ step_is metadata [("key", lit "FFmpegMetadata")]%string)
  /\ (let opts := _get_ydl_opts self quality is_playlist video_info false in
      opts !! "format"%string = Some (OStr (mp4_preferring_chain quality))
      /\ exists metadata,
           opts !! "postprocessors"%string = Some (OPostprocessors [metadata])
           /\ step_is metadata [("key", lit "FFmpegMetadata")]%string).
Proof.
  intros Hq. split.
  - intros fmt Hfmt. cbv zeta. unfold _get_ydl_opts.
    rewrite bool_decide_eq_false_2 by exact Hq.
    rewrite Hfmt, (build_format_string_relaxed _ Hq). cbn [app].
    split; [|split].
    + rewrite lookup_insert_ne by discriminate. apply lookup_insert_eq.
    + apply relaxed_has_no_mp4_filter.
    + eexists _, _. split; [apply lookup_insert_eq|].
      split; (split; [reflexivity | repeat constructor]).
  - cbv zeta. unfold _get_ydl_opts.
    rewrite bool_decide_eq_false_2 by exact Hq.
    rewrite (build_format_string_mp4 _ Hq). cbn [app].
    split.
    + rewrite lookup_insert_ne by discriminate. apply lookup_insert_eq.
    + eexists. split; [apply lookup_insert_eq|].
      split; [reflexivity | repeat constructor].
Qed.

(** C8. For every quality tier and every preferred format, the options
    merge into an mp4 container, silence warnings, do not ignore errors
    and register exactly one progress hook, the downloader's own. *)
Theorem fixed_options (quality : Quality) (force_convert : bool) :
  let opts := _get_ydl_opts self quality is_playlist video_info force_convert in
  opts !! "merge_output_format"%string = Some (OStr (lit "mp4"))
  /\ opts !! "no_warnings"%string = Some (OBool true)
  /\ opts !! "ignoreerrors"%string = Some (OBool false)
  /\ opts !! "progress_hooks"%string = Some (OHooks [progress_hook self]).
Proof.
  cbv zeta. rewrite !base_entries_kept by discriminate.
  repeat split; reflexivity.
Qed.

End Options.

(** A downloader that prefers WebM, as the command line builds it. *)
Lemma video_options_witness :
  let self := YouTubeDownloader.__init__ (lit "out") None (Some WEBM) None in
  let opts := YouTubeDownloader._get_ydl_opts self HD_720 false None true in
  opts !! "format"%string
  = Some (OStr (lit "bestvideo[height<=720]+bestaudio/best[height<=720]"))
  /\ exists convert metadata,
       opts !! "postprocessors"%string = Some (OPostprocessors [convert; metadata])
       /\ convert !! "preferedformat"%string = Some (lit "webm")
       /\ metadata !! "key"%string = Some (lit "FFmpegMetadata").
Proof.
  cbv zeta.
  destruct (video_options
              (YouTubeDownloader.__init__ (lit "out") None (Some WEBM) None)
              false None HD_720 ltac:(discriminate)) as [Hconv _].
  destruct (Hconv WEBM eq_refl) as (Hf & _ & c & m & Hpp & Hc & Hm).
  split; [exact Hf|].
  exists c, m. split; [exact Hpp|].
  destruct Hc as [_ Hc], Hm as [_ Hm].
  inversion Hc as [|? ? _ Hc']. inversion Hc' as [|? ? Hpf _].
  inversion Hm as [|? ? Hk _].
  split; [exact Hpf | exact Hk].
Defined.

(** ** The output template *)

Section Stem.

Lemma rfind_none (c : codepoint) (s : pystr) : c ∉ s -> rfind c s = None.
Proof.
  induction s as [|x s IH]; [reflexivity|].
  intros Hc. apply not_elem_of_cons in Hc as [Hx Hs].
  cbn. rewrite (IH Hs).
  destruct (N.eqb_spec x c); [congruence | reflexivity].
Qed.

(** The last dot of [base.ext] is the one before [ext]. *)
Lemma rfind_last_dot (base ext : pystr) :
  46%N ∉ ext -> rfind 46 (base ++ 46%N :: ext) = Some (length base).
Proof.
  intros Hext. induction base as [|x base IH]; cbn.
  - rewrite (rfind_none _ _ Hext). reflexivity.
  - rewrite IH. reflexivity.
Qed.

Lemma split_no_separator (sep : codepoint) (s : pystr) :
  sep ∉ s -> split sep s = [s].
Proof.
  induction s as [|x s IH]; [reflexivity|].
  intros Hs. apply not_elem_of_cons in Hs as [Hx Hs].
  cbn. destruct (N.eqb_spec x sep); [congruence|].
  rewrite (IH Hs). reflexivity.
Qed.

(** [Path(f).stem] of a plain file name [base.ext] is [base]. *)
Lemma stem_drops_extension (base ext : pystr) :
  base <> [] -> ext <> [] -> 47%N ∉ base ++ 46%N :: ext -> 46%N ∉ ext ->
  PyPath.stem (PyPath.of_str (base ++ 46%N :: ext)) = base.
Proof.
  intros Hb He Hslash Hdot.
  assert (Hname : PyPath.name (PyPath.of_str (base ++ 46%N :: ext))
                  = base ++ 46%N :: ext).
  { unfold PyPath.of_str, PyPath.splitroot.
    destruct base as [|b base]; [congruence|].
    assert (b <> 47%N) as Hb47.
    { intros ->. apply Hslash. cbn. apply list_elem_of_here. }
    cbn [app].
    assert (Hroot : forall rest : pystr,
               match b :: rest with
               | 47%N :: 47%N :: 47%N :: _ => (lit "/", drop 1 (b :: rest))
               | 47%N :: 47%N :: rel => (lit "//", rel)
               | 47%N :: rel => (lit "/", rel)
               | _ => ([], b :: rest)
               end = ([], b :: rest)).
    { intros rest. destruct b as [|p]; [reflexivity|].
      do 6 (destruct p as [p|p|]; try reflexivity). congruence. }
    rewrite Hroot. cbn [PyPath.name PyPath.tail].
    rewrite split_no_separator by exact Hslash.
    cbn [List.filter].
    replace (PyPath.is_component (b :: base ++ 46%N :: ext)) with true;
      [reflexivity|].
    unfold PyPath.is_component. cbn [nonempty andb]. symmetry.
    apply negb_true_iff, bool_decide_eq_false.
    destruct base, ext; cbn; congruence. }
  unfold PyPath.stem. rewrite Hname, rfind_last_dot by exact Hdot.
  rewrite length_app. cbn [length].
  destruct base as [|b base]; [congruence|].
  destruct ext as [|e ext]; [congruence|].
  replace ((0 <? length (b :: base))%nat
           && (length (b :: base) <? length (b :: base) + S (length (e :: ext)) - 1)%nat)
    with true.
  - rewrite take_app_length. reflexivity.
  - symmetry. apply andb_true_iff. split; apply Nat.ltb_lt; cbn; lia.
Qed.

End Stem.

Section Template.
Import YouTubeDownloader.

(** C3. With [d] the downloader's output directory as [str] prints it:
    a custom file name that is set (not [None], not empty) and no playlist
    give [d/<stem>.%(ext)s], and the stem of a plain name [base.ext] is
    [base]; a playlist gives the playlist layout whatever the custom
    name; everything else gives [d/%(title)s.%(ext)s]. *)
Theorem output_template_cases (self : YouTubeDownloader.t) (is_playlist : bool)
    (video_info : option (gmap string pyval)) :
  let d := PyPath.to_str (output_dir self) in
  let template := _get_output_template self is_playlist video_info in
  (forall f, custom_filename self = Some f -> f <> [] -> is_playlist = false ->
     template = d ++ lit "/" ++ PyPath.stem (PyPath.of_str f) ++ lit ".%(ext)s")
  /\ (forall base ext, base <> [] -> ext <> [] ->
        47%N ∉ base ++ 46%N :: ext -> 46%N ∉ ext ->
        PyPath.stem (PyPath.of_str (base ++ 46%N :: ext)) = base)
  /\ (is_playlist = true ->
        template
        = d ++ lit "/%(playlist)s/%(playlist_index)s - %(title)s.%(ext)s")
  /\ (is_playlist = false ->
        (custom_filename self = None \/ custom_filename self = Some []) ->
        template = d ++ lit "/%(title)s.%(ext)s").
Proof.
  cbv zeta. unfold _get_output_template, custom_filename_truthy.
  split; [|split; [|split]].
  - intros f -> Hf ->. destruct f; [congruence|]. reflexivity.
  - apply stem_drops_extension.
  - intros ->. rewrite andb_false_r. reflexivity.
  - intros -> [-> | ->]; reflexivity.
Qed.

End Template.

Lemma output_template_cases_witness :
  let self := YouTubeDownloader.__init__ (lit "out/") (Some (lit "talk.webm")) None None in
  YouTubeDownloader._get_output_template self false None = lit "out/talk.%(ext)s"
  /\ YouTubeDownloader._get_output_template self true None
     = lit "out/%(playlist)s/%(playlist_index)s - %(title)s.%(ext)s".
Proof.
  cbv zeta.
  destruct (output_template_cases
              (YouTubeDownloader.__init__ (lit "out/") (Some (lit "talk.webm")) None None)
              false None) as (Hcustom & _ & _ & _).
  destruct (output_template_cases
              (YouTubeDownloader.__init__ (lit "out/") (Some (lit "talk.webm")) None None)
              true None) as (_ & _ & Hplaylist & _).
  split.
  - exact (Hcustom (lit "talk.webm") eq_refl ltac:(discriminate) eq_refl).
  - exact (Hplaylist eq_refl).
Defined.

(** ** [clean_filename] *)

Section Strip.

Lemma lstrip_suffix (s : pystr) : exists k, s = k ++ lstrip s.
Proof.
  induction s as [|c s [k IH]]; [exists []; reflexivity|].
  cbn. destruct (isspace c).
  - exists (c :: k). cbn. congruence.
  - exists []. reflexivity.
Qed.

Lemma lstrip_no_leading (s : pystr) : no_leading_whitespace (lstrip s).
Proof.
  induction s as [|c s IH]; intros x; cbn; [discriminate|].
  destruct (isspace c) eqn:Hc; [apply IH|].
  cbn. congruence.
Qed.

Lemma rstrip_prefix (s : pystr) : exists k, s = rstrip s ++ k.
Proof.
  unfold rstrip. destruct (lstrip_suffix (rev s)) as [k Hk].
  exists (rev k). rewrite <- rev_app_distr, <- Hk, rev_involutive. reflexivity.
Qed.

Lemma last_rev (s : pystr) : last (rev s) = head s.
Proof. destruct s as [|c s]; [reflexivity|]. cbn. apply last_snoc. Qed.

Lemma rstrip_no_trailing (s : pystr) : no_trailing_whitespace (rstrip s).
Proof.
  intros c. unfold rstrip. rewrite last_rev. apply lstrip_no_leading.
Qed.

Lemma strip_no_leading (s : pystr) : no_leading_whitespace (strip s).
Proof.
  unfold strip. intros c Hc.
  destruct (rstrip_prefix (lstrip s)) as [k Hk].
  apply (lstrip_no_leading s). rewrite Hk.
  destruct (rstrip (lstrip s)); [discriminate | exact Hc].
Qed.

Lemma strip_no_trailing (s : pystr) : no_trailing_whitespace (strip s).
Proof. apply rstrip_no_trailing. Qed.

Lemma take_no_leading (n : nat) (s : pystr) :
  no_leading_whitespace s -> no_leading_whitespace (take n s).
Proof.
  intros Hs c Hc. apply Hs.
  destruct n, s; try discriminate. exact Hc.
Qed.

Lemma strip_sublist (s : pystr) (c : codepoint) : c ∈ strip s -> c ∈ s.
Proof.
  unfold strip. intros Hc.
  destruct (rstrip_prefix (lstrip s)) as [k Hk].
  destruct (lstrip_suffix s) as [k' Hk'].
  rewrite Hk', Hk. rewrite !elem_of_app. auto.
Qed.

End Strip.

(** X16. What [clean_filename] does guarantee: no invalid character, at most 100
    characters, no leading whitespace; and no trailing whitespace when the
    stripped name needs no truncation. *)
Lemma clean_filename_safe (filename : pystr) :
  (forall c, c ∈ clean_filename filename -> c ∉ invalid_filename_chars)
  /\ (length (clean_filename filename) <= 100)%nat
  /\ no_leading_whitespace (clean_filename filename)
  /\ ((length (strip (List.filter (fun c => negb (is_invalid_filename_char c))
                        filename)) <= 100)%nat ->
      no_trailing_whitespace (clean_filename filename)).
Proof.
  unfold clean_filename. repeat split.
  - intros c Hc. apply elem_of_take in Hc as (i & Hc & _).
    apply list_elem_of_lookup_2, strip_sublist in Hc.
    apply list_elem_of_In, filter_In in Hc as [_ Hc].
    apply negb_true_iff, bool_decide_eq_false in Hc. exact Hc.
  - rewrite length_take. lia.
  - apply take_no_leading, strip_no_leading.
  - intros Hlen. rewrite take_ge by exact Hlen. apply strip_no_trailing.
Qed.

(** C10, at a name whose hundredth character is a space: the result is cut
    after that space, so it ends in whitespace. *)
Theorem clean_filename_trailing_space :
  clean_filename long_filename = replicate 99 97%N ++ [32%N]
  /\ length (clean_filename long_filename) = 100%nat
  /\ last (clean_filename long_filename) = Some 32%N
  /\ isspace 32 = true
  /\ ~ no_trailing_whitespace (clean_filename long_filename).
Proof.
  repeat split; try (vm_compute; reflexivity).
  intros H. specialize (H 32%N ltac:(vm_compute; reflexivity)). discriminate.
Qed.

(** ** The progress hooks *)

Section Hooks.

Variable d : gmap string pyval.
Variable s : io.

Lemma eq_str_true (x : pystr) : eq_str (PStr x) x = true.
Proof. cbn. apply bool_decide_eq_true_2. reflexivity. Qed.

Lemma eq_str_false (v : pyval) (x : pystr) : v <> PStr x -> eq_str v x = false.
Proof.
  intros Hv. destruct v; try reflexivity.
  cbn. apply bool_decide_eq_false_2. congruence.
Qed.

Lemma contains_true (k : string) (v : pyval) : d !! k = Some v -> contains d k = true.
Proof. intros H. apply bool_decide_eq_true_2. eauto. Qed.

Lemma contains_false (k : string) : contains d k = false -> d !! k = None.
Proof.
  intros H. apply bool_decide_eq_false in H.
  destruct (d !! k); [exfalso; apply H; eauto | reflexivity].
Qed.

Lemma contains_lookup (k : string) : contains d k = true -> exists v, d !! k = Some v.
Proof. intros H. apply bool_decide_eq_true in H. exact H. Qed.

Lemma event_percent_total_key :
  event_percent d
  = match d !! "downloaded_bytes"%string, d !! total_key d with
    | Some a, Some b =>
        match truediv a b with
        | Ok x => Some (float_mul x (float_of_Z 100))
        | Raise _ => None
        end
    | _, _ => None
    end.
Proof. unfold event_percent, total_key. destruct (contains d _); reflexivity. Qed.

Lemma carries_total_key : carries_total d = contains d (total_key d).
Proof.
  unfold carries_total, total_key.
  destruct (contains d "total_bytes") eqn:H; cbn; [rewrite H|]; reflexivity.
Qed.

Lemma event_percent_carries (p : float) :
  event_percent d = Some p -> carries_total d = true.
Proof.
  rewrite event_percent_total_key, carries_total_key.
  destruct (d !! "downloaded_bytes"%string); [|discriminate].
  destruct (d !! total_key d) eqn:Hb; [|discriminate].
  intros _. exact (contains_true _ _ Hb).
Qed.

(** A percentage exists exactly when both numbers are there and divide. *)
Lemma event_percent_inv (p : float) :
  event_percent d = Some p ->
  exists a b x,
    d !! "downloaded_bytes"%string = Some a /\ d !! total_key d = Some b
    /\ truediv a b = Ok x /\ p = float_mul x (float_of_Z 100).
Proof.
  rewrite event_percent_total_key.
  destruct (d !! "downloaded_bytes"%string) as [a|]; [|discriminate].
  destruct (d !! total_key d) as [b|]; [|discriminate].
  destruct (truediv a b) as [x|] eqn:Hx; [|discriminate].
  intros [= <-]. eauto 10.
Qed.

(** *** The console hook *)

Section Console.
Import DefaultProgressHook.
Variable self : DefaultProgressHook.t.

Lemma percent_of_eval (total : string) (st : DefaultProgressHook.t * io) :
  percent_of d total st
  = match d !! "downloaded_bytes"%string, d !! total with
    | Some a, Some b =>
        match truediv a b with
        | Ok x => (Ok (float_mul x (float_of_Z 100)), st)
        | Raise e => (Raise e, st)
        end
    | _, _ => (Raise (Exception "KeyError"), st)
    end.
Proof.
  unfold percent_of, bind, getitem.
  destruct (d !! "downloaded_bytes"%string) as [a|]; [|reflexivity].
  destruct (d !! total) as [b|]; [|reflexivity].
  cbn. unfold lift_result. destruct (truediv a b); reflexivity.
Qed.

(** The first half of the [downloading] branch: which percentage, if any,
    the hook goes on with. *)
Lemma console_percent (st : DefaultProgressHook.t * io) :
  (if contains d "total_bytes"
   then bind (percent_of d "total_bytes") (fun p => ret (Some p))
   else if contains d "total_bytes_estimate"
        then bind (percent_of d "total_bytes_estimate") (fun p => ret (Some p))
        else ret None) st
  = if carries_total d then
      match event_percent d with
      | Some p => (Ok (Some p), st)
      | None =>
          (Raise (match d !! "downloaded_bytes"%string, d !! total_key d with
                  | Some a, Some b =>
                      match truediv a b with
                      | Raise e => e
                      | Ok _ => Exception "KeyError"
                      end
                  | _, _ => Exception "KeyError"
                  end), st)
      end
    else (Ok None, st).
Proof.
  rewrite event_percent_total_key. unfold carries_total, total_key.
  destruct (contains d "total_bytes"); cbn [orb].
  - unfold bind. rewrite percent_of_eval.
    destruct (d !! "downloaded_bytes"%string) as [a|]; [|reflexivity].
    destruct (d !! "total_bytes"%string) as [b|]; [|reflexivity].
    destruct (truediv a b); reflexivity.
  - destruct (contains d "total_bytes_estimate"); [|reflexivity].
    unfold bind. rewrite percent_of_eval.
    destruct (d !! "downloaded_bytes"%string) as [a|]; [|reflexivity].
    destruct (d !! "total_bytes_estimate"%string) as [b|]; [|reflexivity].
    destruct (truediv a b); reflexivity.
Qed.

(** A [downloading] event with a percentage. [int] refuses a percentage
    that is not finite. Otherwise the integer percentage is remembered
    exactly when it is even and new, and then the line is printed, unless
    the bar cannot be computed. *)
Lemma console_downloading (p : float) :
  d !! "status"%string = Some (PStr (lit "downloading")) ->
  event_percent d = Some p ->
  __call__ d (self, s)
  = match int_of_float p with
    | Raise e => (Raise e, (self, s))
    | Ok current_percent =>
        if negb (current_percent =? last_printed_percent self)
           && (current_percent mod 2 =? 0)
        then
          let self' := {| last_printed_percent := current_percent;
                          current_stage := current_stage self |} in
          match bar_fill p with
          | Ok filled =>
              (Ok tt, (self', shows s [progress_line (current_stage self) p filled]))
          | Raise e => (Raise e, (self', s))
          end
        else (Ok tt, (self, s))
    end.
Proof.
  intros Hstatus Hp. unfold __call__.
  unfold bind at 1, getitem at 1. rewrite Hstatus. unfold ret at 1.
  cbv beta iota. rewrite eq_str_true.
  unfold bind at 1.
  rewrite console_percent, (event_percent_carries _ Hp), Hp.
  unfold bind at 1, lift_result at 1.
  destruct (int_of_float p) as [n|e]; [|reflexivity].
  unfold bind at 1, get_self at 1.
  destruct (negb _ && _); [|reflexivity].
  cbv zeta. unfold bar_fill, bind, set_self, lift_result.
  destruct (truediv _ (PInt 100)) as [x|e]; [|reflexivity].
  destruct (int_of_float x); reflexivity.
Qed.

Lemma console_downloading_no_total :
  d !! "status"%string = Some (PStr (lit "downloading")) ->
  carries_total d = false ->
  __call__ d (self, s) = (Ok tt, (self, s)).
Proof.
  intros Hstatus Hc. unfold __call__.
  unfold bind at 1, getitem at 1. rewrite Hstatus. unfold ret at 1.
  cbv beta iota. rewrite eq_str_true.
  unfold bind at 1. rewrite console_percent, Hc. reflexivity.
Qed.

Lemma console_raises_without_percent :
  d !! "status"%string = Some (PStr (lit "downloading")) ->
  carries_total d = true -> event_percent d = None ->
  exists e, __call__ d (self, s) = (Raise e, (self, s)).
Proof.
  intros Hstatus Hc Hp. unfold __call__.
  unfold bind at 1, getitem at 1. rewrite Hstatus. unfold ret at 1.
  cbv beta iota. rewrite eq_str_true.
  unfold bind at 1. rewrite console_percent, Hc, Hp. eauto.
Qed.





Lemma console_finished (f : pystr) :
  d !! "status"%string = Some (PStr (lit "finished")) ->
  d !! "filename"%string = Some (PStr f) ->
  __call__ d (self, s)
  = (Ok tt, (self, shows s [Printed [Txt "\nDownloaded: ";
                                      Str (PyPath.name (PyPath.of_str f))]])).
Proof.
  intros Hstatus Hf. unfold __call__, bind, getitem.
  rewrite Hstatus, Hf. reflexivity.
Qed.

Lemma console_error :
  d !! "status"%string = Some (PStr (lit "error")) ->
  __call__ d (self, s)
  = (Ok tt, (self, shows s [Printed [Txt "\nError during download: ";
                                      Val (dict_get d "error" (PStr (lit "Unknown error")))]])).
Proof.
  intros Hstatus. unfold __call__, bind, getitem.
  rewrite Hstatus. reflexivity.
Qed.

Lemma console_unknown_status (v : pyval) :
  d !! "status"%string = Some v -> unknown_status v ->
  __call__ d (self, s) = (Ok tt, (self, s)).
Proof.
  intros Hd (H1 & H2 & H3).
  unfold __call__, bind, getitem. rewrite Hd.
  unfold ret at 1. cbv beta iota.
  rewrite !eq_str_false by assumption. reflexivity.
Qed.

End Console.

(** *** The GUI hook *)

Lemma shows_two (e1 e2 : out_event) :
  shows (shows s [e1]) [e2] = shows s [e1; e2].
Proof. unfold shows. cbn. rewrite <- app_assoc. reflexivity. Qed.

Section Gui.
Import StreamlitProgressHook.
Variable self : StreamlitProgressHook.t.

Lemma measures_eval (total : string) (st : StreamlitProgressHook.t * io)
    (a b : pyval) (x y z : float) :
  d !! "downloaded_bytes"%string = Some a -> d !! total = Some b ->
  truediv a b = Ok x -> truediv a megabyte = Ok y -> truediv b megabyte = Ok z ->
  measures d total st = (Ok (float_mul x (float_of_Z 100), y, z), st).
Proof.
  intros Ha Hb Hx Hy Hz. unfold measures, bind, getitem, lift_result.
  rewrite Ha, Hb. cbn. rewrite Hx, Hy, Hz. reflexivity.
Qed.

(** The GUI hook renders every [downloading] event whose sizes are
    numbers and whose integer percentage the progress bar accepts. *)
Lemma gui_downloading (p : float) (n : Z) (downloaded_mb total_mb : float) :
  d !! "status"%string = Some (PStr (lit "downloading")) ->
  event_percent d = Some p ->
  event_megabytes d = Some (downloaded_mb, total_mb) ->
  int_of_float p = Ok n ->
  0 <= n <= 100 ->
  __call__ d (self, s)
  = (Ok tt, (self, shows s [
       BarProgress n;
       StatusText [Txt "Downloading... "; Fixed1 p; Txt "% (";
                   Fixed1 downloaded_mb; Txt "MB / "; Fixed1 total_mb;
                   Txt "MB)"]])).
Proof.
  intros Hstatus Hp Hmb Hn Hrange.
  destruct (event_percent_inv _ Hp) as (a & b & x & Ha & Hb & Hx & ->).
  unfold event_megabytes in Hmb. rewrite Ha, Hb in Hmb.
  destruct (truediv a megabyte) as [y|] eqn:Hy; [|discriminate].
  destruct (truediv b megabyte) as [z|] eqn:Hz; [|discriminate].
  injection Hmb as <- <-.
  assert (Hbar : (0 <=? n) && (n <=? 100) = true)
    by (apply andb_true_iff; split; apply Z.leb_le; lia).
  unfold __call__.
  unfold bind at 1, getitem at 1. rewrite Hstatus. unfold ret at 1.
  cbv beta iota. rewrite eq_str_true.
  unfold total_key in Hb.
  destruct (contains d "total_bytes") eqn:Hc.
  - unfold bind.
    rewrite (measures_eval _ _ _ _ _ _ _ Ha Hb Hx Hy Hz).
    unfold ret at 1. cbv beta iota. unfold lift_result. rewrite Hn.
    unfold progress_bar_progress. rewrite Hbar.
    rewrite <- shows_two. reflexivity.
  - rewrite (contains_true _ _ Hb). unfold bind.
    rewrite (measures_eval _ _ _ _ _ _ _ Ha Hb Hx Hy Hz).
    unfold ret at 1. cbv beta iota. unfold lift_result. rewrite Hn.
    unfold progress_bar_progress. rewrite Hbar.
    rewrite <- shows_two. reflexivity.
Qed.

Lemma gui_downloading_no_total :
  d !! "status"%string = Some (PStr (lit "downloading")) ->
  carries_total d = false ->
  __call__ d (self, s) = (Ok tt, (self, s)).
Proof.
  intros Hstatus Hc. unfold __call__.
  unfold bind at 1, getitem at 1. rewrite Hstatus. unfold ret at 1.
  cbv beta iota. rewrite eq_str_true.
  unfold carries_total in Hc. apply orb_false_iff in Hc as [H1 H2].
  rewrite H1, H2. reflexivity.
Qed.

Lemma gui_finished (f : pystr) :
  d !! "status"%string = Some (PStr (lit "finished")) ->
  d !! "filename"%string = Some (PStr f) ->
  __call__ d (self, s)
  = (Ok tt, (self, shows s [
       BarProgress 100;
       StatusText [Txt "Download completed: ";
                   Str (PyPath.name (PyPath.of_str f))]])).
Proof.
  intros Hstatus Hf. unfold __call__, bind, getitem.
  rewrite Hstatus, Hf. rewrite <- shows_two. reflexivity.
Qed.

Lemma gui_error :
  d !! "status"%string = Some (PStr (lit "error")) ->
  __call__ d (self, s)
  = (Ok tt, (self, shows s [
       StatusText [Txt "Error: ";
                   Val (dict_get d "error" (PStr (lit "Unknown error")))]])).
Proof.
  intros Hstatus. unfold __call__, bind, getitem.
  rewrite Hstatus. reflexivity.
Qed.

Lemma gui_unknown_status (v : pyval) :
  d !! "status"%string = Some v -> unknown_status v ->
  __call__ d (self, s) = (Ok tt, (self, s)).
Proof.
  intros Hd (H1 & H2 & H3).
  unfold __call__, bind, getitem. rewrite Hd.
  unfold ret at 1. cbv beta iota.
  rewrite !eq_str_false by assumption. reflexivity.
Qed.

End Gui.
End Hooks.

(** *** One call of a hook, whatever the event *)

Section HookSteps.

Lemma shows_nil (s : io) : shows s [] = s.
Proof. unfold shows. rewrite app_nil_r. destruct s; reflexivity. Qed.

Lemma eq_str_inv (v : pyval) (x : pystr) : eq_str v x = true -> v = PStr x.
Proof.
  destruct v; try discriminate. cbn. intros H.
  apply bool_decide_eq_true in H. congruence.
Qed.

Variable d : gmap string pyval.
Variable s : io.

(** The console hook shows at most one line, and keeps its
    [current_stage]. *)
Lemma console_step (self : DefaultProgressHook.t) :
  exists r self' lines,
    DefaultProgressHook.__call__ d (self, s) = (r, (self', shows s lines))
    /\ (length lines <= 1)%nat
    /\ DefaultProgressHook.current_stage self'
       = DefaultProgressHook.current_stage self.
Proof.
  assert (Hquiet : forall (r : result unit) self',
            DefaultProgressHook.current_stage self'
            = DefaultProgressHook.current_stage self ->
            exists (r' : result unit) self'' lines,
              (r, (self', s)) = (r', (self'', shows s lines))
              /\ (length lines <= 1)%nat
              /\ DefaultProgressHook.current_stage self''
                 = DefaultProgressHook.current_stage self).
  { intros r self' Hstage. exists r, self', []. rewrite shows_nil.
    split; [reflexivity|]. split; [cbn; lia | exact Hstage]. }
  assert (Hline : forall e self',
            DefaultProgressHook.current_stage self'
            = DefaultProgressHook.current_stage self ->
            exists (r' : result unit) self'' lines,
              (Ok tt, (self', shows s [e])) = (r', (self'', shows s lines))
              /\ (length lines <= 1)%nat
              /\ DefaultProgressHook.current_stage self''
                 = DefaultProgressHook.current_stage self).
  { intros e self' Hstage. exists (Ok tt), self', [e].
    split; [reflexivity|]. split; [cbn; lia | exact Hstage]. }
  destruct (d !! "status"%string) as [v|] eqn:Hstatus.
  2: { unfold DefaultProgressHook.__call__, bind at 1, getitem at 1.
       rewrite Hstatus. apply Hquiet. reflexivity. }
  destruct (eq_str v (lit "downloading")) eqn:Hv.
  - apply eq_str_inv in Hv. subst v.
    destruct (carries_total d) eqn:Hc.
    + destruct (event_percent d) as [p|] eqn:Hp.
      * rewrite (console_downloading _ _ _ _ Hstatus Hp).
        destruct (int_of_float p) as [n|e]; [|apply Hquiet; reflexivity].
        destruct (negb _ && _); [|apply Hquiet; reflexivity].
        cbv zeta. destruct (bar_fill p); [apply Hline | apply Hquiet]; reflexivity.
      * destruct (console_raises_without_percent _ s self Hstatus Hc Hp) as [e ->].
        apply Hquiet. reflexivity.
    + rewrite (console_downloading_no_total _ _ _ Hstatus Hc).
      apply Hquiet. reflexivity.
  - unfold DefaultProgressHook.__call__, bind at 1, getitem at 1.
    rewrite Hstatus. unfold ret at 1. cbv beta iota. rewrite Hv.
    destruct (eq_str v (lit "finished")).
    + unfold bind at 1, getitem at 1.
      destruct (d !! "filename"%string) as [[| | |f]|];
        try (apply Hquiet; reflexivity).
      apply Hline. reflexivity.
    + destruct (eq_str v (lit "error")); [|apply Hquiet; reflexivity].
      apply Hline. reflexivity.
Qed.

(** The readings of the GUI hook change nothing. *)
Lemma measures_pure (total : string) (st : StreamlitProgressHook.t * io) :
  exists r, StreamlitProgressHook.measures d total st = (r, st).
Proof.
  unfold StreamlitProgressHook.measures, bind, getitem, lift_result.
  destruct (d !! "downloaded_bytes"%string) as [a|]; [|eauto].
  destruct (d !! total) as [b|]; [|eauto].
  cbn. destruct (truediv a b); [|eauto].
  destruct (truediv a StreamlitProgressHook.megabyte); [|eauto].
  destruct (truediv b StreamlitProgressHook.megabyte); eauto.
Qed.

(** One call of the GUI hook, whatever the event: its field stays, and at
    most two widget updates are added. *)
Lemma gui_step (self : StreamlitProgressHook.t) :
  exists r lines,
    StreamlitProgressHook.__call__ d (self, s) = (r, (self, shows s lines))
    /\ (length lines <= 2)%nat.
Proof.
  assert (Hquiet : forall r : result unit, exists r' lines,
            (r, (self, s)) = (r', (self, shows s lines)) /\ (length lines <= 2)%nat).
  { intros r. exists r, []. rewrite shows_nil. split; [reflexivity | cbn; lia]. }
  assert (Hbar : forall (n : Z) line, exists r' lines,
            bind (StreamlitProgressHook.progress_bar_progress n)
              (fun _ => StreamlitProgressHook.status_text_text line) (self, s)
            = (r', (self, shows s lines)) /\ (length lines <= 2)%nat).
  { intros n line. unfold bind, StreamlitProgressHook.progress_bar_progress.
    destruct ((0 <=? n) && (n <=? 100)); [|apply Hquiet].
    exists (Ok tt), [BarProgress n; StatusText line].
    rewrite <- shows_two. split; [reflexivity | cbn; lia]. }
  assert (Hmeasured : forall total, exists r' lines,
            bind (bind (StreamlitProgressHook.measures d total) (fun m => ret (Some m)))
              (fun m =>
                 match m with
                 | None => ret tt
                 | Some (percent, downloaded_mb, total_mb) =>
                     bind (lift_result (int_of_float percent))
                       (fun n =>
                          bind (StreamlitProgressHook.progress_bar_progress n)
                            (fun _ =>
                               StreamlitProgressHook.status_text_text
                                 [Txt "Downloading... "; Fixed1 percent;
                                  Txt "% ("; Fixed1 downloaded_mb; Txt "MB / ";
                                  Fixed1 total_mb; Txt "MB)"]))
                 end) (self, s)
            = (r', (self, shows s lines)) /\ (length lines <= 2)%nat).
  { intros total. unfold bind at 1, bind at 1.
    destruct (measures_pure total (self, s)) as [[[[p dmb] tmb]|e] ->];
      [|apply Hquiet].
    unfold ret at 1. cbv beta iota. unfold bind at 1, lift_result at 1.
    destruct (int_of_float p); [apply Hbar | apply Hquiet]. }
  unfold StreamlitProgressHook.__call__.
  unfold bind at 1, getitem at 1.
  destruct (d !! "status"%string) as [v|]; [|apply Hquiet].
  unfold ret at 1. cbv beta iota.
  destruct (eq_str v (lit "downloading")).
  - destruct (contains d "total_bytes"); [apply Hmeasured|].
    destruct (contains d "total_bytes_estimate"); [apply Hmeasured|].
    apply Hquiet.
  - destruct (eq_str v (lit "finished")).
    + unfold bind at 1, bind at 1, getitem at 1.
      destruct (d !! "filename"%string) as [[| | |f]|]; try apply Hquiet.
      unfold Path_of, ret at 1. cbv beta iota. apply Hbar.
    + destruct (eq_str v (lit "error")); [|apply Hquiet].
      eexists _, [_]. split; [reflexivity | cbn; lia].
Qed.

End HookSteps.

(** *** What the sinks render *)

Section Sinks.

Variable d : gmap string pyval.
Variable s : io.
Variable console : DefaultProgressHook.t.
Variable gui : StreamlitProgressHook.t.

(** X8. A [downloading] event leaves the console hook in one of three
    ways. A line is printed and the integer percentage remembered: then
    that percentage is even and not the one remembered before. Or nothing
    happens: the event names no total, or its integer percentage is odd
    or the one remembered. Or the hook raises with nothing printed: the
    event names a total that gives no finite percentage (then nothing is
    changed either), or the bar cannot be computed. The percentage is the
    floating-point one: at 58 bytes of 100 it is 57.99999999999999, the
    integer percentage is 57 and nothing is printed. *)
Lemma console_downloading_frame :
  d !! "status"%string = Some (PStr (lit "downloading")) ->
  let run := DefaultProgressHook.__call__ d (console, s) in
  let remembers (n : Z) :=
    {| DefaultProgressHook.last_printed_percent := n;
       DefaultProgressHook.current_stage :=
         DefaultProgressHook.current_stage console |} in
  (exists p n filled,
     event_percent d = Some p /\ int_of_float p = Ok n
     /\ n mod 2 = 0
     /\ n <> DefaultProgressHook.last_printed_percent console
     /\ bar_fill p = Ok filled
     /\ run = (Ok tt,
               (remembers n,
                shows s [progress_line
                           (DefaultProgressHook.current_stage console) p filled])))
  \/ (run = (Ok tt, (console, s))
      /\ (carries_total d = false
          \/ exists n,
               event_int_percent d = Some n
               /\ ~ (n mod 2 = 0
                     /\ n <> DefaultProgressHook.last_printed_percent console)))
  \/ (exists e,
        carries_total d = true
        /\ ((event_int_percent d = None /\ run = (Raise e, (console, s)))
            \/ exists p n,
                 event_percent d = Some p /\ int_of_float p = Ok n
                 /\ bar_fill p = Raise e
                 /\ run = (Raise e, (remembers n, s)))).
Proof.
  intros Hstatus run remembers. subst run remembers. unfold event_int_percent.
  destruct (carries_total d) eqn:Hc.
  - destruct (event_percent d) as [p|] eqn:Hp.
    + rewrite (console_downloading _ _ _ _ Hstatus Hp).
      destruct (int_of_float p) as [n|e] eqn:Hn; [|right; right; eauto 10].
      destruct (Z.eqb_spec n (DefaultProgressHook.last_printed_percent console))
        as [Heq|Hne];
        destruct (Z.eqb_spec (n mod 2) 0) as [Hev|Hodd]; cbn [negb andb].
      * right; left. split; [reflexivity|]. right. exists n. intuition.
      * right; left. split; [reflexivity|]. right. exists n. intuition.
      * cbv zeta. destruct (bar_fill p) as [filled|e] eqn:Hfill.
        -- left. exists p, n, filled. auto 10.
        -- right; right. exists e. split; [reflexivity|]. right.
           exists p, n. auto.
      * right; left. split; [reflexivity|]. right. exists n. intuition.
    + right; right.
      destruct (console_raises_without_percent _ s console Hstatus Hc Hp) as [e He].
      exists e. auto.
  - right; left. split; [|left; reflexivity].
    apply console_downloading_no_total; assumption.
Qed.

(** C7, as the code has it. The hooks tell events apart by [d['status']]
    and know three kinds: [downloading], [finished] and [error]. An event
    with any other status is dropped by both. A [finished] event with a
    file name and an [error] event are rendered by both. A [downloading]
    event is not always rendered. With a finite floating-point percentage
    whose integer part is [n], the GUI hook renders it when the sizes
    convert to megabytes and [n] is one the progress bar takes (0 to 100);
    the console hook renders it when [n] is even and not the one it
    remembers, and otherwise leaves it out. Without a total under either key
    both hooks leave it out. *)
Theorem sinks_render_three_kinds :
  (forall v, d !! "status"%string = Some v -> unknown_status v ->
     DefaultProgressHook.__call__ d (console, s) = (Ok tt, (console, s))
     /\ StreamlitProgressHook.__call__ d (gui, s) = (Ok tt, (gui, s)))
  /\ (forall f,
        d !! "status"%string = Some (PStr (lit "finished")) ->
        d !! "filename"%string = Some (PStr f) ->
        DefaultProgressHook.__call__ d (console, s)
        = (Ok tt, (console,
                   shows s [Printed [Txt "\nDownloaded: ";
                                     Str (PyPath.name (PyPath.of_str f))]]))
        /\ StreamlitProgressHook.__call__ d (gui, s)
           = (Ok tt, (gui,
                      shows s [BarProgress 100;
                               StatusText [Txt "Download completed: ";
                                           Str (PyPath.name (PyPath.of_str f))]])))
  /\ (d !! "status"%string = Some (PStr (lit "error")) ->
      let error := dict_get d "error" (PStr (lit "Unknown error")) in
      DefaultProgressHook.__call__ d (console, s)
      = (Ok tt, (console,
                 shows s [Printed [Txt "\nError during download: "; Val error]]))
      /\ StreamlitProgressHook.__call__ d (gui, s)
         = (Ok tt, (gui, shows s [StatusText [Txt "Error: "; Val error]])))
  /\ (forall p n,
        d !! "status"%string = Some (PStr (lit "downloading")) ->
        event_percent d = Some p ->
        int_of_float p = Ok n ->
        (forall downloaded_mb total_mb,
           event_megabytes d = Some (downloaded_mb, total_mb) ->
           0 <= n <= 100 ->
           StreamlitProgressHook.__call__ d (gui, s)
           = (Ok tt, (gui,
                      shows s [BarProgress n;
                               StatusText [Txt "Downloading... "; Fixed1 p;
                                           Txt "% ("; Fixed1 downloaded_mb;
                                           Txt "MB / "; Fixed1 total_mb;
                                           Txt "MB)"]])))
        /\ (forall filled,
              n mod 2 = 0 ->
              n <> DefaultProgressHook.last_printed_percent console ->
              bar_fill p = Ok filled ->
              DefaultProgressHook.__call__ d (console, s)
              = (Ok tt,
                 ({| DefaultProgressHook.last_printed_percent := n;
                     DefaultProgressHook.current_stage :=
                       DefaultProgressHook.current_stage console |},
                  shows s [progress_line
                             (DefaultProgressHook.current_stage console) p filled])))
        /\ (n mod 2 <> 0 \/ n = DefaultProgressHook.last_printed_percent console ->
            DefaultProgressHook.__call__ d (console, s) = (Ok tt, (console, s))))
  /\ (d !! "status"%string = Some (PStr (lit "downloading")) ->
      carries_total d = false ->
      DefaultProgressHook.__call__ d (console, s) = (Ok tt, (console, s))
      /\ StreamlitProgressHook.__call__ d (gui, s) = (Ok tt, (gui, s))).
Proof.
  split; [|split; [|split; [|split]]].
  - intros v Hv Hu. split.
    + exact (console_unknown_status _ _ _ _ Hv Hu).
    + exact (gui_unknown_status _ _ _ _ Hv Hu).
  - intros f Hs Hf. split.
    + exact (console_finished _ _ _ _ Hs Hf).
    + exact (gui_finished _ _ _ _ Hs Hf).
  - intros Hs error. split.
    + exact (console_error _ _ _ Hs).
    + exact (gui_error _ _ _ Hs).
  - intros p n Hs Hp Hn. split; [|split].
    + intros dmb tmb Hmb Hrange.
      exact (gui_downloading _ _ _ _ _ _ _ Hs Hp Hmb Hn Hrange).
    + intros filled Hev Hne Hfill.
      rewrite (console_downloading _ _ _ _ Hs Hp), Hn. cbv zeta.
      apply Z.eqb_eq in Hev. apply Z.eqb_neq in Hne.
      rewrite Hev, Hne, Hfill. reflexivity.
    + intros Hskip.
      rewrite (console_downloading _ _ _ _ Hs Hp), Hn.
      destruct (Z.eqb_spec n (DefaultProgressHook.last_printed_percent console));
        destruct (Z.eqb_spec (n mod 2) 0); cbn [negb andb]; try reflexivity.
      destruct Hskip; contradiction.
  - intros Hs Hc. split.
    + exact (console_downloading_no_total _ _ _ Hs Hc).
    + exact (gui_downloading_no_total _ _ _ Hs Hc).
Qed.

End Sinks.

(** C7 as stated fails on events of the second of its four kinds, the
    progressing ones. With 1 byte of 100 downloaded the percentage is 1:
    the console hook shows nothing. With 58 bytes of 100 the percentage
    is 57.99999999999999: the console hook shows nothing either. An event
    of a download of unknown size, with no total, is shown by neither
    sink. *)
Lemma progressing_event_not_rendered :
  rendered (DefaultProgressHook.__call__ (bytes_of_100 1))
    DefaultProgressHook.__init__ = []
  /\ (event_int_percent (bytes_of_100 58) = Some 57
      /\ rendered (DefaultProgressHook.__call__ (bytes_of_100 58))
           DefaultProgressHook.__init__ = [])
  /\ rendered (DefaultProgressHook.__call__ sizeless_event)
       DefaultProgressHook.__init__ = []
  /\ rendered (StreamlitProgressHook.__call__ sizeless_event)
       StreamlitProgressHook.__init__ = [].
Proof. repeat split; vm_compute; reflexivity. Qed.

Lemma sinks_render_three_kinds_witness :
  rendered (DefaultProgressHook.__call__ finished_event)
    DefaultProgressHook.__init__
  = [Printed [Txt "\nDownloaded: "; Str (lit "talk.mp4")]]
  /\ rendered (StreamlitProgressHook.__call__ (bytes_of_100 29))
       StreamlitProgressHook.__init__
     = [BarProgress 28;
        StatusText [Txt "Downloading... ";
                    Fixed1 (float_mul (SFdiv prec emax (unrounded 29) (unrounded 100))
                              (float_of_Z 100));
                    Txt "% (";
                    Fixed1 (SFdiv prec emax (unrounded 29) (unrounded 1048576));
                    Txt "MB / ";
                    Fixed1 (SFdiv prec emax (unrounded 100) (unrounded 1048576));
                    Txt "MB)"]]
  /\ rendered (DefaultProgressHook.__call__ half_way_event)
       DefaultProgressHook.__init__
     = [progress_line (lit "Downloading") (float_of_Z 50) 15]
  /\ rendered (DefaultProgressHook.__call__ (bytes_of_100 58))
       DefaultProgressHook.__init__ = []
  /\ rendered (DefaultProgressHook.__call__ started_event)
       DefaultProgressHook.__init__ = [].
Proof.
  destruct (sinks_render_three_kinds finished_event world0
              DefaultProgressHook.__init__ StreamlitProgressHook.__init__)
    as (_ & Hfinished & _ & _ & _).
  destruct (sinks_render_three_kinds (bytes_of_100 29) world0
              DefaultProgressHook.__init__ StreamlitProgressHook.__init__)
    as (_ & _ & _ & H29 & _).
  destruct (sinks_render_three_kinds half_way_event world0
              DefaultProgressHook.__init__ StreamlitProgressHook.__init__)
    as (_ & _ & _ & Hhalf & _).
  destruct (sinks_render_three_kinds (bytes_of_100 58) world0
              DefaultProgressHook.__init__ StreamlitProgressHook.__init__)
    as (_ & _ & _ & H58 & _).
  destruct (sinks_render_three_kinds started_event world0
              DefaultProgressHook.__init__ StreamlitProgressHook.__init__)
    as (Hstarted & _ & _ & _ & _).
  destruct (Hfinished (lit "out/talk.mp4") eq_refl eq_refl) as [Hc _].
  destruct (H29 _ 28 eq_refl eq_refl ltac:(vm_compute; reflexivity))
    as (Hgui & _ & _).
  destruct (Hhalf _ 50 eq_refl eq_refl ltac:(vm_compute; reflexivity))
    as (_ & Hprint & _).
  destruct (H58 _ 57 eq_refl eq_refl ltac:(vm_compute; reflexivity))
    as (_ & _ & Hskip).
  destruct (Hstarted (PStr (lit "started")) eq_refl
              ltac:(repeat split; discriminate)) as [Hs _].
  unfold rendered.
  rewrite Hc, (Hgui _ _ eq_refl ltac:(lia)),
    (Hprint 15 eq_refl ltac:(discriminate) ltac:(vm_compute; reflexivity)),
    (Hskip ltac:(left; discriminate)), Hs.
  repeat split.
Defined.

(** C9, at an event whose total is 0 and at one whose total is [None]: the
    hook does not return, it raises out of the division. *)
Theorem console_hook_raises_on_unusable_total
    (self : DefaultProgressHook.t) (s : io) :
  DefaultProgressHook.__call__ zero_total_event (self, s)
  = (Raise (Exception "ZeroDivisionError"), (self, s))
  /\ DefaultProgressHook.__call__ unknown_total_event (self, s)
     = (Raise (Exception "TypeError"), (self, s)).
Proof. split; vm_compute; reflexivity. Qed.

(** ** [URLValidator] *)

Section Validator.
Import URLValidator.
Variable lib : Library.

(** The confirmation loop ends with an answer when the user gives one, and
    with [EOFError] when the input ends first; the URL comes back as it
    went in. *)
Lemma confirm_outcome (url : pystr) (lines : list pystr) (shown : list out_event) :
  if existsb is_answer lines
  then exists b, fst (fst (confirm url lines shown)) = Ok (b, url)
  else fst (fst (confirm url lines shown)) = Raise (Exception "EOFError").
Proof.
  revert shown. induction lines as [|line rest IH]; intros shown; [reflexivity|].
  cbn [existsb confirm]. unfold is_answer at 1.
  destruct (bool_decide (lower (strip line) ∈ [lit "y"; lit "yes"])) eqn:Hy.
  - replace (bool_decide (lower (strip line) ∈ [lit "y"; lit "yes"; lit "n"; lit "no"]))
      with true; [cbn; eauto|].
    symmetry. apply bool_decide_eq_true. apply bool_decide_eq_true in Hy.
    rewrite !elem_of_cons in *. tauto.
  - destruct (bool_decide (lower (strip line) ∈ [lit "n"; lit "no"])) eqn:Hn.
    + replace (bool_decide (lower (strip line) ∈ [lit "y"; lit "yes"; lit "n"; lit "no"]))
        with true; [cbn; eauto|].
      symmetry. apply bool_decide_eq_true. apply bool_decide_eq_true in Hn.
      rewrite !elem_of_cons in *. tauto.
    + replace (bool_decide (lower (strip line) ∈ [lit "y"; lit "yes"; lit "n"; lit "no"]))
        with false; [cbn [orb]; apply IH|].
      symmetry. apply bool_decide_eq_false.
      apply bool_decide_eq_false in Hy. apply bool_decide_eq_false in Hn.
      rewrite !elem_of_cons in *. tauto.
Qed.

(** The probe answers with a boolean unless the library raises outside
    [Exception]. *)
Lemma probe_outcome (url : pystr) (s : io) :
  let s' := {| stdin := stdin s; out := out s;
               calls := calls s ++ [ExtractInfo probe_opts url false] |} in
  _test_url_with_ydlp lib url s
  = match ydl_extract_info lib probe_opts url false with
    | Ok info => (Ok (bool_decide (is_Some info)), s')
    | Raise (Exception _) => (Ok false, s')
    | Raise (BaseException cls) => (Raise (BaseException cls), s')
    end.
Proof.
  cbv zeta. unfold _test_url_with_ydlp, try_except, extract_info, bind,
    record_call, lift_result.
  destruct (ydl_extract_info lib probe_opts url false) as [info|[cls|cls]];
    reflexivity.
Qed.

(** [validate_url], case by case. *)
Lemma validate_url_eval (url : pystr) (interactive : bool) (s : io) :
  let u := strip url in
  let s1 := {| stdin := stdin s; out := out s;
               calls := calls s ++ [ExtractInfo probe_opts u false] |} in
  let rejected :=
    if interactive
    then confirm_loop u
           (shows s1 [Printed [Txt "URL format not recognized: "; Str u];
                      Printed [Txt "This might still be a valid YouTube link or supported video platform."]])
    else (Ok (false, u), s1) in
  validate_url lib url interactive s
  = if _matches_youtube_pattern lib u then (Ok (true, u), s)
    else match ydl_extract_info lib probe_opts u false with
         | Ok info =>
             if bool_decide (is_Some info) then (Ok (true, u), s1) else rejected
         | Raise (Exception _) => rejected
         | Raise (BaseException cls) => (Raise (BaseException cls), s1)
         end.
Proof.
  cbv zeta. unfold validate_url.
  destruct (_matches_youtube_pattern lib (strip url)); [reflexivity|].
  unfold bind at 1. rewrite probe_outcome.
  assert (Hshows : forall (s0 : io) e1 e2,
            bind (print e1) (fun _ => bind (print e2) (fun _ => confirm_loop (strip url))) s0
            = confirm_loop (strip url) (shows s0 [Printed e1; Printed e2])).
  { intros s0 e1 e2. unfold bind, print, show, confirm_loop, shows.
    cbn [stdin out calls]. rewrite <- app_assoc. reflexivity. }
  destruct (ydl_extract_info lib probe_opts (strip url) false)
    as [info|[cls|cls]]; [destruct (bool_decide (is_Some info))| |];
    try reflexivity; destruct interactive; try reflexivity; apply Hshows.
Qed.

Lemma confirm_loop_outcome (url : pystr) (s : io) :
  if existsb is_answer (stdin s)
  then exists b s', confirm_loop url s = (Ok (b, url), s')
  else exists s', confirm_loop url s = (Raise (Exception "EOFError"), s').
Proof.
  unfold confirm_loop.
  pose proof (confirm_outcome url (stdin s) (out s)) as Hc.
  destruct (confirm url (stdin s) (out s)) as [[r rest] shown]. cbn [fst] in Hc.
  destruct (existsb is_answer (stdin s)).
  - destruct Hc as [b ->]. eauto.
  - rewrite Hc. eauto.
Qed.

(** C5. Whatever [validate_url] returns, the second component is the
    input stripped of leading and trailing whitespace. And it does return
    such a pair, in both modes, unless the probe is interrupted by an
    exception outside [Exception], or, in interactive mode, the user's
    input ends before a y/n answer. *)
Theorem validate_url_strips (url : pystr) (interactive : bool) (s : io) :
  let run := validate_url lib url interactive s in
  (forall b p s', run = (Ok (b, p), s') -> p = strip url)
  /\ ((exists b s', run = (Ok (b, strip url), s'))
      \/ (exists cls s',
            ydl_extract_info lib probe_opts (strip url) false
            = Raise (BaseException cls)
            /\ run = (Raise (BaseException cls), s'))
      \/ (interactive = true /\ existsb is_answer (stdin s) = false
          /\ exists s', run = (Raise (Exception "EOFError"), s'))).
Proof.
  cbv zeta.
  assert (Hcases :
    (exists b s', validate_url lib url interactive s = (Ok (b, strip url), s'))
    \/ (exists cls s',
          ydl_extract_info lib probe_opts (strip url) false
          = Raise (BaseException cls)
          /\ validate_url lib url interactive s = (Raise (BaseException cls), s'))
    \/ (interactive = true /\ existsb is_answer (stdin s) = false
        /\ exists s', validate_url lib url interactive s
                      = (Raise (Exception "EOFError"), s'))).
  { rewrite validate_url_eval. cbv zeta.
    destruct (_matches_youtube_pattern lib (strip url)); [left; eauto|].
    set (s1 := {| stdin := stdin s; out := out s;
                  calls := calls s ++ [ExtractInfo probe_opts (strip url) false] |}).
    set (s2 := shows s1 _).
    assert (Hrejected :
      (exists b s',
         (if interactive then confirm_loop (strip url) s2
          else (Ok (false, strip url), s1)) = (Ok (b, strip url), s'))
      \/ (interactive = true /\ existsb is_answer (stdin s) = false
          /\ exists s',
               (if interactive then confirm_loop (strip url) s2
                else (Ok (false, strip url), s1))
               = (Raise (Exception "EOFError"), s'))).
    { destruct interactive; [|left; eauto].
      pose proof (confirm_loop_outcome (strip url) s2) as Hc.
      change (stdin s2) with (stdin s) in Hc.
      destruct (existsb is_answer (stdin s)).
      - left. exact Hc.
      - right. auto. }
    destruct (ydl_extract_info lib probe_opts (strip url) false)
      as [info|[cls|cls]].
    - destruct (bool_decide (is_Some info)); [left; eauto|].
      destruct Hrejected as [H|H]; [left; exact H | right; right; exact H].
    - destruct Hrejected as [H|H]; [left; exact H | right; right; exact H].
    - right; left. eauto. }
  split; [|exact Hcases].
  intros b p s' Hrun.
  destruct Hcases as [(b' & s'' & H) | [(cls & s'' & _ & H) | (_ & _ & s'' & H)]];
    rewrite H in Hrun; congruence.
Qed.

End Validator.

(** A terminal session: no pattern matches, the probe fails, and the user
    answers on the second try. *)
Lemma validate_url_strips_witness :
  fst (URLValidator.validate_url offline_library sample_url true
         {| stdin := [lit "maybe"; lit " Y "]; out := []; calls := [] |})
  = Ok (true, lit "https://example.org/v/1").
Proof.
  destruct (validate_url_strips offline_library sample_url true
              {| stdin := [lit "maybe"; lit " Y "]; out := []; calls := [] |})
    as [Hstrip _].
  destruct (URLValidator.validate_url offline_library sample_url true _)
    as [[[b p]|e] s'] eqn:Hrun.
  - rewrite (Hstrip b p s' eq_refl).
    vm_compute in Hrun. injection Hrun as <- _ _. reflexivity.
  - vm_compute in Hrun. discriminate.
Defined.

(** ** [get_video_info] *)

Section VideoInfo.
Import URLValidator.
Variable lib : Library.

(** C6, as the code has it. [get_video_info] makes one query, with
    [download=False], and returns what the library returned (a dictionary
    or [None]); when the query raises an [Exception] the result is [None]
    (with a message unless [extract_flat]); an exception outside
    [Exception] is not caught. *)
Theorem get_video_info_outcome (url : pystr) (extract_flat : bool) (s : io) :
  let s1 := {| stdin := stdin s; out := out s;
               calls := calls s ++ [ExtractInfo (info_opts extract_flat) url false] |} in
  get_video_info lib url extract_flat s
  = match ydl_extract_info lib (info_opts extract_flat) url false with
    | Ok info => (Ok info, s1)
    | Raise (Exception cls) =>
        (Ok None,
         if extract_flat then s1
         else shows s1 [Printed [Txt "Failed to get video info: ";
                                 Exc (Exception cls)]])
    | Raise (BaseException cls) => (Raise (BaseException cls), s1)
    end.
Proof.
  cbv zeta. unfold get_video_info, try_except, extract_info, bind,
    record_call, lift_result.
  destruct (ydl_extract_info lib (info_opts extract_flat) url false)
    as [info|[cls|cls]]; try reflexivity.
  destruct extract_flat; reflexivity.
Qed.

End VideoInfo.

(** C6 as stated fails when the query is interrupted: the
    [KeyboardInterrupt] reaches the caller. *)
Lemma get_video_info_propagates_interrupt :
  fst (URLValidator.get_video_info interrupted_library sample_url false world0)
  = Raise (BaseException "KeyboardInterrupt").
Proof. reflexivity. Qed.

(** ** [download] *)

Lemma print_shows (line : list fragment) (s : io) :
  print line s = (Ok tt, shows s [Printed line]).
Proof. reflexivity. Qed.

Lemma shows_app (s : io) (l1 l2 : list out_event) :
  shows (shows s l1) l2 = shows s (l1 ++ l2).
Proof. unfold shows. cbn [stdin out calls]. rewrite app_assoc. reflexivity. Qed.

(** *** The acquisition *)

Section AcquisitionSteps.

(** A hook called through its reference only adds lines to the screen. *)
Lemma call_hook_step (c : callable) (d : gmap string pyval)
    (objects : hook_objects) (s : io) :
  exists r objects' lines,
    call_hook c d (objects, s) = (r, (objects', shows s lines)).
Proof.
  unfold call_hook. destruct c as [| |id].
  - destruct (console_step d s (console_hook objects))
      as (r & self' & lines & -> & _). eauto.
  - destruct (gui_step d s (gui_hook objects)) as (r & lines & -> & _). eauto.
  - exists (Ok tt), objects, []. rewrite shows_nil. reflexivity.
Qed.

Lemma call_all_step (hooks : list callable) (d : gmap string pyval)
    (objects : hook_objects) (s : io) :
  exists r objects' lines,
    call_all call_hook hooks d (objects, s) = (r, (objects', shows s lines)).
Proof.
  revert objects s. induction hooks as [|c hooks IH]; intros objects s.
  - exists (Ok tt), objects, []. rewrite shows_nil. reflexivity.
  - cbn [call_all]. unfold bind.
    destruct (call_hook_step c d objects s) as ([[]|e] & objects1 & lines1 & ->).
    + destruct (IH objects1 (shows s lines1)) as (r & objects2 & lines2 & ->).
      rewrite shows_app. eauto.
    + eauto.
Qed.

(** So does the whole run of the library. *)
Lemma ydl_perform_step (hooks : list callable) (run : ydl_run)
    (objects : hook_objects) (s : io) :
  exists code objects' lines,
    ydl_perform call_hook hooks run (objects, s)
    = (code, (objects', shows s lines)).
Proof.
  revert objects s. induction run as [r|e rest IH|d rest IH]; intros objects s.
  - exists r, objects, []. rewrite shows_nil. reflexivity.
  - cbn [ydl_perform]. unfold bind, on_io, show.
    destruct (IH objects (shows s [e])) as (code & objects' & lines & Hrun).
    unfold shows at 1 in Hrun. rewrite Hrun, shows_app. eauto.
  - cbn [ydl_perform].
    destruct (call_all_step hooks d objects s) as (r & objects1 & lines1 & ->).
    destruct (IH r objects1 (shows s lines1)) as (code & objects2 & lines2 & ->).
    rewrite shows_app. eauto.
Qed.

(** The acquisition records its one call, then the library runs. *)
Lemma ydl_download_urls_step (lib : Library) (opts : gmap string optval)
    (urls : list pystr) (objects : hook_objects) (s : io) :
  exists code objects' lines,
    ydl_download_urls call_hook lib opts urls (objects, s)
    = (code, (objects', {| stdin := stdin s; out := out s ++ lines;
                           calls := calls s ++ [Download opts urls] |})).
Proof.
  unfold ydl_download_urls, bind, on_io, record_call.
  destruct (ydl_perform_step (registered_hooks opts) (ydl_download lib opts urls)
              objects {| stdin := stdin s; out := out s;
                         calls := calls s ++ [Download opts urls] |})
    as (code & objects' & lines & ->).
  eauto.
Qed.

(** A library that neither shows nor reports decides the outcome alone. *)
Lemma ydl_download_urls_finish (lib : Library) (opts : gmap string optval)
    (urls : list pystr) (r : result Z) (objects : hook_objects) (s : io) :
  ydl_download lib opts urls = Finish r ->
  ydl_download_urls call_hook lib opts urls (objects, s)
  = (r, (objects, {| stdin := stdin s; out := out s;
                     calls := calls s ++ [Download opts urls] |})).
Proof.
  intros Hrun. unfold ydl_download_urls, bind, on_io, record_call.
  rewrite Hrun. reflexivity.
Qed.

End AcquisitionSteps.

Section Download.
Import YouTubeDownloader.
Variable lib : Library.
Variable self : YouTubeDownloader.t.

(** The announcement only prints; it fails exactly on a duration that
    [{:02d}] cannot format, and then with an [Exception]. *)
Lemma announce_outcome (is_playlist : bool)
    (video_info : option (gmap string pyval)) (force_convert : bool) (s : io) :
  exists lines cls,
    announce self is_playlist video_info force_convert s
    = (if announce_goes_through is_playlist video_info then Ok tt
       else Raise (Exception cls),
       shows s lines).
Proof.
  unfold announce, announce_goes_through, dict_get, duration_formattable.
  assert (Hsecond : exists l,
    forall s0 : io,
      match force_convert, preferred_format self with
      | true, Some fmt =>
          print [Txt "Will convert to "; Str (upper (VideoFormat_value fmt));
                 Txt " format"]
      | _, pf =>
          when (bool_decide (pf = Some MP4))
            (print [Txt "Preferring MP4 format for better compatibility"])
      end s0 = (Ok tt, shows s0 l)).
  { destruct force_convert, (preferred_format self) as [fmt|];
      try (eexists [_]; reflexivity);
      unfold when; case_bool_decide;
      try (eexists [_]; reflexivity);
      exists []; intros s0; unfold shows; rewrite app_nil_r; destruct s0; reflexivity. }
  destruct Hsecond as [l2 Hsecond].
  unfold bind at 1. rewrite print_shows.
  unfold bind at 1. rewrite Hsecond, shows_app.
  destruct video_info as [info|];
    [|eexists _, EmptyString; reflexivity].
  unfold when at 1.
  destruct (dict_truthy info && negb is_playlist);
    [|eexists _, EmptyString; reflexivity].
  unfold bind at 1. rewrite print_shows, shows_app.
  unfold bind at 1. rewrite print_shows, shows_app.
  destruct (default (PInt 0) (info !! "duration"%string)) as [|z|x|x];
    cbn [truthy negb orb when].
  - eexists _, EmptyString; reflexivity.
  - destruct (z =? 0); cbn [negb orb].
    + eexists _, EmptyString; reflexivity.
    + unfold when. rewrite print_shows, shows_app.
      eexists _, EmptyString; reflexivity.
  - destruct (is_zero x); cbn [negb orb];
      [eexists _, EmptyString | eexists _, _]; reflexivity.
  - destruct x; cbn [nonempty negb orb];
      [eexists _, EmptyString | eexists _, _]; reflexivity.
Qed.

Lemma tips_shows (e : exn) (s : io) :
  exists lines, tips e s = (Ok tt, shows s lines).
Proof.
  unfold tips, bind. rewrite !print_shows, !shows_app. eauto.
Qed.

(** [download], case by case. When the announcement goes through (or is
    skipped) there is exactly one acquisition, begun after the lines of
    the announcement, and its outcome decides the result; after an
    [Exception] the lines of the failure follow. Otherwise there is no
    acquisition and the result is [False]. A silent [download] adds no
    line of its own. *)
Lemma download_cases (url : pystr) (quality : Quality) (is_playlist : bool)
    (video_info : option (gmap string pyval)) (force_convert silent : bool)
    (objects : hook_objects) (s : io) :
  let opts := _get_ydl_opts self quality is_playlist video_info force_convert in
  exists announced failure,
    (silent = true -> announced = [] /\ failure = [])
    /\ if silent || announce_goes_through is_playlist video_info
       then
         exists code objects' acquired,
           ydl_download_urls call_hook lib opts [url] (objects, shows s announced)
           = (code, (objects', acquired))
           /\ download call_hook lib self url quality is_playlist video_info
                force_convert silent (objects, s)
              = (verdict code, (objects', shows acquired failure))
           /\ stdin acquired = stdin s
           /\ calls acquired = calls s ++ [Download opts [url]]
       else
         download call_hook lib self url quality is_playlist video_info
           force_convert silent (objects, s)
         = (Ok false, (objects, shows (shows s announced) failure)).
Proof.
  cbv zeta. unfold download, try_except.
  set (opts := _get_ydl_opts self quality is_playlist video_info force_convert).
  assert (Hacquire : forall announced,
            exists failure,
              (silent = true -> failure = [])
              /\ exists code objects' acquired,
                   ydl_download_urls call_hook lib opts [url]
                     (objects, shows s announced)
                   = (code, (objects', acquired))
                   /\ (let '(r, st) :=
                         bind (ydl_download_urls call_hook lib opts [url])
                           (fun _ => ret true) (objects, shows s announced) in
                       match r with
                       | Raise e =>
                           if isinstance_Exception e
                           then bind (when (negb silent) (on_io (tips e)))
                                  (fun _ => ret false) st
                           else (Raise e, st)
                       | Ok b => (Ok b, st)
                       end)
                      = (verdict code, (objects', shows acquired failure))
                   /\ stdin acquired = stdin s
                   /\ calls acquired = calls s ++ [Download opts [url]]).
  { intros announced.
    destruct (ydl_download_urls_step lib opts [url] objects (shows s announced))
      as (code & objects' & lines & Hrun).
    unfold bind at 1. rewrite Hrun.
    set (acquired := {| stdin := stdin (shows s announced);
                        out := out (shows s announced) ++ lines;
                        calls := calls (shows s announced) ++ [Download opts [url]] |}).
    destruct code as [z|[cls|cls]]; cbn [isinstance_Exception verdict].
    - exists []. split; [reflexivity|]. exists (Ok z), objects', acquired.
      rewrite shows_nil. auto.
    - destruct silent; cbn [negb when].
      + exists []. split; [reflexivity|].
        exists (Raise (Exception cls)), objects', acquired.
        rewrite shows_nil. auto.
      + destruct (tips_shows (Exception cls) acquired) as [failure Htips].
        exists failure. split; [discriminate|].
        exists (Raise (Exception cls)), objects', acquired.
        unfold bind, on_io. rewrite Htips. auto.
    - exists []. split; [reflexivity|].
      exists (Raise (BaseException cls)), objects', acquired.
      rewrite shows_nil. auto. }
  destruct silent; cbn [negb orb when].
  - destruct (Hacquire []) as (failure & Hfailure & code & objects' & acquired
                               & Hrun & Hcase & Hin & Hcalls).
    exists [], failure. split; [auto|].
    exists code, objects', acquired. rewrite shows_nil in *.
    unfold bind at 1, ret at 1. cbv beta iota. auto.
  - destruct (announce_outcome is_playlist video_info force_convert s)
      as (lines & cls & Ha).
    unfold bind at 1, on_io at 1. rewrite Ha.
    destruct (announce_goes_through is_playlist video_info).
    + destruct (Hacquire lines) as (failure & _ & code & objects' & acquired
                                    & Hrun & Hcase & Hin & Hcalls).
      exists lines, failure. split; [discriminate|].
      exists code, objects', acquired. auto.
    + cbn [isinstance_Exception].
      destruct (tips_shows (Exception cls) (shows s lines)) as [failure Htips].
      exists lines, failure. split; [discriminate|].
      unfold bind, on_io. rewrite ?Ha. cbn [isinstance_Exception negb when].
      rewrite Htips. reflexivity.
Qed.

(** C4, as the code has it. When the announcement goes through (always so
    when [silent]), [download] makes exactly one acquisition call with the
    options of [_get_ydl_opts] and the one URL; it returns [True] when that
    call completes, [False] when it raises an [Exception]; an exception
    outside [Exception] is not caught. The acquisition is the run of the
    library together with the progress hooks it calls; for a library that
    neither shows nor reports anything its outcome is the library's. *)
Theorem download_outcome (url : pystr) (quality : Quality) (is_playlist : bool)
    (video_info : option (gmap string pyval)) (force_convert silent : bool)
    (objects : hook_objects) (s : io) :
  silent = true \/ announce_goes_through is_playlist video_info = true ->
  let opts := _get_ydl_opts self quality is_playlist video_info force_convert in
  exists announced code objects' s',
    fst (ydl_download_urls call_hook lib opts [url] (objects, shows s announced))
    = code
    /\ (forall r, ydl_download lib opts [url] = Finish r -> code = r)
    /\ download call_hook lib self url quality is_playlist video_info
         force_convert silent (objects, s)
       = (match code with
          | Ok _ => Ok true
          | Raise (Exception _) => Ok false
          | Raise (BaseException cls) => Raise (BaseException cls)
          end, (objects', s'))
    /\ calls s' = calls s ++ [Download opts [url]].
Proof.
  intros Hgo. cbv zeta.
  destruct (download_cases url quality is_playlist video_info force_convert
              silent objects s) as (announced & failure & _ & Hcase).
  assert (Hb : silent || announce_goes_through is_playlist video_info = true)
    by (destruct Hgo as [-> | ->]; [reflexivity | apply orb_true_r]).
  rewrite Hb in Hcase.
  destruct Hcase as (code & objects' & acquired & Hrun & Hdownload & _ & Hcalls).
  exists announced, code, objects', (shows acquired failure).
  split; [rewrite Hrun; reflexivity|]. split; [|split].
  - intros r Hr.
    rewrite (ydl_download_urls_finish _ _ _ _ _ _ Hr) in Hrun. congruence.
  - exact Hdownload.
  - exact Hcalls.
Qed.

End Download.

(** C4 as stated fails when the acquisition is interrupted: [download]
    does not return, the [KeyboardInterrupt] reaches the caller. *)
Lemma download_propagates_interrupt :
  fst (YouTubeDownloader.download call_hook interrupted_library
         sample_downloader sample_url BEST false None false true
         (new_hooks, world0))
  = Raise (BaseException "KeyboardInterrupt").
Proof. reflexivity. Qed.

Lemma download_outcome_witness :
  fst (YouTubeDownloader.download call_hook working_library sample_downloader
         sample_url HD_1080 false None false true (new_hooks, world0)) = Ok true
  /\ fst (YouTubeDownloader.download call_hook offline_library sample_downloader
            sample_url HD_1080 false None false true (new_hooks, world0))
     = Ok false.
Proof.
  split.
  - destruct (download_outcome working_library sample_downloader sample_url
                HD_1080 false None false true new_hooks world0
                (or_introl eq_refl))
      as (announced & code & objects' & s' & _ & Hcode & Hrun & _).
    rewrite Hrun, (Hcode (Ok 0) eq_refl). reflexivity.
  - destruct (download_outcome offline_library sample_downloader sample_url
                HD_1080 false None false true new_hooks world0
                (or_introl eq_refl))
      as (announced & code & objects' & s' & _ & Hcode & Hrun & _).
    rewrite Hrun, (Hcode (Raise (Exception "DownloadError")) eq_refl).
    reflexivity.
Defined.

(** A duration that is not a whole number stops [download] before the
    acquisition: with a library that would succeed, nothing is requested
    and the result is [False]. *)
Lemma download_float_duration :
  let run := YouTubeDownloader.download call_hook working_library
               sample_downloader sample_url BEST false
               (Some float_duration_info) false false (new_hooks, world0) in
  fst run = Ok false /\ calls (snd (snd run)) = [].
Proof. split; vm_compute; reflexivity. Qed.

(** * Further properties

    ** The option dictionary as a whole *)

Section OptionDictionary.
Import YouTubeDownloader.

Variable self : YouTubeDownloader.t.
Variables (is_playlist : bool) (video_info : option (gmap string pyval)).

(** X1. Whatever the quality, the preferred format and the flags, the
    dictionary has the same eight keys: a format and a post-processor
    list are always there, the template is that of
    [_get_output_template], and [extract_flat] is off. *)
Theorem options_have_eight_keys (quality : Quality) (force_convert : bool) :
  let opts := _get_ydl_opts self quality is_playlist video_info force_convert in
  dom opts = option_keys
  /\ opts !! "outtmpl"%string
     = Some (OStr (_get_output_template self is_playlist video_info))
  /\ opts !! "extract_flat"%string = Some (OBool false).
Proof.
  cbv zeta. split.
  - unfold _get_ydl_opts.
    set (tmpl := _get_output_template _ _ _). clearbody tmpl.
    set (hook := progress_hook self). clearbody hook.
    unfold option_keys, dict_update.
    case_bool_decide;
      [|destruct force_convert, (preferred_format self) as [fmt|]];
      cbn [app list_to_map list_to_set foldr uncurry fst snd];
      rewrite ?dom_union_L, ?dom_insert_L, ?dom_empty_L; set_solver.
  - rewrite !base_entries_kept by discriminate. split; reflexivity.
Qed.

(** X2. The metadata never reaches the options; for [AUDIO_ONLY] neither
    the preferred format nor [force_convert] does; and without
    [force_convert] the preferred format has no effect on any tier. *)
Theorem options_ignore_unused_inputs (quality : Quality) (force_convert : bool)
    (other_info : option (gmap string pyval)) (pf : option VideoFormat) :
  _get_ydl_opts self quality is_playlist other_info force_convert
  = _get_ydl_opts self quality is_playlist video_info force_convert
  /\ _get_ydl_opts (with_preferred_format self pf) AUDIO_ONLY is_playlist
       video_info (negb force_convert)
     = _get_ydl_opts self AUDIO_ONLY is_playlist video_info force_convert
  /\ _get_ydl_opts (with_preferred_format self pf) quality is_playlist
       video_info false
     = _get_ydl_opts self quality is_playlist video_info false.
Proof.
  split; [reflexivity|]. split.
  - unfold _get_ydl_opts.
    rewrite !bool_decide_eq_true_2 by reflexivity. reflexivity.
  - unfold _get_ydl_opts. case_bool_decide; reflexivity.
Qed.

(** X3. On a tier with a height limit, every alternative of the format
    expression (the parts between slashes) carries that limit, with and
    without [force_convert]: no fallback is unbounded. *)
Theorem every_alternative_is_limited (quality : Quality) (force_convert : bool) :
  quality ∈ limited_tiers ->
  exists expression,
    _get_ydl_opts self quality is_playlist video_info force_convert
      !! "format"%string = Some (OStr expression)
    /\ height_filter quality <> []
    /\ Forall (fun alternative => is_infix (height_filter quality) alternative = true)
         (split 47 expression).
Proof.
  intros Hq. exists (_build_format_string self quality force_convert).
  assert (Hvideo : quality <> AUDIO_ONLY).
  { intros ->. unfold limited_tiers in Hq. rewrite !elem_of_cons in Hq.
    rewrite elem_of_nil in Hq. intuition discriminate. }
  split.
  - unfold _get_ydl_opts. rewrite bool_decide_eq_false_2 by exact Hvideo.
    destruct force_convert, (preferred_format self); cbn [app];
      rewrite lookup_insert_ne by discriminate; apply lookup_insert_eq.
  - unfold limited_tiers in Hq. rewrite !elem_of_cons, elem_of_nil in Hq.
    destruct Hq as [-> | [-> | [-> | []]]]; destruct force_convert;
      (split; [discriminate | vm_compute; repeat constructor]).
Qed.

End OptionDictionary.

Lemma every_alternative_is_limited_witness :
  exists expression,
    YouTubeDownloader._get_ydl_opts sample_downloader HD_720 false None false
      !! "format"%string = Some (OStr expression)
    /\ height_filter HD_720 <> []
    /\ Forall (fun alternative => is_infix (lit "[height<=720]") alternative = true)
         (split 47 expression).
Proof.
  exact (every_alternative_is_limited sample_downloader false None HD_720 false
           ltac:(unfold limited_tiers; rewrite !elem_of_cons; auto)).
Defined.

(** X27. A downloader built by the constructor always has a format to
    convert to: on every video tier, [force_convert] yields exactly the
    steps [FFmpegVideoConvertor] and [FFmpegMetadata], and the target is
    the format given to the constructor, or mp4 when none was given. *)
Theorem constructed_downloader_converts (output_dir : pystr)
    (custom_filename : option pystr) (preferred_format : option VideoFormat)
    (progress_callback : option callable) (quality : Quality)
    (is_playlist : bool) (video_info : option (gmap string pyval)) :
  quality <> AUDIO_ONLY ->
  let self := YouTubeDownloader.__init__ output_dir custom_filename
                preferred_format progress_callback in
  exists convert metadata,
    YouTubeDownloader._get_ydl_opts self quality is_playlist video_info true
      !! "postprocessors"%string = Some (OPostprocessors [convert; metadata])
    /\ step_is convert
         [("key", lit "FFmpegVideoConvertor");
          ("preferedformat", VideoFormat_value (default MP4 preferred_format))]%string
    /\ step_is metadata [("key", lit "FFmpegMetadata")]%string.
Proof.
  intros Hq. cbv zeta. unfold YouTubeDownloader._get_ydl_opts.
  rewrite bool_decide_eq_false_2 by exact Hq.
  cbn [YouTubeDownloader.preferred_format YouTubeDownloader.__init__ app].
  eexists _, _. split; [apply lookup_insert_eq|].
  split; (split; [reflexivity | repeat constructor]).
Qed.

Lemma constructed_downloader_converts_witness :
  exists convert metadata,
    YouTubeDownloader._get_ydl_opts sample_downloader BEST false None true
      !! "postprocessors"%string = Some (OPostprocessors [convert; metadata])
    /\ step_is convert
         [("key", lit "FFmpegVideoConvertor"); ("preferedformat", lit "mp4")]%string
    /\ step_is metadata [("key", lit "FFmpegMetadata")]%string.
Proof.
  exact (constructed_downloader_converts (lit "out") None None None BEST false
           None ltac:(discriminate)).
Defined.

(** ** The template and the custom file name *)

Section PathFacts.

Lemma split_nonempty (sep : codepoint) (s : pystr) : split sep s <> [].
Proof.
  induction s as [|c s IH]; cbn; [discriminate|].
  destruct (c =? sep)%N; [discriminate|].
  destruct (split sep s); [congruence | discriminate].
Qed.

(** No field of [s.split(sep)] contains the separator. *)
Lemma split_fields_no_separator (sep : codepoint) (s : pystr) :
  Forall (fun field => sep ∉ field) (split sep s).
Proof.
  induction s as [|c s IH]; cbn.
  - repeat constructor. apply not_elem_of_nil.
  - destruct (N.eqb_spec c sep) as [->|Hc].
    + constructor; [apply not_elem_of_nil | exact IH].
    + destruct (split sep s) as [|f fs].
      { repeat constructor. rewrite not_elem_of_cons.
        split; [congruence | apply not_elem_of_nil]. }
      inversion IH as [|? ? Hf Hfs]; subst.
      constructor; [|exact Hfs].
      rewrite not_elem_of_cons. split; [congruence | exact Hf].
Qed.

Lemma split_app_separator (sep : codepoint) (x y : pystr) :
  split sep (x ++ sep :: y) = split sep x ++ split sep y.
Proof.
  induction x as [|c x IH]; cbn.
  - rewrite N.eqb_refl. reflexivity.
  - destruct (c =? sep)%N; rewrite IH; [reflexivity|].
    destruct (split sep x) as [|f fs] eqn:Hx;
      [contradiction (split_nonempty sep x) | reflexivity].
Qed.

Lemma name_no_slash (p : pystr) : 47%N ∉ PyPath.name (PyPath.of_str p).
Proof.
  unfold PyPath.name, PyPath.of_str.
  destruct (PyPath.splitroot p) as [r rel]. cbn [PyPath.tail].
  pose proof (split_fields_no_separator 47 rel) as Hall.
  assert (Hfilter : Forall (fun field : pystr => 47%N ∉ field)
                      (List.filter PyPath.is_component (split 47 rel))).
  { apply Forall_forall. intros x Hx. apply list_elem_of_In, filter_In in Hx as [Hx _].
    rewrite Forall_forall in Hall. apply Hall, list_elem_of_In, Hx. }
  induction Hfilter as [|x l Hx Hl IH]; [apply not_elem_of_nil|].
  destruct l; [exact Hx | exact IH].
Qed.

(** The stem of a path never contains a slash. *)
Lemma stem_no_slash (p : pystr) : 47%N ∉ PyPath.stem (PyPath.of_str p).
Proof.
  unfold PyPath.stem. pose proof (name_no_slash p) as Hn.
  destruct (rfind 46 (PyPath.name (PyPath.of_str p))) as [i|]; [|exact Hn].
  destruct (_ && _); [|exact Hn].
  intros Hin. apply Hn. apply elem_of_take in Hin as (j & Hj & _).
  eapply list_elem_of_lookup_2, Hj.
Qed.

(** The four shapes of a path, as [splitroot] tells them apart. *)
Lemma splitroot_cases (p : pystr) :
  (head p <> Some 47%N /\ PyPath.splitroot p = ([], p))
  \/ (exists rel, p = 47%N :: rel /\ head rel <> Some 47%N
                  /\ PyPath.splitroot p = (lit "/", rel))
  \/ (exists rel, p = 47%N :: 47%N :: rel /\ head rel <> Some 47%N
                  /\ PyPath.splitroot p = (lit "//", rel))
  \/ (exists rel, p = 47%N :: 47%N :: 47%N :: rel
                  /\ PyPath.splitroot p = (lit "/", 47%N :: 47%N :: rel)).
Proof.
  unfold PyPath.splitroot.
  destruct p as [|a p]; [left; split; [discriminate | reflexivity]|].
  destruct (N.eq_dec a 47%N) as [->|Ha].
  - right. destruct p as [|b p].
    { left. exists []. repeat split. discriminate. }
    destruct (N.eq_dec b 47%N) as [->|Hb].
    + right. destruct p as [|c p].
      { left. exists []. repeat split. discriminate. }
      destruct (N.eq_dec c 47%N) as [->|Hc].
      * right. exists p. split; reflexivity.
      * left. exists (c :: p). split; [reflexivity|].
        split; [cbn; congruence|].
        destruct c as [|q]; [reflexivity|].
        do 6 (destruct q as [q|q|]; try reflexivity). congruence.
    + left. exists (b :: p). split; [reflexivity|].
      split; [cbn; congruence|].
      destruct b as [|q]; [reflexivity|].
      do 6 (destruct q as [q|q|]; try reflexivity). congruence.
  - left. split; [cbn; congruence|].
    destruct a as [|q]; [reflexivity|].
    do 6 (destruct q as [q|q|]; try reflexivity). congruence.
Qed.

(** What [splitroot] leaves of a path that ends in [/name]: the name
    itself, or something that still ends in [/name]. *)
Lemma splitroot_keeps_last (dir name : pystr) :
  47%N ∉ name ->
  exists r rel,
    PyPath.splitroot (dir ++ 47%N :: name) = (r, rel)
    /\ (rel = name \/ exists dir', rel = dir' ++ 47%N :: name).
Proof.
  intros Hname.
  assert (Hhead : forall rest, name = 47%N :: rest -> False).
  { intros rest ->. apply Hname, list_elem_of_here. }
  destruct (splitroot_cases (dir ++ 47%N :: name))
    as [[_ ->] | [(rel & Hp & _ & ->) | [(rel & Hp & _ & ->) | (rel & Hp & ->)]]].
  - eauto 10.
  - eexists _, _. split; [reflexivity|].
    destruct dir as [|a dir]; cbn [app] in Hp.
    + injection Hp as ->. auto.
    + injection Hp as _ <-. eauto.
  - eexists _, _. split; [reflexivity|].
    destruct dir as [|a dir]; cbn [app] in Hp.
    + injection Hp as Hp. exfalso. eapply Hhead. exact Hp.
    + injection Hp as _ Hp.
      destruct dir as [|b dir]; cbn [app] in Hp.
      * injection Hp as ->. auto.
      * injection Hp as _ <-. eauto.
  - eexists _, _. split; [reflexivity|].
    destruct dir as [|a dir]; cbn [app] in Hp.
    + injection Hp as Hp. exfalso. eapply Hhead. exact Hp.
    + injection Hp as _ Hp. right. exists dir. rewrite Hp. reflexivity.
Qed.

(** The name of [dir/name] is [name]. *)
Lemma name_of_last_component (dir name : pystr) :
  47%N ∉ name -> PyPath.is_component name = true ->
  PyPath.name (PyPath.of_str (dir ++ 47%N :: name)) = name.
Proof.
  intros Hname Hcomp.
  destruct (splitroot_keeps_last dir name Hname) as (r & rel & Hroot & Hrel).
  unfold PyPath.name, PyPath.of_str. rewrite Hroot. cbn [PyPath.tail].
  destruct Hrel as [-> | [dir' ->]].
  - rewrite split_no_separator by exact Hname. cbn [List.filter].
    rewrite Hcomp. reflexivity.
  - rewrite split_app_separator, (split_no_separator _ name Hname).
    rewrite List.filter_app. cbn [List.filter]. rewrite Hcomp.
    apply List.last_last.
Qed.

Lemma stem_of_name (p : PyPath.Path) (base ext : pystr) :
  PyPath.name p = base ++ 46%N :: ext ->
  base <> [] -> ext <> [] -> 46%N ∉ ext ->
  PyPath.stem p = base.
Proof.
  intros Hname Hb He Hdot.
  unfold PyPath.stem. rewrite Hname, rfind_last_dot by exact Hdot.
  rewrite length_app. cbn [length].
  destruct base as [|b base]; [congruence|].
  destruct ext as [|e ext]; [congruence|].
  replace ((0 <? length (b :: base))%nat
           && (length (b :: base) <? length (b :: base) + S (length (e :: ext)) - 1)%nat)
    with true.
  - rewrite take_app_length. reflexivity.
  - symmetry. apply andb_true_iff. split; apply Nat.ltb_lt; cbn; lia.
Qed.

(** A relative path prints as a relative path. *)
Lemma relative_path_str (p : pystr) :
  head p <> Some 47%N -> head (PyPath.to_str (PyPath.of_str p)) <> Some 47%N.
Proof.
  intros Hrel. unfold PyPath.to_str, PyPath.of_str.
  assert (Hroot : PyPath.splitroot p = ([], p)).
  { destruct (splitroot_cases p)
      as [[_ H] | [(rel & -> & _) | [(rel & -> & _) | (rel & -> & _)]]];
      [exact H | exfalso; apply Hrel; reflexivity ..]. }
  rewrite Hroot. cbn [PyPath.root PyPath.tail app].
  pose proof (split_fields_no_separator 47 p) as Hall.
  assert (Hfilter : Forall (fun field : pystr => (47%N ∉ field) /\ field <> [])
                      (List.filter PyPath.is_component (split 47 p))).
  { apply Forall_forall. intros x Hx.
    apply list_elem_of_In, filter_In in Hx as [Hx Hc].
    rewrite Forall_forall in Hall. split; [apply Hall, list_elem_of_In, Hx|].
    intros ->. discriminate. }
  destruct Hfilter as [|x l [Hx Hne] Hl]; [discriminate|].
  destruct x as [|c x]; [congruence|].
  assert (c <> 47%N) by (intros ->; apply Hx, list_elem_of_here).
  destruct l; cbn; congruence.
Qed.

End PathFacts.

Section TemplateShape.
Import YouTubeDownloader.

Lemma template_shape_of_dir (self : YouTubeDownloader.t) (is_playlist : bool)
    (video_info : option (gmap string pyval)) :
  exists rest,
    _get_output_template self is_playlist video_info
    = PyPath.to_str (output_dir self) ++ rest.
Proof.
  unfold _get_output_template.
  destruct (_ && _); [|destruct is_playlist]; eexists; reflexivity.
Qed.

(** X4. Every template is the output directory, a slash, a name and the
    placeholder [.%(ext)s]; unless a playlist is downloaded the name has
    no slash in it, so no custom file name can move the file into another
    directory. *)
Theorem template_shape (self : YouTubeDownloader.t) (is_playlist : bool)
    (video_info : option (gmap string pyval)) :
  exists name,
    _get_output_template self is_playlist video_info
    = PyPath.to_str (output_dir self) ++ lit "/" ++ name ++ lit ".%(ext)s"
    /\ (is_playlist = false -> 47%N ∉ name).
Proof.
  unfold _get_output_template.
  destruct (custom_filename_truthy self && negb is_playlist) eqn:Hcustom.
  - eexists. split; [reflexivity|]. intros _. apply stem_no_slash.
  - destruct is_playlist.
    + exists (lit "%(playlist)s/%(playlist_index)s - %(title)s").
      split; [reflexivity | discriminate].
    + exists (lit "%(title)s"). split; [reflexivity|].
      intros _. apply (bool_decide_eq_true_1 (47%N ∉ lit "%(title)s")).
      vm_compute. reflexivity.
Qed.

(** X5. A custom file name given with a directory part keeps its last
    component only: for [dir/base.ext] the template is that of
    [base]. *)
Theorem custom_directory_is_dropped (self : YouTubeDownloader.t)
    (video_info : option (gmap string pyval)) (dir base ext : pystr) :
  custom_filename self = Some (dir ++ 47%N :: base ++ 46%N :: ext) ->
  base <> [] -> ext <> [] -> 47%N ∉ base ++ 46%N :: ext -> 46%N ∉ ext ->
  _get_output_template self false video_info
  = PyPath.to_str (output_dir self) ++ lit "/" ++ base ++ lit ".%(ext)s".
Proof.
  intros Hf Hb He Hslash Hdot.
  unfold _get_output_template, custom_filename_truthy. rewrite Hf.
  replace (nonempty (dir ++ 47%N :: base ++ 46%N :: ext)) with true
    by (destruct dir; reflexivity).
  cbn [negb andb default from_option id].
  rewrite (stem_of_name _ base ext); [reflexivity | | exact Hb | exact He | exact Hdot].
  apply name_of_last_component; [exact Hslash|].
  unfold PyPath.is_component.
  destruct base as [|b base]; [congruence|].
  destruct ext as [|e ext]; [congruence|].
  cbn [app nonempty andb]. apply negb_true_iff, bool_decide_eq_false.
  destruct base; cbn; congruence.
Qed.

(** X6. A downloader made for a relative output directory (the default
    [.] included) never gets a template that starts at the root. *)
Theorem relative_directory_stays_relative (output_dir : pystr)
    (custom_filename : option pystr) (preferred_format : option VideoFormat)
    (progress_callback : option callable) (is_playlist : bool)
    (video_info : option (gmap string pyval)) :
  head output_dir <> Some 47%N ->
  head (_get_output_template
          (__init__ output_dir custom_filename preferred_format progress_callback)
          is_playlist video_info) <> Some 47%N.
Proof.
  intros Hrel.
  destruct (template_shape_of_dir
              (__init__ output_dir custom_filename preferred_format progress_callback)
              is_playlist video_info) as [rest ->].
  cbn [YouTubeDownloader.output_dir __init__].
  pose proof (relative_path_str output_dir Hrel) as Hstr.
  destruct (PyPath.to_str (PyPath.of_str output_dir)) as [|c d] eqn:Hd.
  - exfalso. revert Hd. unfold PyPath.to_str.
    destruct (_ ++ _); discriminate.
  - exact Hstr.
Qed.

End TemplateShape.

Lemma custom_directory_is_dropped_witness :
  YouTubeDownloader._get_output_template
    (YouTubeDownloader.__init__ (lit "out") (Some (lit "clips/2024/talk.webm"))
       None None) false None
  = lit "out/talk.%(ext)s".
Proof.
  exact (custom_directory_is_dropped
           (YouTubeDownloader.__init__ (lit "out")
              (Some (lit "clips/2024/talk.webm")) None None)
           None (lit "clips/2024") (lit "talk") (lit "webm") eq_refl
           ltac:(discriminate) ltac:(discriminate)
           (bool_decide_eq_true_1 (47%N ∉ lit "talk" ++ 46%N :: lit "webm") eq_refl)
           (bool_decide_eq_true_1 (46%N ∉ lit "webm") eq_refl)).
Defined.

Lemma relative_directory_stays_relative_witness :
  head (YouTubeDownloader._get_output_template
          (YouTubeDownloader.__init__ [] None None None) true None)
  <> Some 47%N.
Proof.
  exact (relative_directory_stays_relative [] None None None true None
           ltac:(discriminate)).
Defined.

(** ** The hooks on arbitrary events *)

(** X7. Whatever dictionary a hook is called with, well-formed or not, and
    whether it returns or raises: it only adds lines to the screen (the
    console hook at most one, the GUI hook at most two), it reads no input
    and makes no library call, and the GUI hook never changes its
    [last_percent]. *)
Theorem hooks_only_add_lines (d : gmap string pyval) (s : io)
    (console : DefaultProgressHook.t) (gui : StreamlitProgressHook.t) :
  (exists r console' lines,
     DefaultProgressHook.__call__ d (console, s) = (r, (console', shows s lines))
     /\ (length lines <= 1)%nat)
  /\ (exists r lines,
        StreamlitProgressHook.__call__ d (gui, s) = (r, (gui, shows s lines))
        /\ (length lines <= 2)%nat).
Proof.
  split; [|apply gui_step].
  destruct (console_step d s console) as (r & self' & lines & Hrun & Hlen & _).
  exists r, self', lines. split; [exact Hrun | exact Hlen].
Qed.

(** X8 at 58 bytes of 100, on a fresh hook: the percentage is
    57.99999999999999, its integer part 57 is odd, nothing is printed. *)
Lemma console_downloading_frame_witness :
  event_int_percent (bytes_of_100 58) = Some 57
  /\ DefaultProgressHook.__call__ (bytes_of_100 58)
       (DefaultProgressHook.__init__, world0)
     = (Ok tt, (DefaultProgressHook.__init__, world0)).
Proof.
  split; [vm_compute; reflexivity|].
  destruct (console_downloading_frame (bytes_of_100 58) world0
              DefaultProgressHook.__init__ eq_refl)
    as [(p & n & filled & Hp & Hn & Hev & _)
       | [[Hrun _] | (e & _ & [[Hnone _] | (p & n & Hp & Hn & Hfill & _)])]].
  - exfalso. injection Hp as <-. vm_compute in Hn. injection Hn as <-.
    vm_compute in Hev. discriminate Hev.
  - exact Hrun.
  - exfalso. vm_compute in Hnone. discriminate Hnone.
  - exfalso. injection Hp as <-. vm_compute in Hfill. discriminate Hfill.
Defined.


Section Throttle.

Lemma climbs_bound (a b : Z) (l : list Z) : climbs a b l -> a <= b.
Proof.
  revert a. induction l as [|x l IH]; intros a; cbn [climbs]; [auto|].
  intros [Hax Hl]. specialize (IH _ Hl). lia.
Qed.

Lemma event_percent_none (d : gmap string pyval) :
  carries_total d = false -> event_percent d = None.
Proof.
  intros Hc. destruct (event_percent d) as [p|] eqn:Hp; [|reflexivity].
  rewrite (event_percent_carries _ _ Hp) in Hc. discriminate.
Qed.

(** The progress lines still to come, counted by the even numbers between
    the percentage remembered and 100. *)
Lemma feed_console_bound (events : list (gmap string pyval))
    (self : DefaultProgressHook.t) (s : io) (a : Z) :
  Forall is_downloading events ->
  DefaultProgressHook.last_printed_percent self <= a ->
  climbs a 100 (int_percents events) ->
  exists r self' lines,
    feed DefaultProgressHook.__call__ events (self, s)
    = (r, (self', shows s lines))
    /\ Z.of_nat (length lines)
       <= 50 - DefaultProgressHook.last_printed_percent self / 2.
Proof.
  intros Hevents. revert self s a.
  induction Hevents as [|d events Hd _ IH]; intros self s a Hlast Hclimbs.
  { exists (Ok tt), self, []. rewrite shows_nil. split; [reflexivity|].
    apply climbs_bound in Hclimbs. cbn [length].
    assert (DefaultProgressHook.last_printed_percent self / 2 <= 50)
      by (apply Z.div_le_upper_bound; lia).
    lia. }
  assert (Hquiet : a <= 100 -> forall e : exn,
            exists (r : result unit) self' lines,
              (Raise e, (self, s)) = (r, (self', shows s lines))
              /\ Z.of_nat (length lines)
                 <= 50 - DefaultProgressHook.last_printed_percent self / 2).
  { intros Hb e. exists (Raise e), self, []. rewrite shows_nil.
    split; [reflexivity|]. cbn [length].
    assert (DefaultProgressHook.last_printed_percent self / 2 <= 50)
      by (apply Z.div_le_upper_bound; lia).
    lia. }
  cbn [feed]. unfold bind at 1. unfold is_downloading in Hd.
  cbn [int_percents] in Hclimbs. unfold event_int_percent in Hclimbs.
  destruct (carries_total d) eqn:Hc.
  2: { rewrite (console_downloading_no_total _ _ _ Hd Hc).
       rewrite (event_percent_none _ Hc) in Hclimbs.
       exact (IH self s a Hlast Hclimbs). }
  destruct (event_percent d) as [p|] eqn:Hp.
  2: { destruct (console_raises_without_percent _ s self Hd Hc Hp) as [e ->].
       apply Hquiet. exact (climbs_bound _ _ _ Hclimbs). }
  rewrite (console_downloading _ _ _ _ Hd Hp).
  destruct (int_of_float p) as [n|e];
    [|apply Hquiet; exact (climbs_bound _ _ _ Hclimbs)].
  cbn [climbs] in Hclimbs. destruct Hclimbs as [Han Hclimbs].
  destruct (Z.eqb_spec n (DefaultProgressHook.last_printed_percent self))
    as [Heq|Hne]; cbn [negb andb].
  { exact (IH self s n ltac:(lia) Hclimbs). }
  destruct (Z.eqb_spec (n mod 2) 0) as [Hev|Hodd].
  2: { exact (IH self s n ltac:(lia) Hclimbs). }
  cbv zeta.
  assert (Hstep : n / 2 >= DefaultProgressHook.last_printed_percent self / 2 + 1).
  { pose proof (Z.div_mod n 2 ltac:(lia)) as Hn. rewrite Hev in Hn.
    assert (DefaultProgressHook.last_printed_percent self / 2 <= (n - 1) / 2)
      by (apply Z.div_le_mono; lia).
    assert ((n - 1) / 2 < n / 2).
    { apply Z.div_lt_upper_bound; lia. }
    lia. }
  destruct (bar_fill p) as [filled|e].
  - destruct (IH {| DefaultProgressHook.last_printed_percent := n;
                    DefaultProgressHook.current_stage :=
                      DefaultProgressHook.current_stage self |}
                (shows s [progress_line (DefaultProgressHook.current_stage self)
                            p filled]) n ltac:(cbn; lia) Hclimbs)
      as (r & self' & lines & -> & Hlen).
    cbn [DefaultProgressHook.last_printed_percent] in Hlen.
    eexists r, self', (_ :: lines). rewrite shows_app.
    split; [reflexivity|]. cbn [length app]. lia.
  - eexists (Raise e), _, []. rewrite shows_nil. split; [reflexivity|].
    cbn [length].
    apply climbs_bound in Hclimbs.
    assert (DefaultProgressHook.last_printed_percent self / 2 <= 50)
      by (apply Z.div_le_upper_bound; lia).
    lia.
Qed.

End Throttle.

(** X9. The console hook keeps its promise to update at most once per two
    percent. When the events of a download all have the status
    [downloading] and their integer percentages (of the floating-point
    percentage the hook computes) start at 0 or above, never go down and
    end at 100 or below, a fresh hook prints at most 51 progress lines,
    however many events arrive, and whether or not the run ends with an
    exception. *)
Theorem console_prints_at_most_51_lines (events : list (gmap string pyval))
    (s : io) :
  Forall is_downloading events ->
  climbs 0 100 (int_percents events) ->
  exists r self' lines,
    feed DefaultProgressHook.__call__ events (DefaultProgressHook.__init__, s)
    = (r, (self', shows s lines))
    /\ (length lines <= 51)%nat.
Proof.
  intros Hevents Hclimbs.
  destruct (feed_console_bound events DefaultProgressHook.__init__ s 0
              Hevents ltac:(cbn; lia) Hclimbs)
    as (r & self' & lines & Hrun & Hlen).
  exists r, self', lines. split; [exact Hrun|].
  change (DefaultProgressHook.last_printed_percent DefaultProgressHook.__init__)
    with (-1) in Hlen.
  change (-1 / 2) with (-1) in Hlen. lia.
Qed.

(** Four events of a file of 100 bytes: at 0, 1, 2 and 2 bytes again. Two
    lines are printed. *)
Lemma console_prints_at_most_51_lines_witness :
  exists r self' lines,
    feed DefaultProgressHook.__call__
      [bytes_of_100 0; bytes_of_100 1; bytes_of_100 2; bytes_of_100 2]
      (DefaultProgressHook.__init__, world0)
    = (r, (self', shows world0 lines))
    /\ (length lines <= 51)%nat.
Proof.
  apply (console_prints_at_most_51_lines
           [bytes_of_100 0; bytes_of_100 1; bytes_of_100 2; bytes_of_100 2]
           world0).
  - repeat constructor.
  - vm_compute. repeat split; discriminate.
Defined.

(** ** [validate_url], path by path *)

Section ValidatorPaths.
Import URLValidator.
Variable lib : Library.

(** X10. A URL that matches one of the ten patterns is accepted at once,
    in both modes: no probe is made, nothing is printed, no input is
    read. *)
Theorem pattern_match_needs_no_probe (url : pystr) (interactive : bool) (s : io) :
  _matches_youtube_pattern lib (strip url) = true ->
  validate_url lib url interactive s = (Ok (true, strip url), s).
Proof.
  intros Hm. rewrite validate_url_eval. cbv zeta. rewrite Hm. reflexivity.
Qed.

(** X11. Without [interactive], [validate_url] never prompts, prints or
    reads; it makes at most the one probe, and its verdict is: matched by
    a pattern, or found by the probe. *)
Theorem non_interactive_is_quiet (url : pystr) (s : io) :
  let u := strip url in
  let found :=
    match ydl_extract_info lib probe_opts u false with
    | Ok (Some _) => true
    | _ => false
    end in
  exists r s',
    validate_url lib url false s = (r, s')
    /\ stdin s' = stdin s /\ out s' = out s
    /\ (calls s' = calls s
        \/ calls s' = calls s ++ [ExtractInfo probe_opts u false])
    /\ (r = Ok (_matches_youtube_pattern lib u || found, u)
        \/ exists cls, r = Raise (BaseException cls)).
Proof.
  cbv zeta. rewrite validate_url_eval. cbv zeta.
  destruct (_matches_youtube_pattern lib (strip url)).
  - eexists _, _. split; [reflexivity|]. auto 10.
  - destruct (ydl_extract_info lib probe_opts (strip url) false)
      as [[info|]|[cls|cls]];
      eexists _, _; (split; [reflexivity|]); cbn; eauto 10.
Qed.

Lemma confirm_skips (url : pystr) (skipped : list pystr) (answer : pystr)
    (rest : list pystr) (shown : list out_event) :
  Forall (fun line => is_answer line = false) skipped ->
  is_answer answer = true ->
  exists shown',
    confirm url (skipped ++ answer :: rest) shown
    = (Ok (UserInterface.says_yes answer, url), rest, shown').
Proof.
  intros Hskip Hans. revert shown.
  induction Hskip as [|line skipped Hline _ IH]; intros shown.
  - cbn [app confirm]. unfold UserInterface.says_yes.
    destruct (bool_decide (lower (strip answer) ∈ [lit "y"; lit "yes"])) eqn:Hy;
      [eauto|].
    destruct (bool_decide (lower (strip answer) ∈ [lit "n"; lit "no"])) eqn:Hn;
      [eauto|].
    exfalso. unfold is_answer in Hans.
    apply bool_decide_eq_true in Hans. apply bool_decide_eq_false in Hy, Hn.
    rewrite !elem_of_cons in *. tauto.
  - cbn [app confirm]. unfold is_answer in Hline.
    apply bool_decide_eq_false in Hline.
    rewrite !bool_decide_eq_false_2;
      [apply IH | rewrite !elem_of_cons in *; tauto ..].
Qed.

(** X12. When no pattern matches and the probe finds nothing, the
    interactive mode asks until the first line that is y, yes, n or no
    (case and surrounding blanks ignored): that line alone decides, the
    lines before it are used up, the lines after it are left. *)
Theorem first_answer_decides (url : pystr) (s : io)
    (skipped : list pystr) (answer : pystr) (rest : list pystr) :
  _matches_youtube_pattern lib (strip url) = false ->
  (ydl_extract_info lib probe_opts (strip url) false = Ok None
   \/ exists cls, ydl_extract_info lib probe_opts (strip url) false
                  = Raise (Exception cls)) ->
  stdin s = skipped ++ answer :: rest ->
  Forall (fun line => is_answer line = false) skipped ->
  is_answer answer = true ->
  exists s',
    validate_url lib url true s
    = (Ok (UserInterface.says_yes answer, strip url), s')
    /\ stdin s' = rest.
Proof.
  intros Hm Hprobe Hin Hskip Hans.
  rewrite validate_url_eval. cbv zeta. rewrite Hm.
  assert (Hloop : forall s1 : io, stdin s1 = skipped ++ answer :: rest ->
            exists s', confirm_loop (strip url) s1
                       = (Ok (UserInterface.says_yes answer, strip url), s')
                       /\ stdin s' = rest).
  { intros s1 Hs1. unfold confirm_loop. rewrite Hs1.
    destruct (confirm_skips (strip url) skipped answer rest (out s1) Hskip Hans)
      as [shown' ->].
    eexists. split; reflexivity. }
  destruct Hprobe as [-> | [cls ->]]; apply Hloop; exact Hin.
Qed.

End ValidatorPaths.

Lemma pattern_match_needs_no_probe_witness :
  URLValidator.validate_url short_link_library
    (lit " https://youtu.be/dQw4w9WgXcQ ") true world0
  = (Ok (true, lit "https://youtu.be/dQw4w9WgXcQ"), world0).
Proof.
  exact (pattern_match_needs_no_probe short_link_library
           (lit " https://youtu.be/dQw4w9WgXcQ ") true world0 eq_refl).
Defined.

Lemma first_answer_decides_witness :
  exists s',
    URLValidator.validate_url offline_library sample_url true
      {| stdin := [lit "what?"; lit " No "; lit "y"]; out := []; calls := [] |}
    = (Ok (false, lit "https://example.org/v/1"), s')
    /\ stdin s' = [lit "y"].
Proof.
  exact (first_answer_decides offline_library sample_url
           {| stdin := [lit "what?"; lit " No "; lit "y"]; out := []; calls := [] |}
           [lit "what?"] (lit " No ") [lit "y"] eq_refl
           (or_intror (ex_intro _ "DownloadError"%string eq_refl)) eq_refl
           ltac:(repeat constructor) eq_refl).
Defined.

(** ** [download], whatever the arguments *)

Section DownloadAlways.
Import YouTubeDownloader.
Variable lib : Library.
Variable self : YouTubeDownloader.t.

(** X13. For every argument, metadata of any shape included, [download]
    ends in one of three ways: [True], after the one acquisition call
    completed; [False], after at most one call; or with the exception
    outside [Exception] that came out of the acquisition. It never raises
    an [Exception], never makes a second call and never reads input. *)
Theorem download_ends_three_ways (url : pystr) (quality : Quality)
    (is_playlist : bool) (video_info : option (gmap string pyval))
    (force_convert silent : bool) (objects : hook_objects) (s : io) :
  let opts := _get_ydl_opts self quality is_playlist video_info force_convert in
  let acquisition := calls s ++ [Download opts [url]] in
  let acquired_from (begun : io) :=
    fst (ydl_download_urls call_hook lib opts [url] (objects, begun)) in
  exists r objects' s',
    download call_hook lib self url quality is_playlist video_info
      force_convert silent (objects, s)
    = (r, (objects', s'))
    /\ stdin s' = stdin s
    /\ ((r = Ok true /\ calls s' = acquisition
         /\ exists announced code, acquired_from (shows s announced) = Ok code)
        \/ (r = Ok false /\ (calls s' = calls s \/ calls s' = acquisition))
        \/ (exists cls,
              r = Raise (BaseException cls) /\ calls s' = acquisition
              /\ exists announced,
                   acquired_from (shows s announced)
                   = Raise (BaseException cls))).
Proof.
  cbv zeta.
  destruct (download_cases lib self url quality is_playlist video_info
              force_convert silent objects s)
    as (announced & failure & _ & Hcase).
  destruct (silent || announce_goes_through is_playlist video_info).
  - destruct Hcase as (code & objects' & acquired & Hrun & -> & Hin & Hcalls).
    eexists _, _, _. split; [reflexivity|]. split; [exact Hin|].
    destruct code as [z|[cls|cls]]; cbn [verdict].
    + left. split; [reflexivity|]. split; [exact Hcalls|].
      exists announced, z. rewrite Hrun. reflexivity.
    + right; left. auto.
    + right; right. exists cls. split; [reflexivity|]. split; [exact Hcalls|].
      exists announced. rewrite Hrun. reflexivity.
  - rewrite Hcase. eexists _, _, _. split; [reflexivity|].
    split; [reflexivity|]. right; left. auto.
Qed.



Lemma lookup_dict_truthy {V} (m : gmap string V) (k : string) (v : V) :
  m !! k = Some v -> dict_truthy m = true.
Proof.
  intros Hk. unfold dict_truthy. apply negb_true_iff, Nat.eqb_neq.
  intros Hsize. apply map_size_empty_iff in Hsize. subst m.
  rewrite lookup_empty in Hk. discriminate.
Qed.

(** X15. When the download is neither silent nor a playlist and the
    metadata give the duration as a non-zero [float], printing the
    duration fails: [download] returns [False] and the library is never
    asked to download. *)
Theorem float_duration_stops_download (url : pystr) (quality : Quality)
    (info : gmap string pyval) (x : float) (force_convert : bool)
    (objects : hook_objects) (s : io) :
  info !! "duration"%string = Some (PFloat x) ->
  is_zero x = false ->
  exists s',
    download call_hook lib self url quality false (Some info) force_convert
      false (objects, s)
    = (Ok false, (objects, s'))
    /\ calls s' = calls s.
Proof.
  intros Hd Hx.
  destruct (download_cases lib self url quality false (Some info)
              force_convert false objects s)
    as (announced & failure & _ & Hcase).
  assert (Hstop : announce_goes_through false (Some info) = false).
  { unfold announce_goes_through, dict_get, duration_formattable.
    rewrite (lookup_dict_truthy _ _ _ Hd), Hd. cbn. rewrite Hx. reflexivity. }
  rewrite Hstop in Hcase. cbn [orb] in Hcase. rewrite Hcase. eauto.
Qed.

End DownloadAlways.

Lemma float_duration_stops_download_witness :
  exists s',
    YouTubeDownloader.download call_hook working_library sample_downloader
      sample_url HD_1080 false (Some float_duration_info) false false
      (new_hooks, world0)
    = (Ok false, (new_hooks, s'))
    /\ calls s' = [].
Proof.
  exact (float_duration_stops_download working_library sample_downloader
           sample_url HD_1080 float_duration_info twelve_and_a_half false
           new_hooks world0 eq_refl eq_refl).
Defined.



(** ** The session state and the metadata cache of [app.py] *)

Section SessionState.
Import App.

Lemma setdefault_lookup (key : list N) (value : stval)
    (st : gmap (list N) stval) (k : list N) :
  setdefault key value st !! k
  = if decide (key = k) then Some (default value (st !! key)) else st !! k.
Proof.
  unfold setdefault. case_bool_decide as Hin.
  - destruct Hin as [v Hv]. rewrite Hv. case_decide; subst; cbn; congruence.
  - assert (st !! key = None) as Hnone
      by (destruct (st !! key); [exfalso; eauto | reflexivity]).
    rewrite lookup_insert. rewrite Hnone. reflexivity.
Qed.

Lemma setdefault_keeps (key : list N) (value : stval)
    (st : gmap (list N) stval) (k : list N) (v : stval) :
  st !! k = Some v -> setdefault key value st !! k = Some v.
Proof.
  intros Hk. rewrite setdefault_lookup. case_decide; [subst|exact Hk].
  rewrite Hk. reflexivity.
Qed.

Lemma setdefault_defined (key : list N) (value : stval)
    (st : gmap (list N) stval) : is_Some (setdefault key value st !! key).
Proof. rewrite setdefault_lookup, decide_True by reflexivity. eauto. Qed.

Lemma setdefault_fixed (key : list N) (value : stval)
    (st : gmap (list N) stval) :
  is_Some (st !! key) -> setdefault key value st = st.
Proof. intros H. unfold setdefault. rewrite bool_decide_eq_true_2; auto. Qed.

Lemma setdefault_still_defined (key : list N) (value : stval)
    (st : gmap (list N) stval) (k : list N) :
  is_Some (st !! k) -> is_Some (setdefault key value st !! k).
Proof. intros [v Hv]. exists v. apply setdefault_keeps, Hv. Qed.

(** X17. [initialize_session_state] never overwrites: every entry that is
    there stays as it is, keys other than its five are not touched, the
    five are defined afterwards, and a second run changes nothing. *)
Theorem initialize_session_state_keeps (st : gmap (list N) stval) :
  (forall k v, st !! k = Some v -> initialize_session_state st !! k = Some v)
  /\ (forall k,
        k ∉ [lit "video_info"; lit "download_status"; lit "is_downloading";
             lit "progress"; lit "current_stage"] ->
        initialize_session_state st !! k = st !! k)
  /\ Forall (fun k => is_Some (initialize_session_state st !! k))
       [lit "video_info"; lit "download_status"; lit "is_downloading";
        lit "progress"; lit "current_stage"]
  /\ initialize_session_state (initialize_session_state st)
     = initialize_session_state st.
Proof.
  unfold initialize_session_state. cbv zeta.
  assert (Hdefined :
    Forall (fun k => is_Some
              (setdefault (lit "current_stage") (SStr [])
                 (setdefault (lit "progress") (SInt 0)
                    (setdefault (lit "is_downloading") (SBool false)
                       (setdefault (lit "download_status") SNone
                          (setdefault (lit "video_info") SNone st)))) !! k))
      [lit "video_info"; lit "download_status"; lit "is_downloading";
       lit "progress"; lit "current_stage"]).
  { repeat constructor;
      repeat first [apply setdefault_defined | apply setdefault_still_defined]. }
  split; [|split; [|split]].
  - intros k v Hk. repeat apply setdefault_keeps. exact Hk.
  - intros k Hk. rewrite !not_elem_of_cons in Hk.
    destruct Hk as (H1 & H2 & H3 & H4 & H5 & _).
    rewrite !setdefault_lookup. rewrite !decide_False by congruence.
    reflexivity.
  - exact Hdefined.
  - set (st5 := setdefault (lit "current_stage") _ _) in *.
    inversion Hdefined as [|? ? K1 Hd1]; subst.
    inversion Hd1 as [|? ? K2 Hd2]; subst.
    inversion Hd2 as [|? ? K3 Hd3]; subst.
    inversion Hd3 as [|? ? K4 Hd4]; subst.
    inversion Hd4 as [|? ? K5 _]; subst.
    rewrite (setdefault_fixed _ _ st5 K1), (setdefault_fixed _ _ st5 K2),
      (setdefault_fixed _ _ st5 K3), (setdefault_fixed _ _ st5 K4),
      (setdefault_fixed _ _ st5 K5).
    reflexivity.
Qed.

Variable lib : Library.
Variable hash : pystr -> Z.

(** The query behind a miss: what [URLValidator.get_video_info] does with
    the outcome of the library. *)
Lemma fetch_eval (url : pystr) (s : io) :
  let s1 := {| stdin := stdin s; out := out s;
               calls := calls s ++ [ExtractInfo (URLValidator.info_opts false) url false] |} in
  URLValidator.get_video_info lib url false s
  = match ydl_extract_info lib (URLValidator.info_opts false) url false with
    | Ok info => (Ok info, s1)
    | Raise (Exception cls) =>
        (Ok None,
         shows s1 [Printed [Txt "Failed to get video info: "; Exc (Exception cls)]])
    | Raise (BaseException cls) => (Raise (BaseException cls), s1)
    end.
Proof.
  cbv zeta. unfold URLValidator.get_video_info, try_except, extract_info, bind,
    record_call, lift_result.
  destruct (ydl_extract_info lib (URLValidator.info_opts false) url false)
    as [info|[cls|cls]]; reflexivity.
Qed.

Lemma cache_hit (url : pystr) (st : gmap (list N) stval) (s : io)
    (cached : stval) :
  url <> [] ->
  st !! cache_key hash url = Some cached ->
  get_video_info lib hash url (st, s) = (Ok cached, (st, s)).
Proof.
  intros Hurl Hhit. unfold get_video_info.
  destruct url; [congruence|]. cbn [nonempty negb].
  unfold bind, get_self. rewrite Hhit. reflexivity.
Qed.

(** X18. A cache hit costs nothing: the stored value comes back, no
    library call is made, nothing is printed and the session state is
    unchanged. The entry is found by [hash(url)] alone. *)
Theorem cached_info_is_served (url : pystr) (st : gmap (list N) stval)
    (s : io) (cached : stval) :
  url <> [] ->
  st !! cache_key hash url = Some cached ->
  get_video_info lib hash url (st, s) = (Ok cached, (st, s)).
Proof. apply cache_hit. Qed.

(** X19. What a miss fetches is stored and served from then on: when the
    library returns a non-empty dictionary, it is returned and cached
    under [hash(url)], and a later request for any URL with the same hash
    gets it back without a second library call. *)
Theorem fetched_info_is_cached (url other : pystr) (st : gmap (list N) stval)
    (s : io) (info : gmap string pyval) :
  url <> [] -> other <> [] -> hash other = hash url ->
  st !! cache_key hash url = None ->
  ydl_extract_info lib (URLValidator.info_opts false) url false = Ok (Some info) ->
  dict_truthy info = true ->
  exists st' s',
    get_video_info lib hash url (st, s) = (Ok (SInfo info), (st', s'))
    /\ st' = <[cache_key hash url := SInfo info]> st
    /\ calls s' = calls s ++ [ExtractInfo (URLValidator.info_opts false) url false]
    /\ get_video_info lib hash other (st', s') = (Ok (SInfo info), (st', s')).
Proof.
  intros Hurl Hother Hhash Hmiss Hlib Htruthy.
  exists (<[cache_key hash url := SInfo info]> st),
    {| stdin := stdin s; out := out s;
       calls := calls s ++ [ExtractInfo (URLValidator.info_opts false) url false] |}.
  split; [|split; [reflexivity|split; [reflexivity|]]].
  - unfold get_video_info.
    destruct url; [congruence|]. cbn [nonempty negb].
    unfold bind at 1, get_self at 1. rewrite Hmiss.
    unfold bind at 1, on_io. rewrite fetch_eval, Hlib.
    rewrite Htruthy. reflexivity.
  - apply cache_hit; [exact Hother|].
    unfold cache_key. rewrite Hhash. apply lookup_insert_eq.
Qed.

(** X20. Failures are not cached: when the library raises an [Exception],
    returns [None] or returns an empty dictionary, the session state is
    left as it was, so the next request asks the library again. An empty
    URL gives [None] without any call. *)
Theorem failed_fetch_is_not_cached (url : pystr) (st : gmap (list N) stval)
    (s : io) :
  get_video_info lib hash [] (st, s) = (Ok SNone, (st, s))
  /\ (url <> [] -> st !! cache_key hash url = None ->
      match ydl_extract_info lib (URLValidator.info_opts false) url false with
      | Ok (Some info) => dict_truthy info = false
      | Ok None | Raise (Exception _) => True
      | Raise (BaseException _) => False
      end ->
      exists r s',
        get_video_info lib hash url (st, s) = (Ok r, (st, s'))
        /\ (r = SNone \/ r = SInfo ∅)
        /\ calls s' = calls s ++ [ExtractInfo (URLValidator.info_opts false) url false]).
Proof.
  split; [reflexivity|].
  intros Hurl Hmiss Hlib. unfold get_video_info.
  destruct url; [congruence|]. cbn [nonempty negb].
  unfold bind at 1, get_self at 1. rewrite Hmiss.
  unfold bind at 1, on_io. rewrite fetch_eval.
  destruct (ydl_extract_info lib (URLValidator.info_opts false) _ false)
    as [[info|]|[cls|cls]]; [| | |contradiction].
  - rewrite Hlib. eexists _, _. split; [reflexivity|]. split; [|reflexivity].
    right. f_equal. unfold dict_truthy in Hlib.
    apply negb_false_iff, Nat.eqb_eq, map_size_empty_iff in Hlib.
    congruence.
  - eexists _, _. split; [reflexivity|]. auto.
  - eexists _, _. split; [reflexivity|]. auto.
Qed.

End SessionState.

Lemma cached_info_is_served_witness :
  App.get_video_info offline_library length_hash (lit "https://youtu.be/abc")
    ({[ lit "video_info_20" := App.SInfo sample_info ]}, world0)
  = (Ok (App.SInfo sample_info),
     ({[ lit "video_info_20" := App.SInfo sample_info ]}, world0)).
Proof.
  exact (cached_info_is_served offline_library length_hash
           (lit "https://youtu.be/abc")
           {[ lit "video_info_20" := App.SInfo sample_info ]} world0
           (App.SInfo sample_info) ltac:(discriminate)
           (lookup_singleton_eq _ _)).
Defined.

(** Two URLs of the same length share an entry under [length_hash]. *)
Lemma fetched_info_is_cached_witness :
  exists st' s',
    App.get_video_info working_library length_hash (lit "https://youtu.be/abc")
      (∅, world0) = (Ok (App.SInfo sample_info), (st', s'))
    /\ st' = <[App.cache_key length_hash (lit "https://youtu.be/abc")
               := App.SInfo sample_info]> ∅
    /\ calls s' = calls world0
                  ++ [ExtractInfo (URLValidator.info_opts false)
                        (lit "https://youtu.be/abc") false]
    /\ App.get_video_info working_library length_hash
         (lit "https://youtu.be/xyz") (st', s')
       = (Ok (App.SInfo sample_info), (st', s')).
Proof.
  exact (fetched_info_is_cached working_library length_hash
           (lit "https://youtu.be/abc") (lit "https://youtu.be/xyz") ∅ world0
           sample_info ltac:(discriminate) ltac:(discriminate) eq_refl
           (lookup_empty _) eq_refl eq_refl).
Defined.

(** ** [format_upload_date] *)

Section UploadDates.
Variable isdigit : pystr -> bool.

(** X21. [format_upload_date] is idempotent, whatever [str.isdigit]
    accepts; an eight-character date it accepts becomes ten characters
    from which the eight can be read back; the empty string and
    [Unknown] give [Unknown]; every other string is returned as it is. *)
Theorem upload_date_is_stable (date_str : pystr) :
  let shown := App.format_upload_date isdigit date_str in
  App.format_upload_date isdigit shown = shown
  /\ (length date_str = 8%nat -> isdigit date_str = true ->
      length shown = 10%nat
      /\ shown !! 4%nat = Some 45%N /\ shown !! 7%nat = Some 45%N
      /\ take 4 shown ++ take 2 (drop 5 shown) ++ drop 8 shown = date_str)
  /\ (date_str = [] \/ date_str = lit "Unknown" -> shown = lit "Unknown")
  /\ (date_str <> [] -> date_str <> lit "Unknown" ->
      (length date_str <> 8%nat \/ isdigit date_str = false) ->
      shown = date_str).
Proof.
  cbv zeta. unfold App.format_upload_date.
  destruct (negb (nonempty date_str) || bool_decide (date_str = lit "Unknown"))
    eqn:Hunknown.
  - split; [reflexivity|]. split; [|split].
    + intros Hlen Hdig. exfalso. apply orb_true_iff in Hunknown as [H|H].
      * destruct date_str; discriminate.
      * apply bool_decide_eq_true in H. subst. discriminate.
    + reflexivity.
    + intros Hne Hnu _. exfalso. apply orb_true_iff in Hunknown as [H|H].
      * destruct date_str; [congruence | discriminate].
      * apply bool_decide_eq_true in H. contradiction.
  - apply orb_false_iff in Hunknown as [Hne Hnu].
    apply bool_decide_eq_false in Hnu.
    destruct ((length date_str =? 8)%nat && isdigit date_str) eqn:Hdate.
    + apply andb_true_iff in Hdate as [Hlen Hdig]. apply Nat.eqb_eq in Hlen.
      do 8 (destruct date_str as [|? date_str]; [discriminate|]).
      destruct date_str; [|discriminate].
      split.
      { rewrite bool_decide_eq_false_2
          by (intros H; apply (f_equal length) in H; discriminate H).
        reflexivity. }
      split; [|split].
      * intros _ _. repeat split.
      * intros [H|H]; [discriminate|]. contradiction.
      * intros _ _ [H|H]; [contradiction H; reflexivity | congruence].
    + rewrite Hdate.
      replace (negb (nonempty date_str) || bool_decide (date_str = lit "Unknown"))
        with false
        by (symmetry; apply orb_false_iff; split;
            [exact Hne | apply bool_decide_eq_false_2; exact Hnu]).
      split; [reflexivity|]. split; [|split].
      * intros Hlen Hdig. rewrite Hlen, Hdig in Hdate. discriminate.
      * intros [-> | ->]; [discriminate | contradiction].
      * reflexivity.
Qed.

End UploadDates.

Lemma upload_date_is_stable_witness :
  App.format_upload_date (fun _ => true) (lit "20240131") = lit "2024-01-31"
  /\ App.format_upload_date (fun _ => true) (lit "2024-01-31") = lit "2024-01-31".
Proof.
  destruct (upload_date_is_stable (fun _ => true) (lit "20240131"))
    as (Hstable & _ & _ & _).
  split; [reflexivity | exact Hstable].
Defined.

Lemma initialize_session_state_keeps_witness :
  App.initialize_session_state {[ lit "progress" := App.SInt 40 ]} !! lit "progress"
  = Some (App.SInt 40)
  /\ App.initialize_session_state {[ lit "progress" := App.SInt 40 ]} !! lit "theme"
     = None.
Proof.
  destruct (initialize_session_state_keeps {[ lit "progress" := App.SInt 40 ]})
    as (Hkeep & Hother & _ & _).
  split.
  - exact (Hkeep (lit "progress") (App.SInt 40) (lookup_singleton_eq _ _)).
  - rewrite (Hother (lit "theme")); [reflexivity|].
    apply (bool_decide_unpack _). vm_compute. exact I.
Defined.

Lemma failed_fetch_is_not_cached_witness :
  exists r s',
    App.get_video_info offline_library length_hash (lit "https://youtu.be/abc")
      (∅, world0) = (Ok r, (∅, s'))
    /\ (r = App.SNone \/ r = App.SInfo ∅)
    /\ calls s' = calls world0
                  ++ [ExtractInfo (URLValidator.info_opts false)
                        (lit "https://youtu.be/abc") false].
Proof.
  destruct (failed_fetch_is_not_cached offline_library length_hash
              (lit "https://youtu.be/abc") ∅ world0) as [_ Hfail].
  exact (Hfail ltac:(discriminate) (lookup_empty _) I).
Defined.

(** ** [format_duration] *)

Section Durations.
Import App.

Lemma unlit_lit (s : string) : unlit (lit s) = s.
Proof.
  unfold unlit, lit. rewrite <- (string_of_list_ascii_of_string s) at 2.
  f_equal. induction (list_ascii_of_string s) as [|a l IH]; [reflexivity|].
  cbn. rewrite ascii_N_embedding. f_equal. exact IH.
Qed.

Lemma unlit_cons (c : codepoint) (s : pystr) :
  unlit (c :: s) = String (ascii_of_N c) (unlit s).
Proof. reflexivity. Qed.

(** The digits of a number are digits. *)
Lemma digits_are_digits (u : Decimal.uint) :
  Forall (fun c => (48 <= c <= 57)%N) (lit (NilEmpty.string_of_uint u)).
Proof.
  induction u; cbn; constructor; try exact IHu; try (split; discriminate).
Qed.

Lemma to_int_cases (m : Z) :
  exists u, u <> Decimal.Nil
            /\ (Z.to_int m = Decimal.Pos u \/ Z.to_int m = Decimal.Neg u)
            /\ (0 <= m -> Z.to_int m = Decimal.Pos u).
Proof.
  destruct m as [|p|p]; cbn.
  - exists (Decimal.D0 Decimal.Nil). split; [discriminate | auto].
  - exists (Pos.to_uint p). split; [apply Unsigned.to_uint_nonnil | auto].
  - exists (Pos.to_uint p). split; [apply Unsigned.to_uint_nonnil|].
    split; [auto | lia].
Qed.

Lemma nilzero_nonnil (u : Decimal.uint) :
  u <> Decimal.Nil -> NilZero.string_of_uint u = NilEmpty.string_of_uint u.
Proof. destruct u; [congruence | reflexivity ..]. Qed.

Lemma format_02d_characters (m : Z) :
  Forall (fun c => c = 45%N \/ (48 <= c <= 57)%N) (format_02d m).
Proof.
  unfold format_02d. apply Forall_app. split.
  - apply Forall_replicate. right. split; discriminate.
  - unfold str_of_int.
    destruct (to_int_cases m) as (u & Hu & [-> | ->] & _); cbn;
      rewrite (nilzero_nonnil u Hu).
    + eapply Forall_impl; [apply digits_are_digits | auto].
    + constructor; [auto|].
      eapply Forall_impl; [apply digits_are_digits | auto].
Qed.

Lemma split_at_colon_app (a b : pystr) :
  58%N ∉ a -> split_at_colon (a ++ 58%N :: b) = Some (a, b).
Proof.
  induction a as [|c a IH]; intros Ha; [reflexivity|].
  apply not_elem_of_cons in Ha as [Hc Ha].
  cbn. destruct (N.eqb_spec c 58); [congruence|].
  rewrite (IH Ha). reflexivity.
Qed.

Lemma of_uint_leading_zeros (k : nat) (u : Decimal.uint) :
  Z.of_uint (Nat.iter k Decimal.D0 u) = Z.of_uint u.
Proof. induction k as [|k IH]; [reflexivity | exact IH]. Qed.

Lemma uint_of_padded (k : nat) (u : Decimal.uint) :
  NilEmpty.uint_of_string
    (unlit (replicate k 48%N ++ lit (NilEmpty.string_of_uint u)))
  = Some (Nat.iter k Decimal.D0 u).
Proof.
  induction k as [|k IH].
  - cbn [replicate app Nat.iter]. rewrite unlit_lit. apply NilEmpty.usu.
  - cbn [replicate app]. rewrite unlit_cons.
    cbn [NilEmpty.uint_of_string]. rewrite IH. reflexivity.
Qed.

(** Reading a padded number gives the number. *)
Lemma read_int_padded (k : nat) (m : Z) :
  0 <= m -> read_int (replicate k 48%N ++ str_of_int m) = Some m.
Proof.
  intros Hm. destruct (to_int_cases m) as (u & Hu & _ & Hpos).
  specialize (Hpos Hm).
  unfold read_int, str_of_int. rewrite Hpos. cbn [NilZero.string_of_int].
  rewrite (nilzero_nonnil u Hu).
  pose proof (uint_of_padded k u) as Hread.
  assert (Hint : NilZero.int_of_string
                   (unlit (replicate k 48%N ++ lit (NilEmpty.string_of_uint u)))
                 = Some (Decimal.Pos (Nat.iter k Decimal.D0 u))).
  { destruct k as [|k].
    - cbn [replicate app Nat.iter] in *. rewrite unlit_lit in *.
      destruct u; [congruence | cbn in *; rewrite Hread; reflexivity ..].
    - cbn [replicate app] in *. rewrite unlit_cons in *.
      unfold NilZero.int_of_string, NilZero.uint_of_string.
      change (Ascii.eqb (ascii_of_N 48) "-") with false. cbv iota.
      rewrite Hread. reflexivity. }
  rewrite Hint. cbn [fmap option_fmap option_map].
  f_equal. change (Z.of_uint (Nat.iter k Decimal.D0 u) = m).
  rewrite of_uint_leading_zeros.
  change (Z.of_int (Decimal.Pos u) = m). rewrite <- Hpos. apply DecimalZ.of_to.
Qed.

Lemma read_int_format (m : Z) : read_int (format_02d m) = Some m.
Proof.
  destruct (Z_le_gt_dec 0 m) as [Hm|Hm].
  - unfold format_02d. apply read_int_padded, Hm.
  - unfold format_02d, str_of_int.
    destruct m as [|p|p]; try lia. cbn [Z.to_int NilZero.string_of_int].
    pose proof (Unsigned.to_uint_nonnil p) as Hp.
    rewrite (nilzero_nonnil _ Hp).
    replace (2 - length (lit (String "-" (NilEmpty.string_of_uint (Pos.to_uint p)))))%nat
      with 0%nat
      by (destruct (Pos.to_uint p); [congruence | reflexivity ..]).
    cbn [replicate app]. unfold read_int. rewrite unlit_lit.
    rewrite <- (nilzero_nonnil _ Hp).
    change (String "-" (NilZero.string_of_uint (Pos.to_uint p)))
      with (NilZero.string_of_int (Z.to_int (Z.neg p))).
    rewrite NilZero.isi; [| discriminate | cbn; congruence].
    cbn [fmap option_fmap option_map]. f_equal. apply DecimalZ.of_to.
Qed.

Lemma seconds_take_two_characters (r : Z) :
  0 <= r < 60 -> length (format_02d r) = 2%nat.
Proof.
  intros Hr.
  assert (Hall : forallb (fun n => (length (format_02d (Z.of_nat n)) =? 2)%nat)
                   (seq 0 60) = true) by (vm_compute; reflexivity).
  rewrite forallb_forall in Hall.
  specialize (Hall (Z.to_nat r)).
  rewrite Z2Nat.id in Hall by lia.
  apply Nat.eqb_eq, Hall, in_seq. lia.
Qed.

(** X22. For every non-zero [int], [format_duration] gives minutes, a
    colon and seconds; the seconds take exactly two characters, and the
    number of seconds can be read back from the text, so no two
    durations are shown alike. *)
Theorem duration_reads_back (seconds : Z) :
  seconds <> 0 ->
  exists mm ss,
    format_duration (PInt seconds) = Ok (mm ++ lit ":" ++ ss)
    /\ length ss = 2%nat
    /\ read_duration (mm ++ lit ":" ++ ss) = Some seconds.
Proof.
  intros Hz. exists (format_02d (seconds / 60)), (format_02d (seconds mod 60)).
  split; [|split].
  - unfold format_duration. cbn [truthy].
    destruct (Z.eqb_spec seconds 0); [contradiction | reflexivity].
  - apply seconds_take_two_characters, Z.mod_pos_bound. lia.
  - unfold read_duration.
    change (lit ":" ++ format_02d (seconds mod 60))
      with (58%N :: format_02d (seconds mod 60)).
    rewrite split_at_colon_app.
    + cbn [mbind option_bind]. rewrite !read_int_format. cbn [mbind option_bind].
      f_equal. pose proof (Z.div_mod seconds 60). lia.
    + intros Hin. pose proof (format_02d_characters (seconds / 60)) as Hc.
      rewrite Forall_forall in Hc. destruct (Hc _ Hin) as [H|[H1 H2]];
        [discriminate | apply H2; reflexivity].
Qed.

End Durations.

Lemma duration_reads_back_witness :
  exists mm ss,
    App.format_duration (PInt 754) = Ok (mm ++ lit ":" ++ ss)
    /\ length ss = 2%nat
    /\ read_duration (mm ++ lit ":" ++ ss) = Some 754.
Proof. exact (duration_reads_back 754 ltac:(discriminate)). Defined.

(** ** The menus of [UserInterface] *)

Section Menus.
Import UserInterface.

Lemma bind_print_shows {A} (line : list fragment) (k : unit -> M io A) (s : io) :
  bind (print line) k s = k tt (shows s [Printed line]).
Proof. reflexivity. Qed.

(** The loop returns the value of the first accepted line, after one
    prompt and one complaint for each line before it. *)
Lemma ask_first_accepted {A} (prompt : string) (accept : pystr -> option A)
    (complaint : string) (skipped : list pystr) (good : pystr) (a : A)
    (rest : list pystr) (shown : list out_event) :
  Forall (fun line => accept line = None) skipped ->
  accept good = Some a ->
  ask prompt accept complaint (skipped ++ good :: rest) shown
  = (Ok a, rest,
     shown ++ flat_map (fun _ => [Prompt prompt; Printed [Txt complaint]]) skipped
     ++ [Prompt prompt]).
Proof.
  intros Hskip Hgood. revert shown.
  induction Hskip as [|line skipped Hline _ IH]; intros shown.
  - cbn. rewrite Hgood. reflexivity.
  - cbn [app ask flat_map]. rewrite Hline, IH.
    rewrite <- !app_assoc. reflexivity.
Qed.

Lemma ask_loop_first_accepted {A} (prompt : string) (accept : pystr -> option A)
    (complaint : string) (skipped : list pystr) (good : pystr) (a : A)
    (rest : list pystr) (s : io) :
  stdin s = skipped ++ good :: rest ->
  Forall (fun line => accept line = None) skipped ->
  accept good = Some a ->
  ask_loop prompt accept complaint s
  = (Ok a, {| stdin := rest;
              out := out s ++ flat_map (fun _ => [Prompt prompt; Printed [Txt complaint]]) skipped
                     ++ [Prompt prompt];
              calls := calls s |}).
Proof.
  intros Hin Hskip Hgood. unfold ask_loop.
  rewrite Hin, (ask_first_accepted _ _ _ _ _ _ _ _ Hskip Hgood). reflexivity.
Qed.

(** What an ended loop leaves: a value, or [EOFError] when the input ran
    out. *)
Lemma ask_loop_outcome {A} (prompt : string) (accept : pystr -> option A)
    (complaint : string) (s : io) :
  exists r s',
    ask_loop prompt accept complaint s = (r, s')
    /\ calls s' = calls s
    /\ ((exists line a, r = Ok a /\ accept line = Some a)
        \/ r = Raise (Exception "EOFError")).
Proof.
  unfold ask_loop.
  assert (H : forall lines shown,
            (exists line a, (ask prompt accept complaint lines shown).1.1 = Ok a
                            /\ accept line = Some a)
            \/ (ask prompt accept complaint lines shown).1.1
               = Raise (Exception "EOFError")).
  { induction lines as [|line lines IH]; intros shown; [right; reflexivity|].
    cbn [ask]. destruct (accept line) as [a|] eqn:Ha; [left; eauto | apply IH]. }
  specialize (H (stdin s) (out s)).
  destruct (ask prompt accept complaint (stdin s) (out s)) as [[r rest] shown].
  cbn [fst] in H. eexists _, _. split; [reflexivity|]. split; [reflexivity|].
  exact H.
Qed.

Lemma quality_table (line : pystr) (q : Quality) :
  quality_of_line line = Some q
  <-> (strip line, q) ∈ [([], BEST); (lit "1", BEST); (lit "2", HD_4K);
                         (lit "3", HD_1080); (lit "4", HD_720);
                         (lit "5", AUDIO_ONLY)].
Proof.
  unfold quality_of_line, QUALITY_CHOICES.
  destruct (strip line) as [|c x] eqn:Hs; cbn [nonempty negb].
  - rewrite elem_of_cons. split.
    + intros [= <-]. left. reflexivity.
    + intros [[= <-] | Hin]; [reflexivity|].
      exfalso. rewrite !elem_of_cons, elem_of_nil in Hin.
      intuition discriminate.
  - rewrite <- elem_of_list_to_map
      by (apply (bool_decide_unpack _); vm_compute; exact I).
    rewrite (elem_of_cons _ _ ([], BEST)). split; [auto|].
    intros [H|H]; [discriminate | exact H].
Qed.

(** X23. [get_quality_choice] returns the quality of the first line that,
    stripped, is empty (the default, [BEST]) or one of 1 to 5; every line
    before it is answered with the complaint, the lines after it are left
    unread, and no library call is made. *)
Theorem quality_menu_takes_first_valid_line (s : io) (skipped : list pystr)
    (good : pystr) (rest : list pystr) (q : Quality) :
  stdin s = skipped ++ good :: rest ->
  Forall (fun line => quality_of_line line = None) skipped ->
  (strip good, q) ∈ [([], BEST); (lit "1", BEST); (lit "2", HD_4K);
                     (lit "3", HD_1080); (lit "4", HD_720);
                     (lit "5", AUDIO_ONLY)] ->
  exists s' menu,
    get_quality_choice s = (Ok q, s')
    /\ stdin s' = rest /\ calls s' = calls s
    /\ length menu = 6%nat
    /\ out s'
       = out s ++ menu
         ++ flat_map (fun _ => [Prompt "\nEnter choice (1-5) [default: 1]: ";
                                Printed [Txt "Invalid choice. Please enter 1-5."]])
              skipped
         ++ [Prompt "\nEnter choice (1-5) [default: 1]: "].
Proof.
  intros Hin Hskip Hgood. apply quality_table in Hgood.
  unfold get_quality_choice. rewrite !bind_print_shows, !shows_app.
  erewrite ask_loop_first_accepted; [|exact Hin|exact Hskip|exact Hgood].
  eexists _, _. split; [reflexivity|]. split; [reflexivity|].
  split; [reflexivity|]. cbn [out shows]. rewrite <- app_assoc.
  split; [|reflexivity]. reflexivity.
Qed.

(** X24. [get_format_preference] never returns a format other than MP4
    without forced conversion, whatever the user types; and a line that
    picks WebM, MKV or AVI ends the dialogue: no conversion question is
    asked. *)
Theorem other_formats_always_convert (s : io) :
  (forall fmt force s',
     get_format_preference s = (Ok (fmt, force), s') ->
     fmt = MP4 \/ force = true)
  /\ (forall skipped good rest fmt,
        stdin s = skipped ++ good :: rest ->
        Forall (fun line => format_of_line line = None) skipped ->
        format_of_line good = Some fmt -> fmt <> MP4 ->
        exists s',
          get_format_preference s = (Ok (fmt, true), s')
          /\ stdin s' = rest /\ calls s' = calls s).
Proof.
  unfold get_format_preference. rewrite !bind_print_shows, !shows_app.
  set (s1 := shows s _). split.
  - intros fmt force s'. unfold bind at 1.
    destruct (ask_loop "\nEnter choice (1-4) [default: 1]: " format_of_line _ s1)
      as [[choice|e] s2]; [|discriminate].
    case_bool_decide as Hmp4.
    + subst choice. rewrite !bind_print_shows. unfold bind at 1.
      destruct (ask_loop _ force_of_line _ _) as [[f|e] s3]; [|discriminate].
      unfold bind, when, ret, print, show.
      destruct f; intros [= <- _ _]; auto.
    + unfold ret. intros [= <- <- _]. auto.
  - intros skipped good rest fmt Hin Hskip Hgood Hother.
    unfold bind at 1.
    erewrite ask_loop_first_accepted; [|exact Hin|exact Hskip|exact Hgood].
    rewrite bool_decide_eq_false_2 by exact Hother.
    eexists. split; [reflexivity|]. split; reflexivity.
Qed.

(** X25. [is_playlist_download] reads exactly one line and returns
    whether it is y or yes; the URL and the metadata only choose the
    wording of the question. With no input left it ends in
    [EOFError]. *)
Theorem playlist_answer_decides (url : pystr)
    (video_info : option (gmap string pyval)) (s : io) :
  (forall line rest,
     stdin s = line :: rest ->
     exists s',
       is_playlist_download url video_info s = (Ok (says_yes line), s')
       /\ stdin s' = rest /\ calls s' = calls s)
  /\ (stdin s = [] ->
      exists s',
        is_playlist_download url video_info s
        = (Raise (Exception "EOFError"), s')).
Proof.
  assert (Hask : forall (prompt : string) (s0 : io) line rest,
            stdin s0 = line :: rest ->
            bind (input prompt)
              (fun choice => if says_yes choice then ret true else ret false) s0
            = (Ok (says_yes line),
               {| stdin := rest; out := out s0 ++ [Prompt prompt];
                  calls := calls s0 |})).
  { intros prompt s0 line rest Hs0. destruct s0 as [i o c].
    cbn [stdin] in Hs0. subst i. cbv [bind input show stdin out calls].
    destruct (says_yes line); reflexivity. }
  assert (Heof : forall (prompt : string) (s0 : io),
            stdin s0 = [] ->
            exists s', bind (input prompt)
                         (fun choice => if says_yes choice then ret true else ret false) s0
                       = (Raise (Exception "EOFError"), s')).
  { intros prompt s0 Hs0. destruct s0 as [i o c].
    cbn [stdin] in Hs0. subst i. cbv [bind input show stdin out calls].
    eauto. }
  unfold is_playlist_download. split.
  - intros line rest Hin.
    destruct (is_infix _ _ || is_infix _ _);
      [|destruct (match video_info with Some _ => _ | None => _ end)];
      rewrite ?bind_print_shows;
      (erewrite Hask; [eexists; split; [reflexivity | split; reflexivity] | exact Hin]).
  - intros Hin.
    destruct (is_infix _ _ || is_infix _ _);
      [|destruct (match video_info with Some _ => _ | None => _ end)];
      rewrite ?bind_print_shows; apply Heof; exact Hin.
Qed.

(** X26. [get_output_settings] hands on what was typed, stripped: an
    empty directory entry becomes the current directory, and the custom
    file name is [None] or a non-empty name with no whitespace at either
    end, never the empty string. *)
Theorem output_settings_are_stripped (cwd : pystr)
    (video_info : option (gmap string pyval)) (s : io)
    (line1 line2 : pystr) (rest : list pystr) :
  stdin s = line1 :: line2 :: rest ->
  (forall info title, video_info = Some info ->
     info !! "title"%string = Some title -> truthy title = true ->
     exists t, title = PStr t) ->
  exists s' name,
    get_output_settings cwd video_info s
    = (Ok (if nonempty (strip line1) then strip line1 else cwd, name), s')
    /\ stdin s' = rest /\ calls s' = calls s
    /\ name = (if nonempty (strip line2) then Some (strip line2) else None)
    /\ name <> Some []
    /\ (forall f, name = Some f ->
          no_leading_whitespace f /\ no_trailing_whitespace f).
Proof.
  intros Hin Htitle.
  assert (Hread : forall (prompt : list fragment) (s0 : io) line rest0,
            stdin s0 = line :: rest0 ->
            input_f prompt s0
            = (Ok line, {| stdin := rest0; out := out s0 ++ [Printed prompt];
                           calls := calls s0 |})).
  { intros prompt s0 line rest0 Hs0. destruct s0 as [i o c].
    cbn [stdin] in Hs0. subst i. reflexivity. }
  unfold get_output_settings. cbv zeta.
  unfold bind at 1. rewrite (Hread _ _ _ _ Hin).
  set (s1 := {| stdin := line2 :: rest; out := _; calls := calls s |}).
  assert (Hsuggest : exists suggestion,
    match video_info with
    | Some info =>
        if dict_truthy info && truthy (dict_get info "title" PNone)
        then bind (getitem info "title")
               (fun title => bind (clean_title title)
                  (fun clean_title : pystr =>
                     ret [Txt " [suggested: "; Str clean_title; Txt "]"]))
        else ret []
    | None => ret []
    end s1 = (Ok suggestion, s1)).
  { destruct video_info as [info|]; [|eexists; reflexivity].
    destruct (dict_truthy info); cbn [andb]; [|eexists; reflexivity].
    unfold dict_get, bind, getitem.
    destruct (info !! "title"%string) as [title|] eqn:Ht;
      cbn [default from_option id]; [|eexists; reflexivity].
    destruct (truthy title) eqn:Htruthy; [|eexists; reflexivity].
    destruct (Htitle info title eq_refl Ht Htruthy) as [t ->].
    eexists. reflexivity. }
  destruct Hsuggest as [suggestion Hsuggest].
  unfold bind at 1. rewrite Hsuggest.
  unfold bind at 1. rewrite (Hread _ s1 line2 rest eq_refl).
  eexists _, _. split; [reflexivity|]. split; [reflexivity|].
  split; [reflexivity|]. split; [reflexivity|]. split.
  - destruct (strip line2); cbn; congruence.
  - intros f Hf. destruct (nonempty (strip line2)); [|discriminate].
    injection Hf as <-. split; [apply strip_no_leading | apply strip_no_trailing].
Qed.

End Menus.

Lemma quality_menu_takes_first_valid_line_witness :
  exists s' menu,
    UserInterface.get_quality_choice
      {| stdin := [lit "9"; lit "hd"; lit " 5 "; lit "1"]; out := []; calls := [] |}
    = (Ok AUDIO_ONLY, s')
    /\ stdin s' = [lit "1"] /\ calls s' = []
    /\ length menu = 6%nat
    /\ out s'
       = [] ++ menu
         ++ flat_map (fun _ => [Prompt "\nEnter choice (1-5) [default: 1]: ";
                                Printed [Txt "Invalid choice. Please enter 1-5."]])
              [lit "9"; lit "hd"]
         ++ [Prompt "\nEnter choice (1-5) [default: 1]: "].
Proof.
  exact (quality_menu_takes_first_valid_line
           {| stdin := [lit "9"; lit "hd"; lit " 5 "; lit "1"]; out := []; calls := [] |}
           [lit "9"; lit "hd"] (lit " 5 ") [lit "1"] AUDIO_ONLY eq_refl
           ltac:(repeat constructor)
           ltac:(do 5 apply list_elem_of_further; apply list_elem_of_here)).
Defined.

Lemma other_formats_always_convert_witness :
  exists s',
    UserInterface.get_format_preference
      {| stdin := [lit "x"; lit "3"; lit "n"]; out := []; calls := [] |}
    = (Ok (MKV, true), s')
    /\ stdin s' = [lit "n"] /\ calls s' = [].
Proof.
  destruct (other_formats_always_convert
              {| stdin := [lit "x"; lit "3"; lit "n"]; out := []; calls := [] |})
    as [_ Hpick].
  exact (Hpick [lit "x"] (lit "3") [lit "n"] MKV eq_refl
           ltac:(repeat constructor) eq_refl ltac:(discriminate)).
Defined.

Lemma playlist_answer_decides_witness :
  exists s',
    UserInterface.is_playlist_download (lit "https://youtu.be/abc?list=PL1") None
      {| stdin := [lit " Yes "]; out := []; calls := [] |}
    = (Ok true, s')
    /\ stdin s' = [] /\ calls s' = [].
Proof.
  destruct (playlist_answer_decides (lit "https://youtu.be/abc?list=PL1") None
              {| stdin := [lit " Yes "]; out := []; calls := [] |})
    as [Hline _].
  exact (Hline (lit " Yes ") [] eq_refl).
Defined.

Lemma output_settings_are_stripped_witness :
  exists s' name,
    UserInterface.get_output_settings (lit "/home/me") (Some sample_info)
      {| stdin := [lit "  "; lit " talk.mp4 "]; out := []; calls := [] |}
    = (Ok (lit "/home/me", name), s')
    /\ stdin s' = [] /\ calls s' = []
    /\ name = Some (lit "talk.mp4")
    /\ name <> Some []
    /\ (forall f, name = Some f ->
          no_leading_whitespace f /\ no_trailing_whitespace f).
Proof.
  exact (output_settings_are_stripped (lit "/home/me") (Some sample_info)
           {| stdin := [lit "  "; lit " talk.mp4 "]; out := []; calls := [] |}
           (lit "  ") (lit " talk.mp4 ") [] eq_refl
           ltac:(intros info title [= <-] Ht _;
                 vm_compute in Ht; injection Ht as <-; eauto)).
Defined.

(** ** [UserInterface.get_url] *)

Section Strip_again.

Lemma lstrip_fixed (s : pystr) : no_leading_whitespace s -> lstrip s = s.
Proof.
  intros H. destruct s as [|c s]; [reflexivity|].
  cbn [lstrip]. rewrite (H c eq_refl). reflexivity.
Qed.

Lemma rstrip_fixed (s : pystr) : no_trailing_whitespace s -> rstrip s = s.
Proof.
  intros H. unfold rstrip. rewrite lstrip_fixed; [apply rev_involutive|].
  intros c Hc. apply H. rewrite <- (rev_involutive s), last_rev. exact Hc.
Qed.

Lemma strip_strip (s : pystr) : strip (strip s) = strip s.
Proof.
  unfold strip at 1.
  rewrite (lstrip_fixed _ (strip_no_leading s)).
  apply rstrip_fixed, strip_no_trailing.
Qed.

End Strip_again.

Section GetUrl.
Import UserInterface.
Variable lib : Library.

Lemma bind_eval {A B} (m : M io A) (k : A -> M io B) (s : io) :
  bind m k s
  = match m s with
    | (Ok a, s') => k a s'
    | (Raise e, s') => (Raise e, s')
    end.
Proof. reflexivity. Qed.

Lemma input_cases (prompt : string) (s : io) :
  input prompt s
  = match stdin s with
    | l :: ls => (Ok l, {| stdin := ls; out := out s ++ [Prompt prompt];
                           calls := calls s |})
    | [] => (Raise (Exception "EOFError"), shows s [Prompt prompt])
    end.
Proof. unfold input, bind, show, shows. cbn. destruct (stdin s); reflexivity. Qed.

Ltac round_eq Hin Hne :=
  let again := fresh "again" in
  intros again; unfold get_url_round;
  rewrite bind_eval, input_cases, Hin; cbv beta iota zeta;
  rewrite Hne; cbn [negb].

Lemma dialogue_step_refl (s : io) : dialogue_step s s.
Proof.
  split; [reflexivity|]. exists []. split; [symmetry; apply app_nil_r | constructor].
Qed.

Lemma dialogue_step_trans (s1 s2 s3 : io) :
  dialogue_step s1 s2 -> dialogue_step s2 s3 -> dialogue_step s1 s3.
Proof.
  intros [Hs1 (n1 & Hc1 & Hq1)] [Hs2 (n2 & Hc2 & Hq2)]. split.
  - etransitivity; eassumption.
  - exists (n1 ++ n2). split; [rewrite Hc2, Hc1, app_assoc; reflexivity|].
    apply Forall_app. split; assumption.
Qed.

Lemma dialogue_step_shows (s : io) (events : list out_event) :
  dialogue_step s (shows s events).
Proof.
  split; [reflexivity|]. exists []. split; [symmetry; apply app_nil_r | constructor].
Qed.

Lemma confirm_rest (url : pystr) (lines : list pystr) (shown : list out_event) :
  (URLValidator.confirm url lines shown).1.2 `suffix_of` lines.
Proof.
  revert shown. induction lines as [|line rest IH]; intros shown; [reflexivity|].
  cbn [URLValidator.confirm].
  destruct (bool_decide (lower (strip line) ∈ [lit "y"; lit "yes"]));
    [apply suffix_cons_r; reflexivity|].
  destruct (bool_decide (lower (strip line) ∈ [lit "n"; lit "no"]));
    [apply suffix_cons_r; reflexivity|].
  apply suffix_cons_r, IH.
Qed.

Lemma ask_rest {A} (prompt : string) (accept : pystr -> option A)
    (complaint : string) (lines : list pystr) (shown : list out_event) :
  (ask prompt accept complaint lines shown).1.2 `suffix_of` lines.
Proof.
  revert shown. induction lines as [|line rest IH]; intros shown; [reflexivity|].
  cbn [ask]. destruct (accept line); [apply suffix_cons_r; reflexivity|].
  apply suffix_cons_r, IH.
Qed.

Lemma ask_loop_step {A} (prompt : string) (accept : pystr -> option A)
    (complaint : string) (s s' : io) (r : result A) :
  ask_loop prompt accept complaint s = (r, s') ->
  dialogue_step s s' /\ (forall e, r = Raise e -> ends_dialogue e).
Proof.
  intros Hrun. split.
  - revert Hrun. unfold ask_loop.
    pose proof (ask_rest prompt accept complaint (stdin s) (out s)) as H.
    destruct (ask prompt accept complaint (stdin s) (out s)) as [[r0 rest] shown].
    cbn [fst snd] in H. intros [= _ <-]. split; [exact H|].
    exists []. split; [symmetry; apply app_nil_r | constructor].
  - destruct (ask_loop_outcome prompt accept complaint s) as (r0 & s0 & Heq & _ & Hr).
    rewrite Hrun in Heq. injection Heq as <- _. intros e ->.
    destruct Hr as [(l & a & [=] & _) | [= ->]]. left. reflexivity.
Qed.

Lemma validate_url_step (url : pystr) (interactive : bool) (s s' : io)
    (r : result (bool * pystr)) :
  URLValidator.validate_url lib url interactive s = (r, s') ->
  dialogue_step s s'
  /\ (forall b p, r = Ok (b, p) -> p = strip url)
  /\ (forall e, r = Raise e -> ends_dialogue e).
Proof.
  rewrite validate_url_eval. cbv zeta.
  set (s1 := {| stdin := stdin s; out := out s;
                calls := calls s ++ [ExtractInfo URLValidator.probe_opts (strip url) false] |}).
  assert (H1 : dialogue_step s s1).
  { split; [reflexivity|]. eexists. split; [reflexivity|]. repeat constructor. }
  assert (Hrejected : forall events r0 s0,
            (if interactive
             then URLValidator.confirm_loop (strip url) (shows s1 events)
             else (Ok (false, strip url), s1)) = (r0, s0) ->
            dialogue_step s s0
            /\ (forall b p, r0 = Ok (b, p) -> p = strip url)
            /\ (forall e, r0 = Raise e -> ends_dialogue e)).
  { intros events r0 s0. destruct interactive.
    - unfold URLValidator.confirm_loop.
      pose proof (confirm_rest (strip url) (stdin (shows s1 events))
                    (out (shows s1 events))) as Hrest.
      pose proof (confirm_outcome (strip url) (stdin (shows s1 events))
                    (out (shows s1 events))) as Hout.
      destruct (URLValidator.confirm (strip url) (stdin (shows s1 events))
                  (out (shows s1 events))) as [[r1 rest] shown].
      cbn [fst snd] in Hrest, Hout. intros [= <- <-]. split.
      + apply (dialogue_step_trans _ s1); [exact H1|].
        split; [exact Hrest|]. exists []. split; [symmetry; apply app_nil_r | constructor].
      + split.
        * intros b p ->.
          destruct (existsb is_answer (stdin (shows s1 events)));
            [destruct Hout as [b' [= _ ->]]; reflexivity | discriminate Hout].
        * intros e ->.
          destruct (existsb is_answer (stdin (shows s1 events)));
            [destruct Hout as [b' [=]] | injection Hout as ->; left; reflexivity].
    - intros [= <- <-]. split; [exact H1|].
      split; [intros b p [= _ <-]; reflexivity | intros e [=]]. }
  destruct (URLValidator._matches_youtube_pattern lib (strip url)).
  { intros [= <- <-]. split; [apply dialogue_step_refl|].
    split; [intros b p [= _ <-]; reflexivity | intros e [=]]. }
  destruct (ydl_extract_info lib URLValidator.probe_opts (strip url) false)
    as [info|[cls|cls]].
  - destruct (bool_decide (is_Some info)); [|apply Hrejected].
    intros [= <- <-]. split; [exact H1|].
    split; [intros b p [= _ <-]; reflexivity | intros e [=]].
  - apply Hrejected.
  - intros [= <- <-]. split; [exact H1|].
    split; [intros b p [=] | intros e [= <-]; right; eauto].
Qed.

Lemma get_video_info_step (url : pystr) (s s' : io)
    (r : result (option (gmap string pyval))) :
  URLValidator.get_video_info lib url false s = (r, s') ->
  dialogue_step s s' /\ (forall e, r = Raise e -> ends_dialogue e).
Proof.
  rewrite fetch_eval. cbv zeta.
  set (s1 := {| stdin := stdin s; out := out s;
                calls := calls s ++ [ExtractInfo (URLValidator.info_opts false) url false] |}).
  assert (H1 : dialogue_step s s1).
  { split; [reflexivity|]. eexists. split; [reflexivity|]. repeat constructor. }
  destruct (ydl_extract_info lib (URLValidator.info_opts false) url false)
    as [info|[cls|cls]]; intros [= <- <-]; (split; [exact H1|]);
    intros e [= <-]. right. eauto.
Qed.

(** One round of [get_url] either goes on to the next round, having read
    at least one line, or ends; which of the two does not depend on what
    the next round is. A round that ends with a URL ends with a stripped,
    non-empty line of the input. *)
Lemma get_url_round_outcome (s : io) :
  exists o : io + (result pystr * io),
    (forall again,
       get_url_round lib again s
       = match o with inl s1 => again s1 | inr rs => rs end)
    /\ match o with
       | inl s1 =>
           (length (stdin s1) < length (stdin s))%nat /\ dialogue_step s s1
       | inr (r, s1) =>
           dialogue_step s s1
           /\ match r with
              | Ok url => url <> [] /\ exists line, line ∈ stdin s /\ url = strip line
              | Raise e => ends_dialogue e
              end
       end.
Proof.
  destruct (stdin s) as [|line rest] eqn:Hin.
  { exists (inr (Raise (Exception "EOFError"),
                 shows s [Prompt "\nEnter video URL (YouTube or other supported platforms): "])).
    split.
    - intros again. unfold get_url_round. rewrite bind_eval, input_cases, Hin.
      reflexivity.
    - split; [apply dialogue_step_shows | left; reflexivity]. }
  set (s1 := {| stdin := rest;
                out := out s ++ [Prompt "\nEnter video URL (YouTube or other supported platforms): "];
                calls := calls s |}).
  assert (H1 : dialogue_step s s1).
  { split; [cbn [stdin s1]; rewrite Hin; apply suffix_cons_r; reflexivity|].
    exists []. split; [symmetry; apply app_nil_r | constructor]. }
  assert (Hless : forall s', dialogue_step s1 s' ->
            (length (stdin s') < length (line :: rest))%nat /\ dialogue_step s s').
  { intros s' Hs'. split; [|apply (dialogue_step_trans _ s1); assumption].
    destruct Hs' as [Hsuf _]. apply suffix_length in Hsuf.
    cbn [stdin s1 length] in *. lia. }
  destruct (nonempty (strip line)) eqn:Hne.
  2: { exists (inl (shows s1 [Printed [Txt "URL cannot be empty. Please try again."]])).
       split; [round_eq Hin Hne; reflexivity | apply Hless, dialogue_step_shows]. }
  destruct (URLValidator.validate_url lib (strip line) true s1)
    as [[[is_valid p]|e] s2] eqn:Hv;
    pose proof (validate_url_step _ _ _ _ _ Hv) as (H2 & Hp & He).
  2: { exists (inr (Raise e, s2)). split.
       - round_eq Hin Hne. rewrite bind_eval. fold s1. rewrite Hv. reflexivity.
       - split; [apply (dialogue_step_trans _ s1); assumption | apply He; reflexivity]. }
  specialize (Hp is_valid p eq_refl). rewrite strip_strip in Hp. subst p.
  assert (Hurl : strip line <> [] /\ exists l, l ∈ line :: rest /\ strip line = strip l).
  { split; [intros Hnil; rewrite Hnil in Hne; discriminate Hne|].
    exists line. split; [left | reflexivity]. }
  destruct is_valid.
  2: { exists (inl (shows s2 [Printed [Txt "Skipping this URL. Please try another one."]])).
       split.
       - round_eq Hin Hne. rewrite bind_eval. fold s1. rewrite Hv. reflexivity.
       - apply Hless, (dialogue_step_trans _ s2); [exact H2 | apply dialogue_step_shows]. }
  set (s3 := shows s2 [Printed [Txt "Getting video information..."]]).
  assert (H3 : dialogue_step s1 s3).
  { apply (dialogue_step_trans _ s2); [exact H2 | apply dialogue_step_shows]. }
  destruct (URLValidator.get_video_info lib (strip line) false s3)
    as [[info|e] s4] eqn:Hi;
    pose proof (get_video_info_step _ _ _ _ Hi) as [H4 He4];
    apply (dialogue_step_trans _ _ _ H3) in H4.
  2: { exists (inr (Raise e, s4)). split.
       - round_eq Hin Hne. rewrite bind_eval. fold s1. rewrite Hv.
         cbv beta iota. cbn [negb]. rewrite bind_print_shows, bind_eval.
         fold s3. rewrite Hi. reflexivity.
       - split; [apply (dialogue_step_trans _ s1); assumption | apply He4; reflexivity]. }
  assert (Hasked : forall (A : Type) s5 prompt (accept : pystr -> option A) complaint
                     (r : result A) s6,
            dialogue_step s4 s5 ->
            ask_loop prompt accept complaint s5 = (r, s6) ->
            dialogue_step s1 s6 /\ (forall e, r = Raise e -> ends_dialogue e)).
  { intros A s5 prompt accept complaint r s6 H5 Ha.
    destruct (ask_loop_step _ _ _ _ _ _ Ha) as [H6 He6]. split; [|exact He6].
    apply (dialogue_step_trans _ s4); [exact H4|].
    apply (dialogue_step_trans _ s5); [exact H5 | exact H6]. }
  destruct (match info with Some i => dict_truthy i | None => false end) eqn:Hfound.
  - set (s5 := shows (shows s4 [Printed [Txt "Found: ";
                 Val (dict_get (default ∅ info) "title" (PStr (lit "Unknown title")))]])
                 [Printed [Txt "   By: ";
                 Val (dict_get (default ∅ info) "uploader" (PStr (lit "Unknown uploader")))]]).
    destruct (ask_loop "Proceed with this video? (y/n): " proceed_of_line
                "Please enter 'y' or 'n'" s5) as [[proceed|e] s6] eqn:Ha;
      pose proof (Hasked _ _ _ _ _ _ _
                    (dialogue_step_trans _ _ _ (dialogue_step_shows _ _)
                       (dialogue_step_shows _ _)) Ha) as [H6 He6].
    + exists (if proceed then inr (Ok (strip line), s6) else inl s6). split.
      * round_eq Hin Hne. rewrite bind_eval. fold s1. rewrite Hv.
        cbv beta iota. cbn [negb]. rewrite bind_print_shows, bind_eval.
        fold s3. rewrite Hi. cbv beta iota. rewrite Hfound. cbv zeta.
        rewrite !bind_print_shows, bind_eval. fold s5. rewrite Ha.
        destruct proceed; reflexivity.
      * destruct proceed; [|apply Hless, H6].
        split; [apply (dialogue_step_trans _ s1); assumption | exact Hurl].
    + exists (inr (Raise e, s6)). split.
      * round_eq Hin Hne. rewrite bind_eval. fold s1. rewrite Hv.
        cbv beta iota. cbn [negb]. rewrite bind_print_shows, bind_eval.
        fold s3. rewrite Hi. cbv beta iota. rewrite Hfound. cbv zeta.
        rewrite !bind_print_shows, bind_eval. fold s5. rewrite Ha.
        reflexivity.
      * split; [apply (dialogue_step_trans _ s1); assumption | apply He6; reflexivity].
  - set (s5 := shows s4 [Printed [Txt "Could not retrieve video information, but URL might still work."]]).
    destruct (ask_loop "Try to download anyway? (y/n): " anyway_of_line
                "Please enter 'y' or 'n'" s5) as [[proceed|e] s6] eqn:Ha;
      pose proof (Hasked _ _ _ _ _ _ _ (dialogue_step_shows _ _) Ha) as [H6 He6].
    + exists (if proceed then inr (Ok (strip line), s6) else inl s6). split.
      * round_eq Hin Hne. rewrite bind_eval. fold s1. rewrite Hv.
        cbv beta iota. cbn [negb]. rewrite bind_print_shows, bind_eval.
        fold s3. rewrite Hi. cbv beta iota. rewrite Hfound.
        rewrite !bind_print_shows, bind_eval. fold s5. rewrite Ha.
        destruct proceed; reflexivity.
      * destruct proceed; [|apply Hless, H6].
        split; [apply (dialogue_step_trans _ s1); assumption | exact Hurl].
    + exists (inr (Raise e, s6)). split.
      * round_eq Hin Hne. rewrite bind_eval. fold s1. rewrite Hv.
        cbv beta iota. cbn [negb]. rewrite bind_print_shows, bind_eval.
        fold s3. rewrite Hi. cbv beta iota. rewrite Hfound.
        rewrite !bind_print_shows, bind_eval. fold s5. rewrite Ha.
        reflexivity.
      * split; [apply (dialogue_step_trans _ s1); assumption | apply He6; reflexivity].
Qed.

(** The loop ends by itself: with more rounds allowed than there are
    lines of input, the number of rounds allowed does not matter. *)
Lemma get_url_loop_outcome (fuel : nat) (s : io) :
  (length (stdin s) < fuel)%nat ->
  exists r s',
    (forall more, (length (stdin s) < more)%nat -> get_url_loop lib more s = (r, s'))
    /\ dialogue_step s s'
    /\ match r with
       | Ok url => url <> [] /\ exists line, line ∈ stdin s /\ url = strip line
       | Raise e => ends_dialogue e
       end.
Proof.
  revert s. induction fuel as [|fuel IH]; intros s Hfuel; [lia|].
  destruct (get_url_round_outcome s) as ([s1|[r s1]] & Hround & Ho).
  - destruct Ho as [Hless H1].
    destruct (IH s1 ltac:(lia)) as (r & s' & Hloop & Hstep & Hr).
    exists r, s'. split; [|split].
    + intros [|more] Hmore; [lia|].
      cbn [get_url_loop]. rewrite Hround. apply Hloop. lia.
    + apply (dialogue_step_trans _ s1); assumption.
    + destruct r as [url|e]; [|exact Hr].
      destruct Hr as (Hurl & line & Hline & ->). split; [exact Hurl|].
      exists line. split; [|reflexivity].
      destruct H1 as [[k Hk] _]. rewrite Hk. apply elem_of_app. right. exact Hline.
  - destruct Ho as [H1 Hr]. exists r, s1. split; [|split; assumption].
    intros [|more] Hmore; [lia|]. cbn [get_url_loop]. apply Hround.
Qed.

(** X28. [get_url] ends however the user answers, in one of three ways:
    with a URL, with [EOFError] when the input runs out, or with an
    exception outside [Exception] that the library raised. The URL it
    returns is a line the user typed, stripped, and it is not empty. On
    the way it only reads lines from the front of the input and asks the
    library for metadata: nothing is downloaded. The rounds of its
    [while True] are bounded by the lines of input: allowing more rounds
    changes nothing. *)
Theorem get_url_ends_with_typed_url (s : io) :
  exists r s',
    get_url lib s = (r, s')
    /\ (forall fuel, (length (stdin s) < fuel)%nat -> get_url_loop lib fuel s = (r, s'))
    /\ stdin s' `suffix_of` stdin s
    /\ (exists new, calls s' = calls s ++ new /\ Forall is_query new)
    /\ match r with
       | Ok url => url <> [] /\ exists line, line ∈ stdin s /\ url = strip line
       | Raise e => e = Exception "EOFError" \/ exists cls, e = BaseException cls
       end.
Proof.
  destruct (get_url_loop_outcome (S (length (stdin s))) s ltac:(lia))
    as (r & s' & Hloop & [Hsuffix Hcalls] & Hr).
  exists r, s'. split; [apply Hloop; lia|].
  split; [exact Hloop|]. split; [exact Hsuffix|]. split; [exact Hcalls | exact Hr].
Qed.

(** X29. A URL that matches a YouTube pattern and whose metadata the
    library finds is shown with its title and uploader, and the next line
    decides: y, yes or an empty line returns the stripped URL; n or no
    starts over with the lines that follow, as if [get_url] had been
    called anew. *)
Theorem proceed_answer_decides (s : io) (line answer : pystr)
    (rest : list pystr) (info : gmap string pyval) (proceed : bool) :
  stdin s = line :: answer :: rest ->
  strip line <> [] ->
  URLValidator._matches_youtube_pattern lib (strip line) = true ->
  ydl_extract_info lib (URLValidator.info_opts false) (strip line) false
  = Ok (Some info) ->
  dict_truthy info = true ->
  proceed_of_line answer = Some proceed ->
  let s' :=
    {| stdin := rest;
       out := out s
              ++ [Prompt "\nEnter video URL (YouTube or other supported platforms): ";
                  Printed [Txt "Getting video information..."];
                  Printed [Txt "Found: ";
                           Val (dict_get info "title" (PStr (lit "Unknown title")))];
                  Printed [Txt "   By: ";
                           Val (dict_get info "uploader" (PStr (lit "Unknown uploader")))];
                  Prompt "Proceed with this video? (y/n): "];
       calls := calls s
                ++ [ExtractInfo (URLValidator.info_opts false) (strip line) false] |} in
  get_url lib s = if proceed then (Ok (strip line), s') else get_url lib s'.
Proof.
  intros Hin Hurl Hpattern Hlib Htruthy Hanswer s'.
  assert (Hround : forall again,
            get_url_round lib again s
            = if proceed then (Ok (strip line), s') else again s').
  { intros again. unfold get_url_round.
    rewrite bind_eval, input_cases, Hin. cbv beta iota zeta.
    replace (nonempty (strip line)) with true
      by (destruct (strip line); [congruence | reflexivity]).
    cbn [negb].
    rewrite bind_eval, validate_url_eval. cbv zeta.
    rewrite strip_strip, Hpattern. cbv beta iota. cbn [negb].
    rewrite bind_print_shows, bind_eval, fetch_eval, Hlib. cbv beta iota zeta.
    cbn [default]. rewrite Htruthy. rewrite !bind_print_shows, bind_eval.
    rewrite (ask_loop_first_accepted _ _ _ [] answer proceed rest);
      [|reflexivity|constructor|exact Hanswer].
    cbn [stdin out calls shows flat_map app]. subst s'.
    rewrite <- !app_assoc. cbn [app]. destruct proceed; reflexivity. }
  unfold get_url at 1. cbn [get_url_loop]. rewrite Hround.
  destruct proceed; [reflexivity|].
  destruct (get_url_loop_outcome (S (length (stdin s'))) s' ltac:(lia))
    as (r & s'' & Hloop & _).
  unfold get_url. rewrite !Hloop; [reflexivity| lia |].
  rewrite Hin. cbn [stdin s' length]. lia.
Qed.

End GetUrl.

Lemma proceed_answer_decides_witness :
  UserInterface.get_url helpful_library
    {| stdin := [lit " https://youtu.be/abc "; lit "Y"]; out := []; calls := [] |}
  = (Ok (lit "https://youtu.be/abc"),
     {| stdin := [];
        out := [Prompt "\nEnter video URL (YouTube or other supported platforms): ";
                Printed [Txt "Getting video information..."];
                Printed [Txt "Found: "; Val (PStr (lit "talk"))];
                Printed [Txt "   By: "; Val (PStr (lit "Unknown uploader"))];
                Prompt "Proceed with this video? (y/n): "];
        calls := [ExtractInfo (URLValidator.info_opts false)
                    (lit "https://youtu.be/abc") false] |}).
Proof.
  exact (proceed_answer_decides helpful_library
           {| stdin := [lit " https://youtu.be/abc "; lit "Y"]; out := []; calls := [] |}
           (lit " https://youtu.be/abc ") (lit "Y") [] sample_info true
           eq_refl ltac:(vm_compute; discriminate) ltac:(vm_compute; reflexivity)
           eq_refl ltac:(vm_compute; reflexivity) ltac:(vm_compute; reflexivity)).
Defined.
